(** * DailyGammon score synchronizer: a shallow embedding of
      [dailygammonNewPW_scores3.py] and the properties of its
      reconciliation engine.

    The script reads a workbook (sheets "Players", "Links", "Matches",
    "match_flag", "control"), talks to the DailyGammon site through an HTTP
    session, and writes match identifiers and scores back into the workbook.

    Modelling choices, all visible in the definitions below:
    - Python [str] is [string] restricted to ASCII: [lower] maps A-Z to a-z,
      whitespace is the ASCII part of [str.isspace], digits are 0-9.
    - A cell value is [None], an [int] or a [str] (the only kinds the script
      reads or writes).
    - An openpyxl worksheet is a finite map from (row, column) to cells; a
      cell that was never written reads as [None].
    - Python dictionaries keep insertion order, so they are association lists
      with in-place update ([PyDict]).
    - BeautifulSoup parsing is outside the model: a fetched document is given
      by what the script observes of it (its rows, the text of their cells,
      the links found by the script's regular expressions).
    - Exceptions are an error monad; the HTTP traffic is recorded in a log. *)

From Stdlib Require Import Ascii String DecimalString.
From stdpp Require Import gmap strings list fin_maps.

Local Open Scope string_scope.
Local Open Scope Z_scope.

(* ===================================================================== *)
(** ** Python strings *)
(* ===================================================================== *)

Module PyStr.

(** [str.isspace] on ASCII: TAB, LF, VT, FF, CR, FS, GS, RS, US, SPACE. *)
Definition is_space (c : ascii) : bool :=
  let n := nat_of_ascii c in
  ((9 <=? n)%nat && (n <=? 13)%nat)
  || ((28 <=? n)%nat && (n <=? 32)%nat).

Definition is_digit (c : ascii) : bool :=
  let n := nat_of_ascii c in (48 <=? n)%nat && (n <=? 57)%nat.

Definition digit_val (c : ascii) : Z := Z.of_nat (nat_of_ascii c) - 48.

Definition lower_ascii (c : ascii) : ascii :=
  let n := nat_of_ascii c in
  if (65 <=? n)%nat && (n <=? 90)%nat then ascii_of_nat (n + 32) else c.

(** [s.lower()] *)
Fixpoint lower (s : string) : string :=
  match s with
  | EmptyString => EmptyString
  | String c r => String (lower_ascii c) (lower r)
  end.

Fixpoint lstrip (s : string) : string :=
  match s with
  | EmptyString => EmptyString
  | String c r => if is_space c then lstrip r else s
  end.

Fixpoint rstrip (s : string) : string :=
  match s with
  | EmptyString => EmptyString
  | String c r =>
      let r' := rstrip r in
      if is_space c && bool_decide (r' = EmptyString) then EmptyString
      else String c r'
  end.

(** [s.strip()] *)
Definition strip (s : string) : string := rstrip (lstrip s).

Fixpoint startswith (p s : string) : bool :=
  match p, s with
  | EmptyString, _ => true
  | String a p', String b s' => bool_decide (a = b) && startswith p' s'
  | String _ _, EmptyString => false
  end.

(** [needle in hay]; the empty string is in every string. *)
Fixpoint str_in (needle hay : string) : bool :=
  startswith needle hay
  || match hay with
     | EmptyString => false
     | String _ r => str_in needle r
     end.

(** [hay.find(needle)]: index of the first occurrence, [-1] if none. *)
Fixpoint find_from (needle hay : string) (i : Z) : Z :=
  if startswith needle hay then i
  else match hay with
       | EmptyString => -1
       | String _ r => find_from needle r (i + 1)
       end.

Definition find (hay needle : string) : Z := find_from needle hay 0.

(** [s.rsplit("/", 1)[-1]]: what follows the last slash, the whole string
    when there is none. *)
Fixpoint after_last_slash (s : string) : string :=
  match s with
  | EmptyString => EmptyString
  | String c r =>
      if bool_decide (c = "/"%char) && negb (str_in "/" r) then r
      else if str_in "/" r then after_last_slash r
      else s
  end.

(** [int(s)] on a run of ASCII digits, most significant first. *)
Fixpoint digits_value (acc : Z) (s : string) : Z :=
  match s with
  | EmptyString => acc
  | String c r => digits_value (10 * acc + digit_val c) r
  end.

(** The body of an integer literal accepted by [int(str)]: digits, with
    single underscores allowed between digits. [sep] records that the
    previous character was not a digit (start of the literal or an
    underscore), so that a digit must follow. *)
Fixpoint int_body (acc : Z) (sep : bool) (s : string) : option Z :=
  match s with
  | EmptyString => if sep then None else Some acc
  | String c r =>
      if is_digit c then int_body (10 * acc + digit_val c) false r
      else if bool_decide (c = "_"%char) && negb sep then int_body acc true r
      else None
  end.

(** [int(s)] for a string [s]: surrounding whitespace is ignored, one sign
    is allowed; [None] stands for [ValueError]. *)
Definition to_int (s : string) : option Z :=
  match strip s with
  | EmptyString => None
  | String c r =>
      if bool_decide (c = "-"%char) then Z.opp <$> int_body 0 true r
      else if bool_decide (c = "+"%char) then int_body 0 true r
      else int_body 0 true (String c r)
  end.

(** [str(n)] for an integer. *)
Definition of_int (z : Z) : string := NilZero.string_of_int (Z.to_int z).

End PyStr.

(* ===================================================================== *)
(** ** Python values held by worksheet cells *)
(* ===================================================================== *)

Inductive pyval : Type :=
| PyNone
| PyInt (z : Z)
| PyStr (s : string).

Global Instance pyval_eq_dec : EqDecision pyval.
Proof. solve_decision. Defined.

(** Truthiness, as tested by [if v:] and [not v]. *)
Definition truthy (v : pyval) : bool :=
match v with
| PyNone => false
| PyInt z => negb (z =? 0)
| PyStr s => negb (bool_decide (s = EmptyString))
end.

(** [str(v)] *)
Definition py_str (v : pyval) : string :=
match v with
| PyNone => "None"
| PyInt z => PyStr.of_int z
| PyStr s => s
end.

(** [int(v)]; [None] stands for the exception ([TypeError] on [None],
  [ValueError] on a string that is no integer literal). *)
Definition py_int (v : pyval) : option Z :=
match v with
| PyNone => None
| PyInt z => Some z
| PyStr s => PyStr.to_int s
end.

(** [v == 11] *)
Definition is_eleven (v : pyval) : bool := bool_decide (v = PyInt 11).

(* ===================================================================== *)
(** ** Insertion-ordered dictionaries *)
(* ===================================================================== *)

Module PyDict.
Section dict.
Context {K V : Type} `{EqDecision K}.

Definition t := list (K * V).

(** [d.get(k)] *)
Fixpoint get (k : K) (d : list (K * V)) : option V :=
  match d with
  | [] => None
  | (k', v) :: r => if decide (k = k') then Some v else get k r
  end.

(** [k in d] *)
Definition mem (k : K) (d : list (K * V)) : bool :=
  match get k d with Some _ => true | None => false end.

(** [d[k] = v]: an existing key keeps its position, a new key goes last. *)
Fixpoint set (k : K) (v : V) (d : list (K * V)) : list (K * V) :=
  match d with
  | [] => [(k, v)]
  | (k', v') :: r =>
      if decide (k = k') then (k, v) :: r else (k', v') :: set k v r
  end.

End dict.
End PyDict.

(* ===================================================================== *)
(** ** Worksheets and the workbook *)
(* ===================================================================== *)

(** An openpyxl cell: its value and the target of its hyperlink. *)
Record cell : Type := Cell { value : pyval; hyperlink : option string }.

Global Instance cell_eq_dec : EqDecision cell.
Proof. solve_decision. Defined.

Definition empty_cell : cell := Cell PyNone None.

(** A worksheet, addressed by (row, column), both counted from 1. The key
    instances are spelled out so that no instance search runs where a
    statement mentions [sheet]. *)
Abbreviation sheet :=
  (@gmap (nat * nat) (@prod_eq_dec nat Nat.eq_dec nat Nat.eq_dec)
         (@prod_countable nat Nat.eq_dec nat_countable nat Nat.eq_dec
                          nat_countable)
         cell).

(** [ws.cell(row=r, column=c)] *)
Definition cell_at (ws : sheet) (r c : nat) : cell :=
  default empty_cell (ws !! (r, c)).

(** [ws.cell(row=r, column=c).value] *)
Definition value_at (ws : sheet) (r c : nat) : pyval := value (cell_at ws r c).

(** [ws.cell(row=r, column=c).value = v] *)
Definition set_value (ws : sheet) (r c : nat) (v : pyval) : sheet :=
  <[(r, c) := Cell v (hyperlink (cell_at ws r c))]> ws.

(** [ws.cell(row=r, column=c).hyperlink = h] *)
Definition set_hyperlink (ws : sheet) (r c : nat) (h : string) : sheet :=
  <[(r, c) := Cell (value (cell_at ws r c)) (Some h)]> ws.

(** The loops that read a header:
    [while (v := ws.cell(...).value): names.append(str(v).strip()); k += 1]
    where the cell is [key k]. The loop stops at the first falsy cell. A
    worksheet has finitely many cells, so a [fuel] larger than their number
    is never used up (lemma [header_names_stops]). *)
Fixpoint header_names_fuel (fuel : nat) (ws : sheet) (key : nat → nat * nat)
    (k : nat) : list string :=
  match fuel with
  | O => []
  | S fuel' =>
      let v := value_at ws (key k).1 (key k).2 in
      if truthy v then
        PyStr.strip (py_str v) :: header_names_fuel fuel' ws key (S k)
      else []
  end.

Definition header_names (ws : sheet) (key : nat → nat * nat) (k : nat)
  : list string :=
  header_names_fuel (S (size ws)) ws key k.

(** Down column [c] from row [r]: [r += 1]. *)
Definition names_down (ws : sheet) (r c : nat) : list string :=
  header_names ws (λ k, (k, c)) r.

(** Along row [r] from column [c]: [c += 1]. *)
Definition names_right (ws : sheet) (r c : nat) : list string :=
  header_names ws (λ k, (r, k)) c.

(** [enumerate(l, start)] *)
Fixpoint enumerate {A : Type} (start : nat) (l : list A) : list (nat * A) :=
  match l with
  | [] => []
  | x :: r => (start, x) :: enumerate (S start) r
  end.

(** [l.index(x)]; [None] stands for [ValueError]. *)
Fixpoint index_of (x : string) (l : list string) : option nat :=
  match l with
  | [] => None
  | y :: r => if decide (x = y) then Some O else S <$> index_of x r
  end.

(** [{name: 2 + i for i, name in enumerate(names)}] *)
Definition col_index (names : list string) : list (string * nat) :=
  foldl (λ d p, PyDict.set p.2 p.1 d) [] (enumerate 2 names).

(** The workbook. The "Players" sheet is only read, through
    [iter_rows(min_row=2, max_col=1)]: it is given as the cells of column A
    from row 2 down to the sheet's last row. A sheet that does not exist yet
    ("match_flag", "control" on a first run) is the empty sheet. *)
Record workbook : Type := Workbook {
  ws_players : list cell;
  ws_links : sheet;
  ws_matches : sheet;
  ws_flag : sheet;
  ws_control : sheet
}.

Definition SENTINEL : string := "All match IDs filled".

(* ===================================================================== *)
(** ** The remote site *)
(* ===================================================================== *)

(** A [<tr>] of a match page: its text and the texts of its [<td>] cells. *)
Record tr : Type := Tr { tr_text : string; tr_tds : list string }.

(** The text of a match list page, as far as the script looks at it. *)
Record list_page : Type := ListPage {
  text_empty : bool;          (* the text is the empty string *)
  please_login : bool;        (* "Please Login" in resp.text *)
  page_rows : list tr         (* soup.find_all("tr") *)
}.

(** A [<tr>] of a player page: its text, the first link to [/bg/user/<id>]
    (link text and id), the id in the first link to [/bg/game/<id>/0/], and
    whether there is a link to [/bg/export/<id>]. *)
Record user_row : Type := UserRow {
  ur_text : string;
  ur_opponent : option (string * string);
  ur_match : option string;
  ur_export : bool
}.

(** What [session.get] or [session.post] does: it returns a response, whose
    status is a success or not ([resp.ok]), or raises a
    [requests.RequestException] (timeout, connection error). *)
Inductive http_result (A : Type) : Type :=
  | HttpResponse (ok : bool) (text : A)
  | HttpFailure.
Arguments HttpResponse {A} ok text.
Arguments HttpFailure {A}.

Record remote : Type := Remote {
  post_login : http_result unit;
  get_list : Z → http_result list_page;          (* /bg/game/<id>/0/list *)
  get_user : string → http_result (list user_row);  (* /bg/user/<pid> *)
  get_export : Z → http_result (list string)     (* /bg/export/<id>, lines *)
}.

(** The requests sent after login, in order. *)
Inductive request : Type :=
  | GetList (match_id : Z)
  | GetUser (pid : string)
  | GetExport (match_id : Z).

Global Instance request_eq_dec : EqDecision request.
Proof. solve_decision. Defined.

(* ===================================================================== *)
(** ** Exceptions *)
(* ===================================================================== *)

Inductive exn : Type :=
  | ValueError
  | HTTPError            (* raise_for_status; a RequestException *)
  | RequestException.    (* timeout or transport failure *)

Inductive result (A : Type) : Type :=
  | Ok (a : A)
  | Raise (e : exn).
Arguments Ok {A} a.
Arguments Raise {A} e.

Global Instance result_ret : MRet result := λ A a, Ok a.

Global Instance result_bind : MBind result := λ A B f m,
  match m with
  | Ok a => f a
  | Raise e => Raise e
  end.

(** A [for] loop whose body may raise. *)
Fixpoint for_each {A S : Type} (body : A → S → result S) (l : list A) (s : S)
  : result S :=
  match l with
  | [] => Ok s
  | x :: r => s' ← body x s; for_each body r s'
  end.

(* ===================================================================== *)
(** ** Reading the roster *)
(* ===================================================================== *)

(** The loop over the "Players" sheet: every truthy cell gives a player
    name; a hyperlink on the cell gives the player's DailyGammon id (the
    last path segment of its target). *)
Definition read_players (cells : list cell)
  : list string * list (string * string) :=
  foldl (λ acc cl,
           if truthy (value cl) then
             let name := PyStr.strip (py_str (value cl)) in
             ((acc.1 ++ [name])%list,
              match hyperlink cl with
              | Some url => PyDict.set name (PyStr.after_last_slash url) acc.2
              | None => acc.2
              end)
           else acc)
        ([], []) cells.

(** [not pid] for [pid = player_ids.get(player)] *)
Definition usable_pid (pid : option string) : option string :=
  match pid with
  | Some s => if bool_decide (s = EmptyString) then None else Some s
  | None => None
  end.

(* ===================================================================== *)
(** ** Fetching and parsing *)
(* ===================================================================== *)

(** [fetch_list_html]: the page text, or [None] when the request raised,
    the status is no success, or the site answered with its login page. *)
Definition fetch_list_html (rem : remote) (match_id : Z) : option list_page :=
  match get_list rem match_id with
  | HttpResponse ok text =>
      if negb ok || please_login text then None else Some text
  | HttpFailure => None
  end.

(** [not html] for the result of [fetch_list_html]. *)
Definition no_html (html : option list_page) : bool :=
  match html with
  | None => true
  | Some text => text_empty text
  end.

(** [get_player_matches]: no [try] around the request, no timeout. *)
Definition get_player_matches (rem : remote) (player_id season : string)
  : result (list (string * string * string)) :=
  match get_user rem player_id with
  | HttpFailure => Raise RequestException
  | HttpResponse ok rows =>
      if negb ok then Raise HTTPError
      else
        Ok (omap (λ row,
                    if negb (PyStr.str_in season (ur_text row)) then None
                    else match ur_opponent row, ur_match row with
                         | Some (oname, oid), Some mid =>
                             Some (PyStr.strip oname, oid, mid)
                         | _, _ => None
                         end)
                 rows)
  end.

(** The tail of the pattern [(.+?)\s*:\s*(\d+)] after the name group:
    whitespace, a colon, whitespace, and the longest run of digits, which
    must not be empty. *)
Fixpoint skip_spaces (s : string) : string :=
  match s with
  | EmptyString => EmptyString
  | String c r => if PyStr.is_space c then skip_spaces r else s
  end.

Fixpoint leading_digits (s : string) : string :=
  match s with
  | EmptyString => EmptyString
  | String c r => if PyStr.is_digit c then String c (leading_digits r)
                  else EmptyString
  end.

Definition colon_score (s : string) : option Z :=
  match skip_spaces s with
  | String ":" r =>
      let ds := leading_digits (skip_spaces r) in
      if bool_decide (ds = EmptyString) then None
      else Some (PyStr.digits_value 0 ds)
  | _ => None
  end.

(** [re.match(r"(.+?)\s*:\s*(\d+)", text).groups()], with the score already
    converted by [int]. The name group is lazy: the shortest non-empty
    prefix after which the rest of the pattern matches; [.] does not match
    a newline. [name] is the prefix consumed so far. *)
Fixpoint name_score_from (name s : string) : option (string * Z) :=
  match s with
  | EmptyString => None
  | String c r =>
      if bool_decide (c = "010"%char) then None
      else
        let name' := name +:+ String c EmptyString in
        match colon_score r with
        | Some score => Some (name', score)
        | None => name_score_from name' r
        end
  end.

Definition match_name_score (text : string) : option (string * Z) :=
  name_score_from EmptyString text.

(** [extract_latest_score]: rows are scanned from the last to the first. *)
Definition score_of_row (players_list : list string) (row : tr)
  : option (string * string * Z * Z) :=
  if negb (existsb (λ p, PyStr.str_in p (tr_text row)) players_list) then None
  else
    match tr_tds row with
    | _ :: left_text :: right_text :: _ =>
        match match_name_score left_text, match_name_score right_text with
        | Some (left_name, left_score), Some (right_name, right_score) =>
            Some (PyStr.strip left_name, PyStr.strip right_name,
                  left_score, right_score)
        | _, _ => None
        end
    | _ => None
    end.

Fixpoint first_some {A B : Type} (f : A → option B) (l : list A) : option B :=
  match l with
  | [] => None
  | x :: r => match f x with
              | Some y => Some y
              | None => first_some f r
              end
  end.

Definition extract_latest_score (html : list_page) (players_list : list string)
  : option (string * string * Z * Z) :=
  first_some (score_of_row players_list) (reverse (page_rows html)).

(* ===================================================================== *)
(** ** Orientation / name mapper *)
(* ===================================================================== *)

(** [map_scores_for_excel]; the result is (player score, opponent score). *)
Definition map_scores_for_excel (player opponent left_name right_name : string)
    (left_score right_score : Z) (switched_flag : bool) : option (Z * Z) :=
  let ln := PyStr.lower (PyStr.strip left_name) in
  let rn := PyStr.lower (PyStr.strip right_name) in
  let pn := PyStr.lower (PyStr.strip player) in
  let on := PyStr.lower (PyStr.strip opponent) in
  if switched_flag then Some (right_score, left_score)
  else if bool_decide (ln = pn) && bool_decide (rn = on) then
    Some (left_score, right_score)
  else if bool_decide (ln = on) && bool_decide (rn = pn) then
    Some (right_score, left_score)
  else if PyStr.str_in pn ln || PyStr.str_in pn rn
          || PyStr.str_in on ln || PyStr.str_in on rn then
    if PyStr.str_in pn ln then Some (left_score, right_score)
    else if PyStr.str_in pn rn then Some (right_score, left_score)
    else None
  else None.

(* ===================================================================== *)
(** ** The run: data structures *)
(* ===================================================================== *)

(** The dictionaries of a run and the log of the requests sent so far:
    - [matches]: (player, opponent) -> match id, orientation as in the grid;
    - [matches_by_hand]: (player, opponent) -> (match id, True), reversed;
    - [match_id_to_excel]: match id -> (player, opponent, switched);
    - [html_cache]: match id -> page text or [None]. *)
Record tables : Type := Tables {
  matches : list (string * string * Z);
  matches_by_hand : list (string * string * (Z * bool));
  match_id_to_excel : list (Z * (string * string * bool));
  html_cache : list (Z * option list_page);
  log : list request
}.

Definition no_tables : tables := Tables [] [] [] [] [].

(** [matches[(player, opp)] = match_id]
    [match_id_to_excel[match_id] = (player, opp, False)] *)
Definition record_normal (player opp : string) (match_id : Z) (t : tables)
  : tables :=
  Tables (PyDict.set (player, opp) match_id (matches t))
         (matches_by_hand t)
         (PyDict.set match_id (player, opp, false) (match_id_to_excel t))
         (html_cache t) (log t).

(** [matches_by_hand[(player, opp)] = (match_id, True)]
    [match_id_to_excel[match_id] = (player, opp, True)] *)
Definition record_switched (player opp : string) (match_id : Z) (t : tables)
  : tables :=
  Tables (matches t)
         (PyDict.set (player, opp) (match_id, true) (matches_by_hand t))
         (PyDict.set match_id (player, opp, true) (match_id_to_excel t))
         (html_cache t) (log t).

(** [key in matches or key in matches_by_hand] *)
Definition known (key : string * string) (t : tables) : bool :=
  PyDict.mem key (matches t) || PyDict.mem key (matches_by_hand t).

(** [int(val)], and on any exception [int(str(val).strip())], whose
    exception is not caught. *)
Definition cell_match_id (val : pyval) : result Z :=
  match py_int val with
  | Some z => Ok z
  | None =>
      match PyStr.to_int (PyStr.strip (py_str val)) with
      | Some z => Ok z
      | None => Raise ValueError
      end
  end.

(** [ws.cell(row=r, column=c)] with [c = col_index_links.get(name)]:
    openpyxl raises [ValueError] when the column is [None]. *)
Definition column_of (col_index_links : list (string * nat)) (name : string)
  : result nat :=
  match PyDict.get name col_index_links with
  | Some c => Ok c
  | None => Raise ValueError
  end.

(** [row_players_links.index(name) + 2] *)
Definition row_of (row_players_links : list string) (name : string)
  : result nat :=
  match index_of name row_players_links with
  | Some i => Ok (i + 2)%nat
  | None => Raise ValueError
  end.

(* ===================================================================== *)
(** ** Step 1: check the identifiers already in "Links" *)
(* ===================================================================== *)

Section step1.
Variable rem : remote.
Variables ws_links ws_flag : sheet.
Variable row_players_links : list string.
Variable col_index_links : list (string * nat).

(** The body of the two nested loops, for the row [i] of [player_name] and
    the column of [opp]. *)
Definition step1_cell (it : nat * string * string) (t : tables)
  : result tables :=
  let '(i, player_name, opp) := it in
  if bool_decide (player_name = opp) then Ok t
  else
    c ← column_of col_index_links opp;
    let val := value_at ws_links i c in
    if negb (truthy val) then Ok t
    else
      match_id ← cell_match_id val;
      row_idx_flag ← row_of row_players_links player_name;
      col_idx_flag ← column_of col_index_links opp;
      let flag_val := value_at ws_flag row_idx_flag col_idx_flag in
      let html :=
        if bool_decide (flag_val = PyNone) then fetch_list_html rem match_id
        else None in
      let t1 :=
        Tables (matches t) (matches_by_hand t) (match_id_to_excel t)
               (PyDict.set match_id html (html_cache t))
               (if bool_decide (flag_val = PyNone)
                then (log t ++ [GetList match_id])%list else log t) in
      if no_html html then Ok (record_normal player_name opp match_id t1)
      else
        match html with
        | None => Ok (record_normal player_name opp match_id t1)
        | Some text =>
            match extract_latest_score text [player_name; opp] with
            | None => Ok (record_normal player_name opp match_id t1)
            | Some (left_name, right_name, _, _) =>
                let ln := PyStr.lower left_name in
                let rn := PyStr.lower right_name in
                let pn := PyStr.lower player_name in
                let on := PyStr.lower opp in
                if bool_decide (ln = pn) && bool_decide (rn = on) then
                  Ok (record_normal player_name opp match_id t1)
                else if bool_decide (ln = on) && bool_decide (rn = pn) then
                  Ok (record_switched player_name opp match_id t1)
                else
                  Ok (record_normal player_name opp match_id t1)
            end
        end.

(** [for i, player_name in enumerate(row_players_links, start=2):
       for opp in col_opponents_links: ...] *)
Definition step1_cells (col_opponents_links : list string)
  : list (nat * string * string) :=
  p ← enumerate 2 row_players_links;
  opp ← col_opponents_links;
  [(p.1, p.2, opp)].

Definition step1 (col_opponents_links : list string) (t : tables)
  : result tables :=
  for_each step1_cell (step1_cells col_opponents_links) t.

End step1.

(* ===================================================================== *)
(** ** Step 2: fill the missing identifiers *)
(* ===================================================================== *)

(** What Step 2 reads and writes: the "Links" and "match_flag" sheets and
    the dictionaries. *)
Record grids : Type := Grids {
  g_links : sheet;
  g_flag : sheet;
  g_tables : tables
}.

Definition game_url (match_id : string) : string :=
  "http://www.dailygammon.com/bg/game/" +:+ match_id +:+ "/0/list#end".

Section step2.
Variable rem : remote.
Variable season : string.
Variable players : list string.
Variable player_ids : list (string * string).
Variable row_players_links : list string.
Variable col_index_links : list (string * nat).

(** The body of the inner loop, for one (opponent_name, opponent_id,
    match_id) of [player]'s page. *)
Definition step2_match (player : string) (m : string * string * string)
    (g : grids) : result grids :=
  let '(opponent_name, _, match_id) := m in
  let t := g_tables g in
  let key := (player, opponent_name) in
  if known key t then Ok g
  else
    match PyStr.to_int match_id with
    | None => Raise ValueError
    | Some mid_int =>
        let switched_flag :=
          match PyDict.get mid_int (match_id_to_excel t) with
          | Some (_, _, sw) => sw
          | None => false
          end in
        let t' :=
          Tables (PyDict.set key mid_int (matches t))
                 (matches_by_hand t)
                 (PyDict.set mid_int (player, opponent_name, switched_flag)
                             (match_id_to_excel t))
                 (html_cache t) (log t) in
        match index_of player row_players_links with
        | None => Ok (Grids (g_links g) (g_flag g) t')
        | Some i =>
            let row_idx := (i + 2)%nat in
            match PyDict.get opponent_name col_index_links with
            | None => Ok (Grids (g_links g) (g_flag g) t')
            | Some c =>
                if bool_decide (c = O) || bool_decide (opponent_name = player)
                then Ok (Grids (g_links g) (g_flag g) t')
                else
                  let flag' :=
                    set_value (g_flag g) row_idx c
                              (PyInt (if switched_flag then 1 else 0)) in
                  let links' :=
                    if negb (truthy (value_at (g_links g) row_idx c)) then
                      set_hyperlink
                        (set_value (g_links g) row_idx c (PyStr match_id))
                        row_idx c (game_url match_id)
                    else g_links g in
                  Ok (Grids links' flag' t')
            end
        end
    end.

(** [missing = [opp for opp in players if opp != player and (player, opp)
    not in matches and (player, opp) not in matches_by_hand]] *)
Definition missing (player : string) (t : tables) : list string :=
  filter (λ opp, opp ≠ player ∧ known (player, opp) t = false) players.

(** The body of the outer loop. *)
Definition step2_player (player : string) (g : grids) : result grids :=
  match usable_pid (PyDict.get player player_ids) with
  | None => Ok g
  | Some pid =>
      match missing player (g_tables g) with
      | [] => Ok g
      | _ :: _ =>
          let t := g_tables g in
          let g1 :=
            Grids (g_links g) (g_flag g)
                  (Tables (matches t) (matches_by_hand t) (match_id_to_excel t)
                          (html_cache t) (log t ++ [GetUser pid])%list) in
          player_matches ← get_player_matches rem pid season;
          for_each (step2_match player) player_matches g1
      end
  end.

Definition step2 (g : grids) : result grids :=
  for_each step2_player players g.

End step2.

(* ===================================================================== *)
(** ** Step 3: collect the finished matches *)
(* ===================================================================== *)

(** [mid_threshold = 24]: the winner is read off the position of "Wins" on
    the first line that has both "and the match" and "Wins". *)
Definition mid_threshold : Z := 24.

Fixpoint find_winner (text_lines : list string) (player opponent_name : string)
  : option string :=
  match text_lines with
  | [] => None
  | line :: r =>
      if PyStr.str_in "and the match" line && PyStr.str_in "Wins" line then
        let pos := PyStr.find line "Wins" in
        Some (if pos <? mid_threshold then player else opponent_name)
      else find_winner r player opponent_name
  end.

Section step3.
Variable rem : remote.
Variable season : string.
Variable player_ids : list (string * string).

(** The body of the loop over the rows of [player]'s page; the state is
    [finished_by_id] and the request log. *)
Definition step3_row (player : string) (row : user_row)
    (s : list (Z * string) * list request) : list (Z * string) * list request :=
  let '(finished_by_id, lg) := s in
  if negb (PyStr.str_in season (ur_text row)) then s
  else
    match ur_export row, ur_match row, ur_opponent row with
    | true, Some mid, Some (oname, _) =>
        match PyStr.to_int mid with
        | None => s
        | Some match_id =>
            let opponent_name := PyStr.strip oname in
            let lg' := (lg ++ [GetExport match_id])%list in
            match get_export rem match_id with
            | HttpFailure => (finished_by_id, lg')
            | HttpResponse _ text_lines =>
                match find_winner text_lines player opponent_name with
                | Some winner =>
                    if bool_decide (winner = EmptyString)
                    then (finished_by_id, lg')
                    else (PyDict.set match_id winner finished_by_id, lg')
                | None => (finished_by_id, lg')
                end
            end
        end
    | _, _, _ => s
    end.

Definition step3_player (player : string)
    (s : list (Z * string) * list request) : list (Z * string) * list request :=
  match usable_pid (PyDict.get player player_ids) with
  | None => s
  | Some pid =>
      let s1 := (s.1, (s.2 ++ [GetUser pid])%list) in
      match get_user rem pid with
      | HttpFailure => s1
      | HttpResponse ok rows =>
          if negb ok then s1 else foldl (λ s row, step3_row player row s) s1 rows
      end
  end.

Definition step3 (players : list string) (lg : list request)
  : list (Z * string) * list request :=
  foldl (λ s player, step3_player player s) ([], lg) players.

End step3.

(* ===================================================================== *)
(** ** Phase 1: intermediate scores *)
(* ===================================================================== *)

Definition col_start : nat := 2.

(** [write_score_to_excel]: the new sheet and the returned flag. *)
Definition write_score_to_excel (players_in_matches : list string)
    (ws_matches : sheet) (excel_player excel_opponent : string)
    (player_score opponent_score : Z) (switched_flag : bool) : sheet * bool :=
  match index_of excel_player players_in_matches,
        index_of excel_opponent players_in_matches with
  | Some r, Some c_base =>
      let r_idx := (r + 4)%nat in
      let c_left := (col_start + c_base * 2)%nat in
      let c_right := (c_left + 1)%nat in
      let left_cell_val := value_at ws_matches r_idx c_left in
      let right_cell_val := value_at ws_matches r_idx c_right in
      if is_eleven left_cell_val || is_eleven right_cell_val then
        (ws_matches, false)
      else
        (set_value (set_value ws_matches r_idx c_left (PyInt player_score))
                   r_idx c_right (PyInt opponent_score),
         true)
  | _, _ => (ws_matches, false)
  end.

(** What Phase 1 reads and writes: the "Matches" sheet, [html_cache] and
    the request log. *)
Record scoring : Type := Scoring {
  s_matches : sheet;
  s_cache : list (Z * option list_page);
  s_log : list request
}.

(** [html_cache.get(match_id)] *)
Definition cached (match_id : Z) (cache : list (Z * option list_page))
  : option list_page :=
  match PyDict.get match_id cache with
  | Some html => html
  | None => None
  end.

Section phase1.
Variable rem : remote.
Variable players_in_matches : list string.

(** [html = html_cache.get(match_id)]
    [if not html: html = fetch_list_html(session, match_id);
                  html_cache[match_id] = html] *)
Definition document_for (match_id : Z) (s : scoring)
  : option list_page * scoring :=
  let html := cached match_id (s_cache s) in
  if no_html html then
    let html := fetch_list_html rem match_id in
    (html, Scoring (s_matches s) (PyDict.set match_id html (s_cache s))
                   (s_log s ++ [GetList match_id])%list)
  else (html, s).

(** The body of the loop over [list(match_id_to_excel.items())]. *)
Definition phase1_match (entry : Z * (string * string * bool)) (s : scoring)
  : scoring :=
  let '(match_id, (excel_player, excel_opponent, switched_flag)) := entry in
  let '(html, s1) := document_for match_id s in
  if no_html html then s1
  else
    match html with
    | None => s1
    | Some text =>
        match extract_latest_score text players_in_matches with
        | None => s1
        | Some (left_name, right_name, left_score, right_score) =>
            match map_scores_for_excel excel_player excel_opponent
                    left_name right_name left_score right_score switched_flag
            with
            | None => s1
            | Some (excel_player_score, excel_opponent_score) =>
                Scoring
                  (write_score_to_excel players_in_matches (s_matches s1)
                     excel_player excel_opponent
                     excel_player_score excel_opponent_score switched_flag).1
                  (s_cache s1) (s_log s1)
            end
        end
    end.

Definition phase1 (match_id_to_excel : list (Z * (string * string * bool)))
    (s : scoring) : scoring :=
  foldl (λ s entry, phase1_match entry s) s match_id_to_excel.

End phase1.

(* ===================================================================== *)
(** ** Phase 2: winners get 11 *)
(* ===================================================================== *)

Section phase2.
Variable match_id_to_excel : list (Z * (string * string * bool)).
Variable players_in_matches : list string.

(** The body of the loop over [finished_by_id.items()]. *)
Definition phase2_match (entry : Z * string) (ws_matches : sheet) : sheet :=
  let '(match_id, winner_name) := entry in
  match PyDict.get match_id match_id_to_excel with
  | None => ws_matches
  | Some (excel_player, excel_opponent, switched_flag) =>
      match index_of excel_player players_in_matches,
            index_of excel_opponent players_in_matches with
      | Some r, Some c_base =>
          let r_idx := (r + 4)%nat in
          let c_left := (col_start + c_base * 2)%nat in
          let c_right := (c_left + 1)%nat in
          let winner_lower := PyStr.lower (PyStr.strip winner_name) in
          if switched_flag then
            if bool_decide (winner_lower = PyStr.lower excel_player) then
              set_value ws_matches r_idx c_right (PyInt 11)
            else if bool_decide (winner_lower = PyStr.lower excel_opponent) then
              set_value ws_matches r_idx c_left (PyInt 11)
            else ws_matches
          else
            if bool_decide (winner_lower = PyStr.lower excel_player) then
              set_value ws_matches r_idx c_left (PyInt 11)
            else if bool_decide (winner_lower = PyStr.lower excel_opponent) then
              set_value ws_matches r_idx c_right (PyInt 11)
            else ws_matches
      | _, _ => ws_matches
      end
  end.

Definition phase2 (finished_by_id : list (Z * string)) (ws_matches : sheet)
  : sheet :=
  foldl (λ ws entry, phase2_match entry ws) ws_matches finished_by_id.

End phase2.

(* ===================================================================== *)
(** ** Completion marker *)
(* ===================================================================== *)

(** [not ws_links.cell(row=i, column=c).value] negated, for one off-diagonal
    cell of the scan; the diagonal is skipped. *)
Definition cell_filled (ws_links : sheet) (col_index_links : list (string * nat))
    (it : nat * string * string) : result bool :=
  let '(i, player_name, opp) := it in
  if bool_decide (player_name = opp) then Ok true
  else
    c ← column_of col_index_links opp;
    Ok (truthy (value_at ws_links i c)).

(** The scan of "Links" that computes [all_filled]; the [break]s only cut
    the scan short once the answer is [False]. *)
Definition all_filled (ws_links : sheet) (row_players_links : list string)
    (col_opponents_links : list string) (col_index_links : list (string * nat))
  : result bool :=
  for_each
    (λ it ok, if negb ok then Ok false
              else cell_filled ws_links col_index_links it)
    (step1_cells row_players_links col_opponents_links) true.

(** [if all_filled: ws_control["A1"].value = "All match IDs filled"] *)
Definition mark_complete (filled : bool) (ws_control : sheet) : sheet :=
  if filled then set_value ws_control 1 1 (PyStr SENTINEL) else ws_control.

(* ===================================================================== *)
(** ** [main] *)
(* ===================================================================== *)

(** What a run leaves: the workbook that is saved, and the requests it sent
    after login. *)
Record outcome : Type := Outcome {
  out_wb : workbook;
  out_log : list request
}.

Definition saison_nummer : string := "34".

(** [liga = sys.argv[1] if len(sys.argv) > 1 else "4d"] *)
Definition liga_of (argv : list string) : string :=
  match argv with
  | _ :: liga :: _ => liga
  | _ => "4d"
  end.

Definition season_of (argv : list string) : string :=
  saison_nummer +:+ "th-season-" +:+ liga_of argv.

(** [login_session]: the request and [raise_for_status], not caught. *)
Definition login_session (rem : remote) : result unit :=
  match post_login rem with
  | HttpFailure => Raise RequestException
  | HttpResponse ok _ => if negb ok then Raise HTTPError else Ok ()
  end.

(** The names written into row 1 and column A of "match_flag". *)
Definition flag_headers (ws_flag : sheet)
    (row_players_links col_opponents_links : list string) : sheet :=
  let ws1 :=
    foldl (λ ws p, set_value ws 1 p.1 (PyStr p.2)) ws_flag
          (enumerate 2 col_opponents_links) in
  foldl (λ ws p, set_value ws p.1 1 (PyStr p.2)) ws1
        (enumerate 2 row_players_links).

(** [skip_fetching] *)
Definition skip_fetching (ws_control : sheet) : bool :=
  bool_decide (value_at ws_control 1 1 = PyStr SENTINEL).

(** The part of [main] under [if not skip_fetching:] (Step 1 and Step 2);
    with the marker set, the sheets are left alone and the dictionaries
    stay empty. *)
Definition discovery (rem : remote) (season : string) (players : list string)
    (player_ids : list (string * string)) (wb : workbook) (ws_flag0 : sheet)
    (row_players_links col_opponents_links : list string) : result grids :=
  let col_index_links := col_index col_opponents_links in
  if skip_fetching (ws_control wb) then
    Ok (Grids (ws_links wb) ws_flag0 no_tables)
  else
    t ← step1 rem (ws_links wb) ws_flag0 row_players_links
              col_index_links col_opponents_links no_tables;
    step2 rem season players player_ids row_players_links
          col_index_links (Grids (ws_links wb) ws_flag0 t).

(** Step 3, Phase 1 and Phase 2: the new "Matches" sheet and the log. *)
Definition scoring_phases (rem : remote) (season : string)
    (players : list string) (player_ids : list (string * string))
    (ws_matches : sheet) (t : tables) : sheet * list request :=
  let '(finished_by_id, lg) := step3 rem season player_ids players (log t) in
  let players_in_matches := names_down ws_matches 4 1 in
  let s :=
    phase1 rem players_in_matches (match_id_to_excel t)
           (Scoring ws_matches (html_cache t) lg) in
  (phase2 (match_id_to_excel t) players_in_matches finished_by_id
          (s_matches s),
   s_log s).

Definition main (argv : list string) (rem : remote) (wb : workbook)
  : result outcome :=
  let season := season_of argv in
  let '(players, player_ids) := read_players (ws_players wb) in
  _ ← login_session rem;
  let row_players_links := names_down (ws_links wb) 2 1 in
  let col_opponents_links := names_right (ws_links wb) 1 2 in
  let ws_flag0 :=
    flag_headers (ws_flag wb) row_players_links col_opponents_links in
  g ← discovery rem season players player_ids wb ws_flag0
                row_players_links col_opponents_links;
  let '(ws_matches', lg) :=
    scoring_phases rem season players player_ids (ws_matches wb)
                   (g_tables g) in
  filled ← all_filled (g_links g) row_players_links col_opponents_links
                      (col_index col_opponents_links);
  Ok (Outcome
        (Workbook (ws_players wb) (g_links g) ws_matches' (g_flag g)
                  (mark_complete filled (ws_control wb)))
        lg).

(* ===================================================================== *)
(** ** Vocabulary of the properties *)
(* ===================================================================== *)

(** Every cell of "Links" that was truthy in [ws0] is the same cell in
    [ws] (value and hyperlink). *)
Definition links_kept (ws0 ws : sheet) : Prop :=
  ∀ r c : nat,
    truthy (value_at ws0 r c) = true → cell_at ws r c = cell_at ws0 r c.

(** Row 1 and column A hold the same values in [ws] as in [ws0]. *)
Definition headers_kept (ws0 ws : sheet) : Prop :=
  ∀ r c : nat, (r < 2 ∨ c < 2)%nat → value_at ws r c = value_at ws0 r c.

(** Every off-diagonal identifier cell, addressed by the row of the player
    and the column of the opponent, holds a truthy value. *)
Definition off_diagonal_filled (ws_links : sheet) (rows cols : list string)
  : Prop :=
  ∀ (i : nat) (player opp : string),
    rows !! i = Some player → opp ∈ cols → player ≠ opp →
    ∃ c, PyDict.get opp (col_index cols) = Some c
         ∧ truthy (value_at ws_links (i + 2) c) = true.

(** The pair of score cells of row [r] for the opponent number [k] are the
    columns [2 + 2k] and [3 + 2k]; the pairing is finished when either
    holds 11. The pairing (player, opponent) has [r = index(player) + 4]
    and [k = index(opponent)] in [players_in_matches]. *)
Definition finished (ws : sheet) (r k : nat) : bool :=
  is_eleven (value_at ws r (col_start + k * 2))
  || is_eleven (value_at ws r (col_start + k * 2 + 1)).

Definition pair_cell (k : nat) (c : nat) : Prop :=
  c = (col_start + k * 2)%nat ∨ c = (col_start + k * 2 + 1)%nat.

(** [ws'] is [ws] with 11 written into the cell [target] and nothing else
    touched. *)
Definition writes_eleven_only_at (ws ws' : sheet) (target : nat * nat) : Prop :=
  value_at ws' target.1 target.2 = PyInt 11
  ∧ ∀ r c : nat, (r, c) ≠ target → cell_at ws' r c = cell_at ws r c.

(** The outcome of a run that ended normally. *)
Definition outcome_of (r : result outcome) (wb : workbook) : outcome :=
  match r with
  | Ok o => o
  | Raise _ => Outcome wb []
  end.

(** [match_id_to_excel] as Step 1 and Step 2 leave it. *)
Definition mapping_of (r : result grids) : list (Z * (string * string * bool)) :=
  match r with
  | Ok g => match_id_to_excel (g_tables g)
  | Raise _ => []
  end.

(* ===================================================================== *)
(** ** A small league used in the examples *)
(* ===================================================================== *)

Definition sheet_of (l : list (nat * nat * pyval)) : sheet :=
  foldl (λ ws p, set_value ws p.1.1 p.1.2 p.2) ∅ l.

(** "Links": Alice, Bob, Carol down column A and along row 1. *)
Definition league_links (ids : list (nat * nat * pyval)) : sheet :=
  sheet_of ([ (2, 1, PyStr "Alice"); (3, 1, PyStr "Bob"); (4, 1, PyStr "Carol");
              (1, 2, PyStr "Alice"); (1, 3, PyStr "Bob"); (1, 4, PyStr "Carol")
            ]%nat ++ ids)%list.

(** "Matches": the players from row 4 down column A. *)
Definition league_matches (scores : list (nat * nat * pyval)) : sheet :=
  sheet_of ([ (4, 1, PyStr "Alice"); (5, 1, PyStr "Bob"); (6, 1, PyStr "Carol")
            ]%nat ++ scores)%list.

(** "control" with the marker in A1. *)
Definition marked : sheet := sheet_of [ (1, 1, PyStr SENTINEL) ]%nat.

(** "Players": only Alice's cell carries a link to her DailyGammon page. *)
Definition roster_alice_linked : list cell :=
  [ Cell (PyStr "Alice") (Some "http://www.dailygammon.com/bg/user/1001");
    Cell (PyStr "Bob") None;
    Cell (PyStr "Carol") None ].

Definition roster_unlinked : list cell :=
  [ Cell (PyStr "Alice") None; Cell (PyStr "Bob") None;
    Cell (PyStr "Carol") None ].

(** A match page whose last row reads [left : ls | right : rs]. *)
Definition score_page (left ls right rs : string) : list_page :=
  ListPage false false
    [ Tr "Move" ["#"; "White"; "Black"];
      Tr (left +:+ " : " +:+ ls +:+ " " +:+ right +:+ " : " +:+ rs)
         ["1"; left +:+ " : " +:+ ls; right +:+ " : " +:+ rs] ].

Definition no_page : list_page := ListPage true false [].

(** Alice's page lists one match of the season, against [opp]. *)
Definition alice_page (opp match_id : string) (export : bool) : list user_row :=
  [ UserRow ("34th-season-4d " +:+ opp) (Some (opp, "1002")) (Some match_id)
            export ].

(** A site that knows the match 123 and the player 1001. *)
Definition site (page : list_page) (rows : list user_row)
    (transcript : list string) : remote :=
  Remote (HttpResponse true ())
         (λ id, if bool_decide (id = 123) then HttpResponse true page
                else HttpFailure)
         (λ pid, if bool_decide (pid = "1001") then HttpResponse true rows
                 else HttpResponse false [])
         (λ id, if bool_decide (id = 123) then HttpResponse true transcript
                else HttpFailure).

(** A site where login works, every match page and transcript request
    fails, and every player page gets [answer]. *)
Definition broken_site (answer : http_result (list user_row)) : remote :=
  Remote (HttpResponse true ()) (λ _, HttpFailure) (λ _, answer)
         (λ _, HttpFailure).

(** "Wins" in the left half of the line, and in the right half. *)
Definition left_wins : string := " Wins 1 point and the match".
Definition right_wins : string :=
  "                              Wins 2 points and the match".

(** *** The marker is set and Alice vs Bob has an identifier *)
Definition marked_wb : workbook :=
  Workbook roster_alice_linked (league_links [ (2, 3, PyInt 123) ]%nat)
           (league_matches []) ∅ marked.

Definition unmarked_wb : workbook :=
  Workbook roster_alice_linked (league_links [ (2, 3, PyInt 123) ]%nat)
           (league_matches []) ∅ ∅.

Definition live_site : remote :=
  site (score_page "Alice" "5" "Bob" "3") (alice_page "Bob" "123" true)
       [left_wins].

(** *** A finished pairing and a transcript that names the other player *)
Definition finished_wb : workbook :=
  Workbook roster_alice_linked (league_links [ (2, 3, PyInt 123) ]%nat)
           (league_matches [ (4, 4, PyInt 5); (4, 5, PyInt 11) ]%nat) ∅ ∅.

Definition misread_site : remote :=
  site (score_page "Alice" "5" "Bob" "11") (alice_page "Bob" "123" true)
       [left_wins].

Definition finished_out : outcome :=
  outcome_of (main ["dg.py"] misread_site finished_wb) finished_wb.

(** *** A winner whose name on the site is not the name in the sheet *)
Definition bobby_wb : workbook :=
  Workbook roster_alice_linked
           (league_links [ (2, 3, PyInt 123); (2, 4, PyInt 456) ]%nat)
           (league_matches []) ∅ ∅.

Definition bobby_site : remote :=
  site (score_page "Alice" "3" "Bobby" "5") (alice_page "Bobby" "123" true)
       [right_wins].

Definition bobby_out : outcome :=
  outcome_of (main ["dg.py"] bobby_site bobby_wb) bobby_wb.

(** *** The same identifier in both oriented cells, and a page that fails *)
Definition twice_wb : workbook :=
  Workbook roster_unlinked
           (league_links [ (2, 3, PyInt 123); (3, 2, PyInt 123);
                           (2, 4, PyInt 456) ]%nat)
           (league_matches []) ∅ ∅.

Definition twice_site : remote :=
  site (score_page "Alice" "3" "Bob" "5") [] [].

(** *** No identifier yet; Alice's page has to be asked *)
Definition empty_league_wb (control : sheet) : workbook :=
  Workbook roster_alice_linked (league_links []) (league_matches []) ∅ control.

(** *** An identifier typed into the reversed cell, then two runs *)
Definition reversed_wb : workbook :=
  Workbook roster_alice_linked (league_links [ (3, 2, PyInt 123) ]%nat)
           (league_matches []) ∅ ∅.

Definition reversed_site : remote :=
  site (score_page "Alice" "3" "Bob" "5") (alice_page "Bob" "123" false) [].

Definition first_run : outcome :=
  outcome_of (main ["dg.py"] reversed_site reversed_wb) reversed_wb.

Definition second_run : outcome :=
  outcome_of (main ["dg.py"] reversed_site (out_wb first_run))
             (out_wb first_run).

(** *** The marker is set but the grid has no identifier *)
Definition stale_wb : workbook :=
  Workbook roster_unlinked (league_links []) (league_matches []) ∅ marked.

Definition stale_out : outcome :=
  outcome_of (main ["dg.py"] (broken_site HttpFailure) stale_wb) stale_wb.

(** *** A populated cell and a site that reports another identifier *)
Definition populated_wb : workbook :=
  Workbook roster_alice_linked (league_links [ (2, 3, PyInt 111) ]%nat)
           (league_matches []) ∅ ∅.

Definition other_id_site : remote :=
  site no_page (alice_page "Bob" "123456" false) [].

Definition populated_out : outcome :=
  outcome_of (main ["dg.py"] other_id_site populated_wb) populated_wb.

(** *** Two players; the run fills the last empty cell *)
Definition pair_links (ids : list (nat * nat * pyval)) : sheet :=
  sheet_of ([ (2, 1, PyStr "Alice"); (3, 1, PyStr "Bob");
              (1, 2, PyStr "Alice"); (1, 3, PyStr "Bob") ]%nat ++ ids)%list.

Definition pair_wb : workbook :=
  Workbook [ Cell (PyStr "Alice")
                  (Some "http://www.dailygammon.com/bg/user/1001");
             Cell (PyStr "Bob") None ]
           (pair_links [ (3, 2, PyInt 123) ]%nat)
           (sheet_of [ (4, 1, PyStr "Alice"); (5, 1, PyStr "Bob") ]%nat) ∅ ∅.

Definition pair_out : outcome :=
  outcome_of (main ["dg.py"] reversed_site pair_wb) pair_wb.

(** *** A page that already shows 11 *)
Definition eleven_site : remote :=
  site (score_page "Alice" "11" "Bob" "7") (alice_page "Bob" "123" false) [].

Definition eleven_wb : workbook :=
  Workbook roster_alice_linked (league_links [ (2, 3, PyInt 123) ]%nat)
           (league_matches []) ∅ ∅.

Definition eleven_out : outcome :=
  outcome_of (main ["dg.py"] eleven_site eleven_wb) eleven_wb.

(* ===================================================================== *)
(** ** Vocabulary of the further properties *)
(* ===================================================================== *)

(** The header-writing loop: the names of [l] go to the cells [pos n]. *)
Definition write_names (pos : nat → nat * nat) (ws : sheet) (l : list (nat * string)) : sheet :=
  foldl (λ ws p, set_value ws (pos p.1).1 (pos p.1).2 (PyStr p.2)) ws l.

(** Every cell of [ws'] is the cell of [ws], or lies in the score area
    (row 4 or below, column B or beyond) and holds a non-negative integer
    with the hyperlink it had. *)
Definition scores_written (ws ws' : sheet) : Prop :=
  ∀ r c : nat,
    cell_at ws' r c = cell_at ws r c
    ∨ ((4 ≤ r)%nat ∧ (2 ≤ c)%nat
       ∧ ∃ n : Z, 0 ≤ n
                  ∧ cell_at ws' r c = Cell (PyInt n) (hyperlink (cell_at ws r c))).

(** Every cell of [ws'] is the cell of [ws], or was empty in [ws], lies in
    the identifier area and holds the text of a match id with the link to
    that match. *)
Definition identifiers_added (ws ws' : sheet) : Prop :=
  ∀ r c : nat,
    cell_at ws' r c = cell_at ws r c
    ∨ ((2 ≤ r)%nat ∧ (2 ≤ c)%nat
       ∧ truthy (value_at ws r c) = false
       ∧ ∃ (m : string) (z : Z),
           PyStr.to_int m = Some z
           ∧ cell_at ws' r c = Cell (PyStr m) (Some (game_url m))).

(** A flag cell of [ws'] holds what it held in [ws], or 0, or 1; row 1 and
    column A are those of [ws]. *)
Definition flags_stamped (ws ws' : sheet) : Prop :=
  ∀ r c : nat,
    value_at ws' r c = value_at ws r c
    ∨ ((2 ≤ r)%nat ∧ (2 ≤ c)%nat
       ∧ (value_at ws' r c = PyInt 0 ∨ value_at ws' r c = PyInt 1)).

(** The orientation recorded for a match id. *)
Definition orientation (mid : Z) (t : tables) : option bool :=
  (λ info : string * string * bool, info.2) <$> PyDict.get mid (match_id_to_excel t).

(** How often the page of [id] was requested. *)
Definition page_requests (id : Z) (lg : list request) : nat :=
  length (filter (λ q, q = GetList id) lg).

(** Every winner in [fin] is a non-empty name, and the transcript of its
    match, as the site serves it, has a line with both "and the match" and
    "Wins". *)
Definition finished_sound (rem : remote) (fin : list (Z * string)) : Prop :=
  ∀ (mid : Z) (winner : string),
    PyDict.get mid fin = Some winner →
    winner ≠ ""
    ∧ ∃ (ok : bool) (lines : list string) (line : string),
        get_export rem mid = HttpResponse ok lines
        ∧ line ∈ lines
        ∧ PyStr.str_in "and the match" line = true
        ∧ PyStr.str_in "Wins" line = true.

(** The identifier cells parse as integers. *)
Definition identifiers_parse (ws_links : sheet) : Prop :=
  ∀ r c : nat, (2 ≤ r)%nat → (2 ≤ c)%nat →
    truthy (value_at ws_links r c) = true →
    ∃ z, cell_match_id (value_at ws_links r c) = Ok z.


(** The requests a run may send: a match page only when the marker is not
    set; the page of a roster player with a usable link; the transcript of
    a match that such a player's page lists for the season with an export
    link. *)
Definition request_allowed (rem : remote) (season : string)
    (players : list string) (player_ids : list (string * string))
    (marker : bool) (q : request) : Prop :=
  match q with
  | GetList _ => marker = false
  | GetUser pid =>
      ∃ player, player ∈ players
                ∧ usable_pid (PyDict.get player player_ids) = Some pid
  | GetExport mid =>
      ∃ player pid rows row m,
        player ∈ players
        ∧ usable_pid (PyDict.get player player_ids) = Some pid
        ∧ get_user rem pid = HttpResponse true rows
        ∧ row ∈ rows
        ∧ PyStr.str_in season (ur_text row) = true
        ∧ ur_export row = true
        ∧ ur_match row = Some m
        ∧ PyStr.to_int m = Some mid
  end.

(** *** An identifier cell that is not a number *)
Definition malformed_wb : workbook :=
  Workbook roster_unlinked (league_links [ (2, 3, PyStr "12a") ]%nat)
           (league_matches []) ∅ ∅.

(** *** The tables between Step 1 and Step 2 of the reversed league *)
Definition reversed_rows : list string := names_down (ws_links reversed_wb) 2 1.
Definition reversed_cols : list string := names_right (ws_links reversed_wb) 1 2.

Definition reversed_step1 : grids :=
  Grids (ws_links reversed_wb) (flag_headers ∅ reversed_rows reversed_cols)
        (match step1 reversed_site (ws_links reversed_wb)
                 (flag_headers ∅ reversed_rows reversed_cols) reversed_rows
                 (col_index reversed_cols) reversed_cols no_tables with
         | Ok t => t
         | Raise _ => no_tables
         end).

Definition reversed_step2 : grids :=
  match step2 reversed_site (season_of ["dg.py"]) ["Alice"; "Bob"; "Carol"]
              [("Alice", "1001")] reversed_rows (col_index reversed_cols)
              reversed_step1 with
  | Ok g => g
  | Raise _ => reversed_step1
  end.

(* ===================================================================== *)
(** * Properties *)
(* ===================================================================== *)

(** ** The string functions and the parser on examples *)

Example strip_lower_example :
  PyStr.lower (PyStr.strip "  Alice Smith ") = "alice smith".
Proof. reflexivity. Qed.

Example str_in_example :
  PyStr.str_in "lic" "Alice" = true
  ∧ PyStr.str_in "" "Alice" = true
  ∧ PyStr.str_in "Alice" "lic" = false
  ∧ PyStr.find right_wins "Wins" = 30
  ∧ PyStr.find left_wins "Wins" = 1.
Proof. repeat split; reflexivity. Qed.

Example to_int_example :
  PyStr.to_int " 123456 " = Some 123456
  ∧ PyStr.to_int "-1_0" = Some (-10)
  ∧ PyStr.to_int "12a" = None
  ∧ PyStr.to_int "" = None
  ∧ PyStr.of_int 123456 = "123456".
Proof. repeat split; reflexivity. Qed.

Example after_last_slash_example :
  PyStr.after_last_slash "http://www.dailygammon.com/bg/user/36594" = "36594"
  ∧ PyStr.after_last_slash "36594" = "36594"
  ∧ PyStr.after_last_slash "a/b/" = "".
Proof. repeat split; reflexivity. Qed.

Example match_name_score_example :
  match_name_score "Alice : 3" = Some ("Alice", 3)
  ∧ match_name_score "Al ice  :12x" = Some ("Al ice", 12)
  ∧ match_name_score "A : B : 3" = Some ("A : B", 3)
  ∧ match_name_score ": 3" = None
  ∧ match_name_score "Alice :" = None.
Proof. repeat split; reflexivity. Qed.

Example extract_latest_score_example :
  extract_latest_score (score_page "Bob" "5" "Alice" "11") ["Alice"; "Bob"]
  = Some ("Bob", "Alice", 5, 11)
  ∧ extract_latest_score (score_page "Bob" "5" "Alice" "11") ["Carol"] = None
  ∧ extract_latest_score no_page ["Alice"; "Bob"] = None.
Proof. repeat split; reflexivity. Qed.

Example map_scores_for_excel_example :
  map_scores_for_excel "Alice" "Bob" "Bob" "Alice" 3 5 true = Some (5, 3)
  ∧ map_scores_for_excel "Alice" "Bob" "alice" "BOB " 3 5 false = Some (3, 5)
  ∧ map_scores_for_excel "Alice" "Bob" "Bob" "Alice" 3 5 false = Some (5, 3).
Proof. repeat split; reflexivity. Qed.

Example read_players_example :
  read_players roster_alice_linked
  = (["Alice"; "Bob"; "Carol"], [("Alice", "1001")]).
Proof. reflexivity. Qed.

Example header_names_example :
  names_down (league_links []) 2 1 = ["Alice"; "Bob"; "Carol"]
  ∧ names_right (league_links []) 1 2 = ["Alice"; "Bob"; "Carol"]
  ∧ col_index ["Alice"; "Bob"; "Carol"]
    = [("Alice", 2%nat); ("Bob", 3%nat); ("Carol", 4%nat)].
Proof. repeat split; vm_compute; reflexivity. Qed.

(** ** Worksheet cells *)

Section sheet_facts.
Implicit Types (ws : sheet) (r c : nat) (v : pyval).

Lemma cell_at_set_value ws r c v r' c' :
  cell_at (set_value ws r c v) r' c' =
  if decide ((r, c) = (r', c')) then Cell v (hyperlink (cell_at ws r c))
  else cell_at ws r' c'.
Proof.
  unfold cell_at at 1, set_value. rewrite lookup_insert.
  destruct (decide ((r, c) = (r', c'))); reflexivity.
Qed.

Lemma value_at_set_value ws r c v r' c' :
  value_at (set_value ws r c v) r' c' =
  if decide ((r, c) = (r', c')) then v else value_at ws r' c'.
Proof.
  unfold value_at. rewrite cell_at_set_value.
  destruct (decide ((r, c) = (r', c'))); reflexivity.
Qed.

Lemma value_at_set_value_eq ws r c v : value_at (set_value ws r c v) r c = v.
Proof. rewrite value_at_set_value, decide_True; done. Qed.

Lemma value_at_set_value_ne ws r c v r' c' :
  (r, c) ≠ (r', c') → value_at (set_value ws r c v) r' c' = value_at ws r' c'.
Proof. intros. rewrite value_at_set_value, decide_False; done. Qed.

Lemma cell_at_set_hyperlink ws r c h r' c' :
  cell_at (set_hyperlink ws r c h) r' c' =
  if decide ((r, c) = (r', c')) then Cell (value (cell_at ws r c)) (Some h)
  else cell_at ws r' c'.
Proof.
  unfold cell_at at 1, set_hyperlink. rewrite lookup_insert.
  destruct (decide ((r, c) = (r', c'))); reflexivity.
Qed.

Lemma value_at_missing ws r c : ws !! (r, c) = None → value_at ws r c = PyNone.
Proof. unfold value_at, cell_at. intros ->. reflexivity. Qed.

Lemma truthy_in_dom ws r c :
  truthy (value_at ws r c) = true → (r, c) ∈ dom ws.
Proof.
  intros Ht. apply elem_of_dom. destruct (ws !! (r, c)) eqn:E; [eauto|].
  rewrite (value_at_missing _ _ _ E) in Ht. discriminate.
Qed.

End sheet_facts.

(** ** The header loops *)

(** The header loops stop at a falsy cell, never for lack of fuel. *)
Section header_facts.
Variable key : nat → nat * nat.
Hypothesis key_inj : ∀ i j, key i = key j → i = j.

Lemma header_names_fuel_cells (fuel : nat) (ws : sheet) (k i : nat) :
  (i < length (header_names_fuel fuel ws key k))%nat →
  truthy (value_at ws (key (k + i)).1 (key (k + i)).2) = true.
Proof.
  revert k i. induction fuel as [|fuel IH]; intros k i; simpl; [lia|].
  destruct (truthy (value_at ws (key k).1 (key k).2)) eqn:E; simpl; [|lia].
  destruct i as [|i]; intros Hi.
  - by rewrite Nat.add_0_r.
  - replace (k + S i)%nat with (S k + i)%nat by lia. apply IH. lia.
Qed.

Lemma truthy_run_bounded (ws : sheet) (f : nat → nat * nat) (n : nat) :
  (∀ i j, f i = f j → i = j) →
  (∀ i, (i < n)%nat → f i ∈ dom ws) →
  (n ≤ size ws)%nat.
Proof.
  intros Hinj Hdom.
  rewrite <- size_dom.
  assert (Hnd : NoDup (f <$> seq 0 n)).
  { apply NoDup_fmap_2; [intros i j; apply Hinj | apply NoDup_seq]. }
  assert (Hlen : size (list_to_set (C := gset (nat * nat)) (f <$> seq 0 n)) = n).
  { rewrite size_list_to_set by done. by rewrite length_fmap, length_seq. }
  rewrite <- Hlen at 1.
  apply subseteq_size. intros x Hx.
  apply elem_of_list_to_set, list_elem_of_fmap in Hx as (i & -> & Hi).
  apply elem_of_seq in Hi. apply Hdom. lia.
Qed.

Lemma header_names_fuel_length (fuel : nat) (ws : sheet) (k : nat) :
  (length (header_names_fuel fuel ws key k) ≤ size ws)%nat.
Proof.
  apply (truthy_run_bounded ws (λ i, key (k + i)%nat)).
  - intros i j Hij. apply key_inj in Hij. lia.
  - intros i Hi. pose proof (header_names_fuel_cells _ _ _ _ Hi) as Ht.
    apply truthy_in_dom in Ht. by destruct (key (k + i)%nat).
Qed.

Lemma header_names_fuel_stops (fuel : nat) (ws : sheet) (k : nat) :
  let n := length (header_names_fuel fuel ws key k) in
  (n < fuel)%nat →
  truthy (value_at ws (key (k + n)).1 (key (k + n)).2) = false.
Proof.
  revert k. induction fuel as [|fuel IH]; intros k; simpl; [lia|].
  destruct (truthy (value_at ws (key k).1 (key k).2)) eqn:E; simpl.
  - intros Hl.
    replace (k + S (length (header_names_fuel fuel ws key (S k))))%nat
      with (S k + length (header_names_fuel fuel ws key (S k)))%nat by lia.
    apply IH. lia.
  - intros _. by rewrite Nat.add_0_r.
Qed.

Lemma header_names_stops (ws : sheet) (k : nat) :
  let n := length (header_names ws key k) in
  truthy (value_at ws (key (k + n)).1 (key (k + n)).2) = false.
Proof.
  apply header_names_fuel_stops.
  pose proof (header_names_fuel_length (S (size ws)) ws k).
  unfold header_names. lia.
Qed.

(** More fuel than the loop needs changes nothing. *)
Lemma header_names_fuel_more (fuel fuel' : nat) (ws : sheet) (k : nat) :
  (length (header_names_fuel fuel ws key k) < fuel)%nat →
  (fuel ≤ fuel')%nat →
  header_names_fuel fuel' ws key k = header_names_fuel fuel ws key k.
Proof.
  revert fuel' k. induction fuel as [|fuel IH]; intros fuel' k; simpl; [lia|].
  destruct fuel' as [|fuel']; [lia|]. simpl.
  destruct (truthy (value_at ws (key k).1 (key k).2)); simpl; [|done].
  intros Hl Hf. f_equal. apply IH; lia.
Qed.

Lemma header_names_fuel_ext (fuel : nat) (ws ws' : sheet) (k : nat) :
  (∀ i, value_at ws' (key i).1 (key i).2 = value_at ws (key i).1 (key i).2) →
  header_names_fuel fuel ws' key k = header_names_fuel fuel ws key k.
Proof.
  intros Hv. revert k. induction fuel as [|fuel IH]; intros k; simpl; [done|].
  rewrite Hv. destruct (truthy _); [|done]. f_equal. apply IH.
Qed.

(** The names read depend only on the cells of the header. *)
Lemma header_names_ext (ws ws' : sheet) (k : nat) :
  (∀ i, value_at ws' (key i).1 (key i).2 = value_at ws (key i).1 (key i).2) →
  header_names ws' key k = header_names ws key k.
Proof.
  intros Hv. unfold header_names.
  pose proof (header_names_fuel_length (S (size ws)) ws k) as H1.
  pose proof (header_names_fuel_length (S (size ws')) ws' k) as H2.
  rewrite <- (header_names_fuel_more (S (size ws')) (S (size ws) + S (size ws')) ws' k)
    by lia.
  rewrite <- (header_names_fuel_more (S (size ws)) (S (size ws) + S (size ws')) ws k)
    by lia.
  by apply header_names_fuel_ext.
Qed.

End header_facts.

(** ** Dictionaries and loops *)

Section dict_facts.
Context {K V : Type} `{EqDecision K}.
Implicit Types (d : list (K * V)) (k : K) (v : V).

Lemma get_set d k k' v :
  PyDict.get k' (PyDict.set k v d) =
  if decide (k' = k) then Some v else PyDict.get k' d.
Proof.
  induction d as [|[k0 v0] d IH]; simpl.
  - destruct (decide (k' = k)); reflexivity.
  - destruct (decide (k = k0)) as [->|Hne]; simpl.
    + destruct (decide (k' = k0)); reflexivity.
    + destruct (decide (k' = k0)) as [->|]; [by rewrite decide_False|done].
Qed.

End dict_facts.

(** A loop invariant for [for_each]. *)
Lemma for_each_invariant {A S : Type} (P : S → Prop)
    (body : A → S → result S) (l : list A) (s s' : S) :
  (∀ x s1 s2, P s1 → body x s1 = Ok s2 → P s2) →
  P s → for_each body l s = Ok s' → P s'.
Proof.
  intros Hstep. revert s. induction l as [|x l IH]; simpl; intros s Hs.
  - by intros [= <-].
  - destruct (body x s) as [s1|e] eqn:E; simpl; [|done]. eauto.
Qed.

Lemma foldl_invariant {A S : Type} (P : S → Prop) (f : S → A → S)
    (l : list A) (s : S) :
  (∀ s1 x, P s1 → P (f s1 x)) → P s → P (foldl f s l).
Proof. intros Hstep. revert s. induction l; simpl; eauto. Qed.

(** ** Step 2 writes an identifier only into an empty cell *)

Lemma step2_match_links_kept row_players_links col_index_links player m
    (ws0 : sheet) (g g' : grids) :
  links_kept ws0 (g_links g) →
  step2_match row_players_links col_index_links player m g = Ok g' →
  links_kept ws0 (g_links g').
Proof.
  intros Hk. unfold step2_match. destruct m as [[opponent_name oid] match_id].
  repeat case_match; intros Heq; simplify_eq; simpl; try done.
  all: intros r c Ht; specialize (Hk r c Ht).
  all: match goal with H : negb (truthy (value_at _ ?r0 ?c0)) = true |- _ =>
    assert (Hne : (r0, c0) ≠ (r, c));
    [ intros [= <- <-]; apply negb_true_iff in H; unfold value_at in H, Ht;
      rewrite Hk in H; congruence |]
  end.
  all: rewrite cell_at_set_hyperlink, decide_False by done.
  all: rewrite cell_at_set_value, decide_False by done; done.
Qed.

Lemma step2_links_kept rem season players player_ids row_players_links
    col_index_links (g g' : grids) :
  step2 rem season players player_ids row_players_links col_index_links g
    = Ok g' →
  links_kept (g_links g) (g_links g').
Proof.
  apply (for_each_invariant (λ g1, links_kept (g_links g) (g_links g1))).
  - intros player g1 g2 Hk. unfold step2_player.
    repeat case_match; try (by intros ?; simplify_eq/=).
    destruct (get_player_matches _ _ _) as [pm|e]; simpl; [|done].
    apply (for_each_invariant (λ g3, links_kept (g_links g) (g_links g3)));
      [|done].
    intros m ga gb. apply step2_match_links_kept.
  - by intros r c _.
Qed.

(** ** [enumerate], [col_index], the cells of the scan *)

Lemma elem_of_enumerate {A : Type} (start : nat) (l : list A) (n : nat) (x : A) :
  (n, x) ∈ enumerate start l ↔ ∃ i : nat, n = (start + i)%nat ∧ l !! i = Some x.
Proof.
  revert start. induction l as [|y l IH]; intros start; simpl.
  - split; [by intros ?%elem_of_nil | by intros (i & _ & ?)].
  - rewrite elem_of_cons, IH. split.
    + intros [[= -> ->] | (i & -> & Hi)].
      * exists O. split; [lia|done].
      * exists (S i). split; [lia|done].
    + intros ([|i] & -> & Hi); simpl in Hi.
      * left. injection Hi as ->. f_equal. lia.
      * right. exists i. split; [lia|done].
Qed.

Lemma elem_of_step1_cells (rows cols : list string) (n : nat) (player opp : string) :
  (n, player, opp) ∈ step1_cells rows cols ↔
  (∃ i : nat, n = (i + 2)%nat ∧ rows !! i = Some player) ∧ opp ∈ cols.
Proof.
  unfold step1_cells. rewrite list_elem_of_bind. split.
  - intros ([m p] & Hin & Hp). simpl in Hin.
    apply list_elem_of_bind in Hin as (o & Hin & Ho).
    apply list_elem_of_singleton in Hin as [= -> -> ->].
    apply elem_of_enumerate in Hp as (i & -> & Hi).
    split; [|done]. exists i. split; [lia|done].
  - intros [(i & -> & Hi) Ho]. exists ((i + 2)%nat, player). split.
    + simpl. apply list_elem_of_bind. exists opp. split; [|done].
      by apply list_elem_of_singleton.
    + apply elem_of_enumerate. exists i. split; [lia|done].
Qed.

Lemma col_index_fold_some (l : list (nat * string)) (d : list (string * nat))
    (name : string) :
  is_Some (PyDict.get name d) ∨ name ∈ l.*2 →
  is_Some (PyDict.get name (foldl (λ d p, PyDict.set p.2 p.1 d) d l)).
Proof.
  revert d. induction l as [|[n x] l IH]; intros d; simpl.
  - intros [?|?%elem_of_nil]; done.
  - intros H. apply IH. rewrite get_set.
    destruct (decide (name = x)) as [->|Hne]; [left; eauto|].
    destruct H as [?|H]; [by left|]. apply elem_of_cons in H as [?|?]; [done|by right].
Qed.

Lemma col_index_fold_ge (l : list (nat * string)) (d : list (string * nat))
    (name : string) (c : nat) :
  (∀ n x, (n, x) ∈ l → (2 ≤ n)%nat) →
  (∀ c', PyDict.get name d = Some c' → (2 ≤ c')%nat) →
  PyDict.get name (foldl (λ d p, PyDict.set p.2 p.1 d) d l) = Some c →
  (2 ≤ c)%nat.
Proof.
  revert d. induction l as [|[n x] l IH]; intros d Hl Hd; simpl.
  - apply Hd.
  - apply IH.
    + intros n' x' Hin. apply (Hl n' x'). by right.
    + intros c'. rewrite get_set. destruct (decide (name = x)); [|apply Hd].
      intros [= <-]. apply (Hl n x). by left.
Qed.

Lemma enumerate_snd {A : Type} (start : nat) (l : list A) :
  (enumerate start l).*2 = l.
Proof. revert start. induction l; intros; simpl; [done|by f_equal]. Qed.

Lemma col_index_some (cols : list string) (opp : string) :
  opp ∈ cols → ∃ c, PyDict.get opp (col_index cols) = Some c.
Proof.
  intros Hin. apply (col_index_fold_some (enumerate 2 cols) [] opp).
  right. by rewrite enumerate_snd.
Qed.

Lemma col_index_ge (cols : list string) (opp : string) (c : nat) :
  PyDict.get opp (col_index cols) = Some c → (2 ≤ c)%nat.
Proof.
  apply col_index_fold_ge; [|done].
  intros n x (i & -> & _)%elem_of_enumerate. lia.
Qed.

(** ** The scan that computes [all_filled] *)

Lemma all_filled_loop (ws : sheet) (colidx : list (string * nat))
    (l : list (nat * string * string)) (acc b : bool) :
  for_each (λ it ok, if negb ok then Ok false else cell_filled ws colidx it)
           l acc = Ok b →
  (b = true ↔ acc = true ∧ ∀ it, it ∈ l → cell_filled ws colidx it = Ok true).
Proof.
  revert acc. induction l as [|it l IH]; intros acc; simpl.
  - intros [= <-]. split; [|by intros []]. intros ->. split; [done|].
    by intros ? ?%elem_of_nil.
  - destruct acc; simpl.
    + destruct (cell_filled ws colidx it) as [b1|e] eqn:E; simpl; [|done].
      intros Hl. rewrite (IH _ Hl). split.
      * intros [-> Hall]. split; [done|]. intros it' [->|?]%elem_of_cons; eauto.
      * intros [_ Hall]. split.
        -- specialize (Hall it (list_elem_of_here _ _)). congruence.
        -- intros it' ?. apply Hall. by right.
    + intros Hl. rewrite (IH _ Hl). split; intros [[=] _].
Qed.

Lemma all_filled_total (ws : sheet) (rows cols : list string) :
  ∃ b, all_filled ws rows cols (col_index cols) = Ok b.
Proof.
  unfold all_filled.
  assert (Hin : ∀ it, it ∈ step1_cells rows cols → it.2 ∈ cols).
  { intros [[n p] o] Hit. by apply elem_of_step1_cells in Hit as [_ ?]. }
  revert Hin. generalize (step1_cells rows cols). generalize true.
  intros acc l. revert acc. induction l as [|[[n p] o] l IH]; intros acc Hin; simpl.
  - eauto.
  - destruct acc; simpl.
    + unfold cell_filled at 1. case_bool_decide.
      * apply IH. intros it ?. apply Hin. by right.
      * destruct (col_index_some cols o) as [c Hc].
        { apply (Hin (n, p, o)). by left. }
        unfold column_of. rewrite Hc. simpl. apply IH.
        intros it ?. apply Hin. by right.
    + apply IH. intros it ?. apply Hin. by right.
Qed.

Lemma all_filled_spec (ws : sheet) (rows cols : list string) (b : bool) :
  all_filled ws rows cols (col_index cols) = Ok b →
  (b = true ↔ off_diagonal_filled ws rows cols).
Proof.
  intros Hb. unfold all_filled in Hb. rewrite (all_filled_loop _ _ _ _ _ Hb).
  split.
  - intros [_ Hall] i player opp Hi Ho Hne.
    specialize (Hall ((i + 2)%nat, player, opp)).
    unfold cell_filled in Hall. rewrite bool_decide_eq_false_2 in Hall by done.
    destruct (col_index_some cols opp Ho) as [c Hc].
    unfold column_of in Hall. rewrite Hc in Hall. simpl in Hall.
    exists c. split; [done|].
    assert (Ok (truthy (value_at ws (i + 2) c)) = Ok true) as [=]; [|done].
    apply Hall. apply elem_of_step1_cells. eauto.
  - intros Hfull. split; [done|]. intros [[n player] opp] Hit.
    apply elem_of_step1_cells in Hit as [(i & -> & Hi) Ho].
    unfold cell_filled. case_bool_decide as Hd; [done|].
    destruct (Hfull i player opp Hi Ho Hd) as (c & Hc & Ht).
    unfold column_of. rewrite Hc. simpl. by rewrite Ht.
Qed.

(** ** The shape of a run that ends normally *)

Lemma main_Ok (argv : list string) (rem : remote) (wb : workbook) (o : outcome) :
  main argv rem wb = Ok o →
  let players := (read_players (ws_players wb)).1 in
  let player_ids := (read_players (ws_players wb)).2 in
  let rows := names_down (ws_links wb) 2 1 in
  let cols := names_right (ws_links wb) 1 2 in
  ∃ (g : grids) (filled : bool),
    login_session rem = Ok ()
    ∧ discovery rem (season_of argv) players player_ids wb
        (flag_headers (ws_flag wb) rows cols) rows cols = Ok g
    ∧ all_filled (g_links g) rows cols (col_index cols) = Ok filled
    ∧ o = Outcome
            (Workbook (ws_players wb) (g_links g)
               (scoring_phases rem (season_of argv) players player_ids
                  (ws_matches wb) (g_tables g)).1
               (g_flag g) (mark_complete filled (ws_control wb)))
            (scoring_phases rem (season_of argv) players player_ids
               (ws_matches wb) (g_tables g)).2.
Proof.
  unfold main. destruct (read_players (ws_players wb)) as [players player_ids].
  destruct (login_session rem) as [[]|e]; simpl; [|intros [=]].
  destruct (discovery _ _ _ _ _ _ _ _) as [g|e]; simpl; [|intros [=]].
  destruct (scoring_phases _ _ _ _ _ _) as [ws' lg] eqn:Es.
  destruct (all_filled _ _ _ _) as [filled|e] eqn:Ef; simpl; [|intros [=]].
  intros [= <-]. exists g, filled.
  split; [done|]. split; [done|]. split; [exact Ef|by rewrite Es].
Qed.

Lemma discovery_links_kept rem season players player_ids (wb : workbook)
    (ws_flag0 : sheet) (rows cols : list string) (g : grids) :
  discovery rem season players player_ids wb ws_flag0 rows cols = Ok g →
  links_kept (ws_links wb) (g_links g).
Proof.
  unfold discovery. case_match.
  - intros [= <-]. by intros r c _.
  - destruct (step1 _ _ _ _ _ _ _) as [t|e]; simpl; [|done].
    intros Hs. by apply step2_links_kept in Hs.
Qed.

(** ** The completion marker *)

Lemma phase2_no_mapping (pim : list string) (fin : list (Z * string)) (ws : sheet) :
  phase2 [] pim fin ws = ws.
Proof.
  unfold phase2. induction fin as [|[mid w] fin IH]; simpl; [done|apply IH].
Qed.

Lemma mark_complete_spec (filled : bool) (ws : sheet) :
  value_at (mark_complete filled ws) 1 1 = PyStr SENTINEL ↔
  value_at ws 1 1 = PyStr SENTINEL ∨ filled = true.
Proof.
  destruct filled; simpl.
  - rewrite value_at_set_value_eq. split; [by right|done].
  - split; [by left|]. by intros [?|[=]].
Qed.

Lemma marker_iff_with_initial_headers (argv : list string) (rem : remote)
    (wb : workbook) (o : outcome) :
  main argv rem wb = Ok o →
  (value_at (ws_control (out_wb o)) 1 1 = PyStr SENTINEL ↔
   value_at (ws_control wb) 1 1 = PyStr SENTINEL
   ∨ off_diagonal_filled (ws_links (out_wb o))
       (names_down (ws_links wb) 2 1) (names_right (ws_links wb) 1 2)).
Proof.
  intros (g & filled & _ & _ & Hf & ->)%main_Ok. simpl.
  rewrite mark_complete_spec. by rewrite (all_filled_spec _ _ _ _ Hf).
Qed.

(** ** Step 2 leaves the headers of "Links" alone *)

Lemma step2_match_headers_kept rows (cols : list string) player m
    (ws0 : sheet) (g g' : grids) :
  headers_kept ws0 (g_links g) →
  step2_match rows (col_index cols) player m g = Ok g' →
  headers_kept ws0 (g_links g').
Proof.
  intros Hk. unfold step2_match. destruct m as [[opponent_name oid] match_id].
  repeat case_match; intros Heq; simplify_eq; simpl; try done.
  all: intros r c Hrc; rewrite <- (Hk r c Hrc).
  all: match goal with H : PyDict.get _ (col_index _) = Some _ |- _ =>
         apply col_index_ge in H end.
  all: unfold value_at; rewrite cell_at_set_hyperlink, decide_False
         by (intros [=]; lia).
  all: by rewrite cell_at_set_value, decide_False by (intros [=]; lia).
Qed.

Lemma discovery_headers_kept rem season players player_ids (wb : workbook)
    (ws_flag0 : sheet) (rows cols : list string) (g : grids) :
  discovery rem season players player_ids wb ws_flag0 rows cols = Ok g →
  headers_kept (ws_links wb) (g_links g).
Proof.
  unfold discovery. case_match.
  - intros [= <-]. by intros r c _.
  - destruct (step1 _ _ _ _ _ _ _) as [t|e]; simpl; [|intros [=]].
    apply (for_each_invariant (λ g1, headers_kept (ws_links wb) (g_links g1)));
      [|by intros r c _].
    intros player g1 g2 Hk. unfold step2_player.
    repeat case_match; try (by intros ?; simplify_eq/=).
    destruct (get_player_matches _ _ _) as [pm|e']; simpl; [|intros [=]].
    apply (for_each_invariant (λ g3, headers_kept (ws_links wb) (g_links g3)));
      [|done].
    intros m ga gb. apply step2_match_headers_kept.
Qed.

Lemma main_headers_kept (argv : list string) (rem : remote) (wb : workbook)
    (o : outcome) :
  main argv rem wb = Ok o →
  names_down (ws_links (out_wb o)) 2 1 = names_down (ws_links wb) 2 1
  ∧ names_right (ws_links (out_wb o)) 1 2 = names_right (ws_links wb) 1 2.
Proof.
  intros (g & filled & _ & Hd & _ & ->)%main_Ok. simpl.
  apply discovery_headers_kept in Hd.
  split; apply header_names_ext.
  - intros i j [=]. done.
  - intros i. apply Hd. simpl. lia.
  - intros i j [=]. done.
  - intros i. apply Hd. simpl. lia.
Qed.

(** ** Finished pairings *)

Lemma write_score_keeps_finished (pim : list string) (ws : sheet)
    (p o : string) (ps os : Z) (sw : bool) (r k c : nat) :
  finished ws r k = true →
  c = (col_start + k * 2)%nat ∨ c = (col_start + k * 2 + 1)%nat →
  value_at (write_score_to_excel pim ws p o ps os sw).1 r c = value_at ws r c.
Proof.
  intros Hf Hc. unfold write_score_to_excel.
  destruct (index_of p pim) as [i|]; [|done].
  destruct (index_of o pim) as [j|]; [|done].
  destruct (is_eleven _ || is_eleven _) eqn:Hg; [done|]. simpl.
  apply orb_false_iff in Hg as [Hg1 Hg2].
  unfold finished in Hf. apply orb_true_iff in Hf.
  rewrite !value_at_set_value.
  repeat case_decide; simplify_eq; try done; unfold col_start in *.
  all: destruct Hc as [Hc|Hc]; try lia.
  all: assert (j = k) as -> by lia.
  all: destruct Hf as [Hf|Hf]; congruence.
Qed.

Lemma document_for_matches (rem : remote) (mid : Z) (s : scoring) :
  s_matches (document_for rem mid s).2 = s_matches s.
Proof. unfold document_for. by destruct (no_html _). Qed.

(** What the body of the Phase 1 loop does to the sheet: nothing, or one
    call of [write_score_to_excel] with the mapped scores. *)
Lemma phase1_match_matches (rem : remote) (pim : list string) (mid : Z)
    (p o : string) (sw : bool) (s : scoring) :
  s_matches (phase1_match rem pim (mid, (p, o, sw)) s) = s_matches s
  ∨ ∃ text l r ls rs ps os,
      (document_for rem mid s).1 = Some text
      ∧ text_empty text = false
      ∧ extract_latest_score text pim = Some (l, r, ls, rs)
      ∧ map_scores_for_excel p o l r ls rs sw = Some (ps, os)
      ∧ s_matches (phase1_match rem pim (mid, (p, o, sw)) s) =
        (write_score_to_excel pim (s_matches s) p o ps os sw).1.
Proof.
  unfold phase1_match.
  pose proof (document_for_matches rem mid s) as Hm.
  destruct (document_for rem mid s) as [html s1]. simpl in *.
  destruct html as [text|]; simpl; [|by left].
  destruct (text_empty text) eqn:Et; [by left|].
  destruct (extract_latest_score text pim) as [[[[l r] ls] rs]|] eqn:Ex;
    [|by left].
  destruct (map_scores_for_excel p o l r ls rs sw) as [[ps os]|] eqn:Emap;
    [|by left].
  right. exists text, l, r, ls, rs, ps, os. simpl. by rewrite Hm.
Qed.

Lemma phase1_match_keeps_finished (rem : remote) (pim : list string)
    (entry : Z * (string * string * bool)) (s : scoring) (r k c : nat) :
  finished (s_matches s) r k = true →
  c = (col_start + k * 2)%nat ∨ c = (col_start + k * 2 + 1)%nat →
  value_at (s_matches (phase1_match rem pim entry s)) r c
  = value_at (s_matches s) r c.
Proof.
  intros Hf Hc. destruct entry as [mid [[p o] sw]].
  destruct (phase1_match_matches rem pim mid p o sw s)
    as [->|(text & l & r0 & ls & rs & ps & os & _ & _ & _ & _ & ->)]; [done|].
  by eapply write_score_keeps_finished.
Qed.

Lemma phase1_keeps_finished (rem : remote) (pim : list string)
    (mapping : list (Z * (string * string * bool))) (s : scoring) (r k : nat) :
  finished (s_matches s) r k = true →
  ∀ c, c = (col_start + k * 2)%nat ∨ c = (col_start + k * 2 + 1)%nat →
       value_at (s_matches (phase1 rem pim mapping s)) r c
       = value_at (s_matches s) r c.
Proof.
  intros Hf. unfold phase1.
  apply (foldl_invariant
           (λ s1, ∀ c, c = (col_start + k * 2)%nat ∨ c = (col_start + k * 2 + 1)%nat →
                       value_at (s_matches s1) r c = value_at (s_matches s) r c));
    [|done].
  intros s1 entry Hs1 c Hc. rewrite <- (Hs1 c Hc).
  apply (phase1_match_keeps_finished _ _ _ _ _ k); [|done].
  unfold finished in *. by rewrite !Hs1 by auto.
Qed.

Lemma phase2_match_value (mapping : list (Z * (string * string * bool)))
    (pim : list string) (entry : Z * string) (ws : sheet) (r c : nat) :
  value_at (phase2_match mapping pim entry ws) r c = value_at ws r c
  ∨ value_at (phase2_match mapping pim entry ws) r c = PyInt 11.
Proof.
  unfold phase2_match. destruct entry as [mid w].
  repeat case_match; try (by left).
  all: rewrite value_at_set_value; destruct (decide _); [by right|by left].
Qed.

Lemma phase2_value (mapping : list (Z * (string * string * bool)))
    (pim : list string) (fin : list (Z * string)) (ws : sheet) (r c : nat) :
  value_at (phase2 mapping pim fin ws) r c = value_at ws r c
  ∨ value_at (phase2 mapping pim fin ws) r c = PyInt 11.
Proof.
  unfold phase2.
  apply (foldl_invariant
           (λ ws1, value_at ws1 r c = value_at ws r c ∨ value_at ws1 r c = PyInt 11));
    [|by left].
  intros ws1 entry [H1|H1];
    destruct (phase2_match_value mapping pim entry ws1 r c) as [H2|H2];
    rewrite ?H2; auto.
Qed.

Lemma scoring_phases_finished (rem : remote) (season : string)
    (players : list string) (player_ids : list (string * string))
    (ws : sheet) (t : tables) (r k : nat) :
  finished ws r k = true →
  ∀ c, c = (col_start + k * 2)%nat ∨ c = (col_start + k * 2 + 1)%nat →
       let ws' := (scoring_phases rem season players player_ids ws t).1 in
       value_at ws' r c = value_at ws r c ∨ value_at ws' r c = PyInt 11.
Proof.
  intros Hf c Hc. unfold scoring_phases.
  destruct (step3 _ _ _ _ _) as [fin lg]. simpl.
  pose proof (phase1_keeps_finished rem (names_down ws 4 1)
                (match_id_to_excel t) (Scoring ws (html_cache t) lg) r k Hf c Hc)
    as H1.
  simpl in H1. rewrite <- H1. apply phase2_value.
Qed.

Lemma finished_stays (ws ws' : sheet) (r k : nat) :
  finished ws r k = true →
  (∀ c, c = (col_start + k * 2)%nat ∨ c = (col_start + k * 2 + 1)%nat →
        value_at ws' r c = value_at ws r c ∨ value_at ws' r c = PyInt 11) →
  finished ws' r k = true.
Proof.
  unfold finished. intros Hf Hv.
  destruct (Hv (col_start + k * 2)%nat) as [H1|H1]; [by left| |];
    destruct (Hv (col_start + k * 2 + 1)%nat) as [H2|H2]; [by right| | |by right| | ];
    rewrite ?H1, ?H2; try done; unfold is_eleven at 1;
    rewrite ?bool_decide_eq_true_2 by done; try done.
  all: by rewrite ?orb_true_r.
Qed.

Lemma set_value_writes_eleven (ws : sheet) (r c : nat) :
  writes_eleven_only_at ws (set_value ws r c (PyInt 11)) (r, c).
Proof.
  split; simpl.
  - apply value_at_set_value_eq.
  - intros r' c' Hne. rewrite cell_at_set_value, decide_False; done.
Qed.

Lemma write_score_writes (pim : list string) (ws : sheet) (p o : string)
    (ps os : Z) (sw : bool) (i j : nat) :
  index_of p pim = Some i →
  index_of o pim = Some j →
  finished ws (i + 4) j = false →
  (write_score_to_excel pim ws p o ps os sw).1
  = set_value (set_value ws (i + 4) (col_start + j * 2) (PyInt ps))
              (i + 4) (col_start + j * 2 + 1) (PyInt os).
Proof.
  intros Hi Hj Hf. unfold write_score_to_excel, finished in *.
  rewrite Hi, Hj, Hf. reflexivity.
Qed.

(* ===================================================================== *)
(** * The properties of the specification *)
(* ===================================================================== *)

(** ** C1: a run that finds the completion marker *)

(** C1. When the control cell holds the marker at the start of a run and
    login succeeds, the run ends normally, Step 1 and Step 2 are skipped,
    and neither the score grid nor the identifier grid is written: the
    dictionary [match_id_to_excel] is only filled by the skipped steps, so
    Phase 1 and Phase 2 loop over nothing. The claim that scores and
    terminal values are still written for populated pairings fails. *)
Theorem marker_run_writes_no_score (argv : list string) (rem : remote)
    (wb : workbook) :
  login_session rem = Ok () →
  value_at (ws_control wb) 1 1 = PyStr SENTINEL →
  ∃ o, main argv rem wb = Ok o
       ∧ ws_matches (out_wb o) = ws_matches wb
       ∧ ws_links (out_wb o) = ws_links wb.
Proof.
  intros Hlogin Hmark. unfold main.
  destruct (read_players (ws_players wb)) as [players player_ids].
  rewrite Hlogin. simpl. unfold discovery, skip_fetching.
  rewrite bool_decide_eq_true_2 by done. simpl.
  unfold scoring_phases. simpl.
  destruct (step3 _ _ _ _ _) as [fin lg]. simpl.
  rewrite phase2_no_mapping.
  destruct (all_filled_total (ws_links wb) (names_down (ws_links wb) 2 1)
              (names_right (ws_links wb) 1 2)) as [b ->].
  simpl. eauto.
Qed.

(** Alice vs Bob has the identifier 123, the site shows 5 : 3 and a
    transcript in which Alice wins. With the marker the score cells stay
    empty; without it the same run writes 11 and 3. *)
Lemma marker_run_writes_no_score_witness :
  login_session live_site = Ok ()
  ∧ value_at (ws_control marked_wb) 1 1 = PyStr SENTINEL
  ∧ value_at (ws_links marked_wb) 2 3 = PyInt 123
  ∧ (∃ o, main ["dg.py"] live_site marked_wb = Ok o
          ∧ ws_matches (out_wb o) = ws_matches marked_wb
          ∧ ws_links (out_wb o) = ws_links marked_wb)
  ∧ value_at (ws_matches (out_wb (outcome_of
                (main ["dg.py"] live_site unmarked_wb) unmarked_wb))) 4 4
    = PyInt 11
  ∧ value_at (ws_matches (out_wb (outcome_of
                (main ["dg.py"] live_site unmarked_wb) unmarked_wb))) 4 5
    = PyInt 3.
Proof.
  split; [reflexivity|]. split; [vm_compute; reflexivity|].
  split; [vm_compute; reflexivity|]. split.
  - apply (marker_run_writes_no_score ["dg.py"] live_site marked_wb);
      vm_compute; reflexivity.
  - split; vm_compute; reflexivity.
Defined.

(** ** C2: finished pairings *)

(** C2, as stated, fails: it is not the case that a run leaves both score
    cells of every finished pairing unchanged. The pairing Alice vs Bob
    holds (5, 11); the transcript is read as a win of Alice, and Phase 2
    writes 11 into the cell that held 5. *)
Lemma terminal_write_changes_finished_pairing :
  (main ["dg.py"] misread_site finished_wb = Ok finished_out
   ∧ finished (ws_matches finished_wb) 4 1 = true
   ∧ value_at (ws_matches finished_wb) 4 4 = PyInt 5
   ∧ value_at (ws_matches (out_wb finished_out)) 4 4 = PyInt 11)
  ∧ ¬ (∀ (argv : list string) (rem : remote) (wb : workbook) (o : outcome)
         (r k c : nat),
         main argv rem wb = Ok o →
         finished (ws_matches wb) r k = true →
         pair_cell k c →
         value_at (ws_matches (out_wb o)) r c = value_at (ws_matches wb) r c).
Proof.
  split; [repeat split; vm_compute; reflexivity|].
  intros H.
  specialize (H ["dg.py"] misread_site finished_wb finished_out 4%nat 1%nat
                4%nat).
  assert (Hv : value_at (ws_matches (out_wb finished_out)) 4 4
               = value_at (ws_matches finished_wb) 4 4).
  { apply H; [vm_compute; reflexivity|vm_compute; reflexivity|by left]. }
  vm_compute in Hv. discriminate Hv.
Qed.

(** C2, amended. For a pairing whose score cells hold 11 in either slot:
    Phase 1 changes neither of its two cells; Phase 2 leaves every cell as
    it is or sets it to 11; so over a whole run the pairing stays finished
    and each of its two cells is unchanged or holds 11. A cell that holds
    11 is therefore never changed, while the other slot may still be set
    to 11 by the unguarded terminal phase. *)
Theorem finished_pairing_cells_frozen_or_eleven :
  (∀ (rem : remote) (pim : list string)
     (mapping : list (Z * (string * string * bool))) (s : scoring) (r k c : nat),
     finished (s_matches s) r k = true → pair_cell k c →
     value_at (s_matches (phase1 rem pim mapping s)) r c
     = value_at (s_matches s) r c)
  ∧ (∀ (mapping : list (Z * (string * string * bool))) (pim : list string)
       (fin : list (Z * string)) (ws : sheet) (r c : nat),
       value_at (phase2 mapping pim fin ws) r c = value_at ws r c
       ∨ value_at (phase2 mapping pim fin ws) r c = PyInt 11)
  ∧ (∀ (argv : list string) (rem : remote) (wb : workbook) (o : outcome)
       (r k : nat),
       main argv rem wb = Ok o →
       finished (ws_matches wb) r k = true →
       finished (ws_matches (out_wb o)) r k = true
       ∧ ∀ c, pair_cell k c →
              value_at (ws_matches (out_wb o)) r c = value_at (ws_matches wb) r c
              ∨ value_at (ws_matches (out_wb o)) r c = PyInt 11).
Proof.
  split; [|split].
  - intros rem pim mapping s r k c Hf Hc.
    by apply (phase1_keeps_finished _ _ _ _ _ k).
  - apply phase2_value.
  - intros argv rem wb o r k (g & filled & _ & _ & _ & ->)%main_Ok Hf. simpl.
    assert (Hv : ∀ c, pair_cell k c →
              value_at (scoring_phases rem (season_of argv)
                          (read_players (ws_players wb)).1
                          (read_players (ws_players wb)).2
                          (ws_matches wb) (g_tables g)).1 r c
              = value_at (ws_matches wb) r c
              ∨ value_at (scoring_phases rem (season_of argv)
                          (read_players (ws_players wb)).1
                          (read_players (ws_players wb)).2
                          (ws_matches wb) (g_tables g)).1 r c = PyInt 11).
    { intros c Hc. by apply (scoring_phases_finished _ _ _ _ _ _ _ k). }
    split; [|done]. by apply (finished_stays (ws_matches wb)).
Qed.

Lemma finished_pairing_cells_frozen_or_eleven_witness :
  main ["dg.py"] misread_site finished_wb = Ok finished_out
  ∧ finished (ws_matches finished_wb) 4 1 = true
  ∧ finished (ws_matches (out_wb finished_out)) 4 1 = true
  ∧ ∀ c, pair_cell 1 c →
         value_at (ws_matches (out_wb finished_out)) 4 c
         = value_at (ws_matches finished_wb) 4 c
         ∨ value_at (ws_matches (out_wb finished_out)) 4 c = PyInt 11.
Proof.
  split; [vm_compute; reflexivity|]. split; [vm_compute; reflexivity|].
  apply (proj2 (proj2 finished_pairing_cells_frozen_or_eleven)
           ["dg.py"] misread_site finished_wb finished_out 4%nat 1%nat);
    vm_compute; reflexivity.
Defined.

(** ** C3: the terminal write *)

(** C3, as stated, fails: it is not the case that for a Normal pairing the
    row player's cell gets 11 when the winner is the row player and the
    column opponent's cell gets 11 otherwise. Match 123 is decided, its
    pairing (Alice, Bob, Normal) is in the mapping, and the winner is
    reported under the site's name "Bobby". The winner is not the row
    player, yet the column opponent's cell does not get 11: nothing is
    written. *)
Lemma unmatched_winner_writes_nothing :
  main ["dg.py"] bobby_site bobby_wb = Ok bobby_out
  ∧ mapping_of
      (discovery bobby_site (season_of ["dg.py"])
         (read_players (ws_players bobby_wb)).1
         (read_players (ws_players bobby_wb)).2 bobby_wb
         (flag_headers (ws_flag bobby_wb) (names_down (ws_links bobby_wb) 2 1)
            (names_right (ws_links bobby_wb) 1 2))
         (names_down (ws_links bobby_wb) 2 1)
         (names_right (ws_links bobby_wb) 1 2))
    = [(123, ("Alice", "Bob", false)); (456, ("Alice", "Carol", false))]
  ∧ (step3 bobby_site (season_of ["dg.py"])
       (read_players roster_alice_linked).2 (read_players roster_alice_linked).1
       []).1 = [(123, "Bobby")]
  ∧ phase2_match [(123, ("Alice", "Bob", false))] ["Alice"; "Bob"; "Carol"]
      (123, "Bobby") (league_matches [ (4, 4, PyInt 3); (4, 5, PyInt 5) ]%nat)
    = league_matches [ (4, 4, PyInt 3); (4, 5, PyInt 5) ]%nat
  ∧ value_at (ws_matches (out_wb bobby_out)) 4 4 = PyInt 3
  ∧ value_at (ws_matches (out_wb bobby_out)) 4 5 = PyInt 5
  ∧ ¬ (∀ (mapping : list (Z * (string * string * bool)))
         (pim : list string) (mid : Z) (winner : string) (ws : sheet)
         (p o : string) (i j : nat),
         PyDict.get mid mapping = Some (p, o, false) →
         index_of p pim = Some i →
         index_of o pim = Some j →
         let ws' := phase2_match mapping pim (mid, winner) ws in
         if bool_decide (PyStr.lower (PyStr.strip winner) = PyStr.lower p)
         then value_at ws' (i + 4) (col_start + j * 2) = PyInt 11
         else value_at ws' (i + 4) (col_start + j * 2 + 1) = PyInt 11).
Proof.
  repeat split; try (vm_compute; reflexivity).
  intros H.
  specialize (H [(123, ("Alice", "Bob", false))] ["Alice"; "Bob"; "Carol"]
                123 "Bobby"
                (league_matches [ (4, 4, PyInt 3); (4, 5, PyInt 5) ]%nat)
                "Alice" "Bob" 0%nat 1%nat eq_refl eq_refl eq_refl).
  vm_compute in H. discriminate H.
Qed.

(** C3, amended. For a decided match whose pairing (player, opponent,
    switched) is in the mapping and whose two names are both found in the
    player column of "Matches", with [w] the winner's name stripped and
    lower-cased: if [w] is the player's name, 11 is written into the row
    player's cell, or into the opponent's cell when the pairing is
    Switched; otherwise, if [w] is the opponent's name, 11 is written into
    the opponent's cell, or into the row player's cell when Switched; if
    [w] is neither name nothing is written. In every case at most that one
    cell changes: the opposite cell is left as it is. *)
Theorem terminal_write_targets_one_axis
    (mapping : list (Z * (string * string * bool))) (pim : list string)
    (mid : Z) (winner : string) (ws : sheet) (p o : string) (sw : bool)
    (i j : nat) :
  PyDict.get mid mapping = Some (p, o, sw) →
  index_of p pim = Some i →
  index_of o pim = Some j →
  let w := PyStr.lower (PyStr.strip winner) in
  let row_cell := ((i + 4)%nat, (col_start + j * 2)%nat) in
  let col_cell := ((i + 4)%nat, (col_start + j * 2 + 1)%nat) in
  let ws' := phase2_match mapping pim (mid, winner) ws in
  (w = PyStr.lower p →
   writes_eleven_only_at ws ws' (if sw then col_cell else row_cell))
  ∧ (w ≠ PyStr.lower p → w = PyStr.lower o →
     writes_eleven_only_at ws ws' (if sw then row_cell else col_cell))
  ∧ (w ≠ PyStr.lower p → w ≠ PyStr.lower o → ws' = ws).
Proof.
  intros Hget Hi Hj. simpl. unfold phase2_match. rewrite Hget, Hi, Hj.
  split; [|split].
  - intros Hw. rewrite (bool_decide_eq_true_2 _ Hw).
    destruct sw; apply set_value_writes_eleven.
  - intros Hp Hw.
    rewrite (bool_decide_eq_false_2 _ Hp), (bool_decide_eq_true_2 _ Hw).
    destruct sw; apply set_value_writes_eleven.
  - intros Hp Ho.
    rewrite (bool_decide_eq_false_2 _ Hp), (bool_decide_eq_false_2 _ Ho).
    by destruct sw.
Qed.

(** Winner "Alice " for the Normal pairing (Alice, Bob): Alice's cell gets
    11 and Bob's keeps its 5. *)
Lemma terminal_write_targets_one_axis_witness :
  let ws := league_matches [ (4, 4, PyInt 3); (4, 5, PyInt 5) ]%nat in
  let ws' := phase2_match [(123, ("Alice", "Bob", false))]
               ["Alice"; "Bob"; "Carol"] (123, "Alice ") ws in
  writes_eleven_only_at ws ws' (4, 4)%nat
  ∧ value_at ws' 4 5 = PyInt 5.
Proof.
  simpl.
  pose proof (terminal_write_targets_one_axis
                [(123, ("Alice", "Bob", false))] ["Alice"; "Bob"; "Carol"]
                123 "Alice "
                (league_matches [ (4, 4, PyInt 3); (4, 5, PyInt 5) ]%nat)
                "Alice" "Bob" false 0%nat 1%nat
                eq_refl eq_refl eq_refl) as [H _].
  split; [exact (H eq_refl)|vm_compute; reflexivity].
Defined.

(** ** C4: how often a match page is requested *)

(** C4 fails on the code. The identifier 123 stands in both oriented cells
    (Alice, Bob) and (Bob, Alice): Step 1 requests its page once per cell.
    The page of 456 cannot be fetched: Step 1 requests it and Phase 1
    requests it again. *)
Theorem match_page_fetched_twice :
  ∃ o, main ["dg.py"] twice_site twice_wb = Ok o
       ∧ out_log o = [GetList 123; GetList 456; GetList 123; GetList 456]
       ∧ length (filter (λ q, q = GetList 123) (out_log o)) = 2%nat
       ∧ length (filter (λ q, q = GetList 456) (out_log o)) = 2%nat.
Proof.
  exists (outcome_of (main ["dg.py"] twice_site twice_wb) twice_wb).
  repeat split; vm_compute; reflexivity.
Qed.

(** ** C5: a failing request *)

(** C5 fails on the code. Alice has an identifier link and opponents
    without a match, so Step 2 asks for her page through
    [get_player_matches], which has no [try]: an error status raises
    [HTTPError] and a transport failure raises [RequestException], and the
    run is aborted. With the marker set Step 2 is skipped and the same
    failure, met in Step 3, is caught. *)
Theorem player_page_failure_aborts_run :
  main ["dg.py"] (broken_site (HttpResponse false [])) (empty_league_wb ∅)
  = Raise HTTPError
  ∧ main ["dg.py"] (broken_site HttpFailure) (empty_league_wb ∅)
    = Raise RequestException
  ∧ (∃ o, main ["dg.py"] (broken_site HttpFailure) (empty_league_wb marked)
          = Ok o).
Proof.
  split; [vm_compute; reflexivity|]. split; [vm_compute; reflexivity|].
  exists (outcome_of (main ["dg.py"] (broken_site HttpFailure)
                        (empty_league_wb marked)) (empty_league_wb marked)).
  vm_compute. reflexivity.
Qed.

(** ** C6: the substring fallback of the mapper *)

(** C6. For a Normal pairing whose extracted names match the grid names in
    neither exact order (stripped, lower-cased), the mapper returns
    (left score, right score) when the row player's name is contained in
    the left name, else (right score, left score) when it is contained in
    the right name, else nothing, also when only the opponent's name is
    contained; and when it returns nothing, the body of the Phase 1 loop
    leaves the "Matches" sheet as it is. *)
Theorem mapper_substring_fallback
    (player opponent left_name right_name : string)
    (left_score right_score : Z) :
  let ln := PyStr.lower (PyStr.strip left_name) in
  let rn := PyStr.lower (PyStr.strip right_name) in
  let pn := PyStr.lower (PyStr.strip player) in
  let on := PyStr.lower (PyStr.strip opponent) in
  ¬ (ln = pn ∧ rn = on) →
  ¬ (ln = on ∧ rn = pn) →
  map_scores_for_excel player opponent left_name right_name
    left_score right_score false
  = (if PyStr.str_in pn ln then Some (left_score, right_score)
     else if PyStr.str_in pn rn then Some (right_score, left_score)
     else None)
  ∧ ∀ (rem : remote) (pim : list string) (mid : Z) (s : scoring)
      (text : list_page),
      (document_for rem mid s).1 = Some text →
      extract_latest_score text pim
      = Some (left_name, right_name, left_score, right_score) →
      map_scores_for_excel player opponent left_name right_name
        left_score right_score false = None →
      s_matches (phase1_match rem pim (mid, (player, opponent, false)) s)
      = s_matches s.
Proof.
  intros ln rn pn on H1 H2. split.
  - unfold map_scores_for_excel. fold ln rn pn on.
    assert (bool_decide (ln = pn) && bool_decide (rn = on) = false) as ->.
    { apply andb_false_iff.
      destruct (decide (ln = pn)); [right|left]; apply bool_decide_eq_false_2;
        tauto. }
    assert (bool_decide (ln = on) && bool_decide (rn = pn) = false) as ->.
    { apply andb_false_iff.
      destruct (decide (ln = on)); [right|left]; apply bool_decide_eq_false_2;
        tauto. }
    destruct (PyStr.str_in pn ln); [done|].
    destruct (PyStr.str_in pn rn); [done|]. simpl.
    by destruct (PyStr.str_in on ln || PyStr.str_in on rn).
  - intros rem pim mid s text Hdoc Hex Hnone.
    destruct (phase1_match_matches rem pim mid player opponent false s)
      as [->|(text' & l & r & ls & rs & ps & os & Hd & _ & Hx & Hm & _)];
      [done|].
    rewrite Hdoc in Hd. injection Hd as <-. rewrite Hex in Hx.
    injection Hx as <- <- <- <-. congruence.
Qed.

(** Row name in the left name, row name in the right name, only the
    opponent's name contained, and no containment at all. *)
Lemma mapper_substring_fallback_witness :
  map_scores_for_excel "Alice" "Bob" "Alice Smith" "Robert" 3 5 false
  = Some (3, 5)
  ∧ map_scores_for_excel "Alice" "Bob" "Robert" "alice smith" 3 5 false
    = Some (5, 3)
  ∧ map_scores_for_excel "Alice" "Bob" "Bobby" "Al" 3 5 false = None
  ∧ map_scores_for_excel "Eve" "Frank" "Carol" "Dave" 3 5 false = None.
Proof.
  split; [|split; [|split]].
  - exact (proj1 (mapper_substring_fallback "Alice" "Bob" "Alice Smith" "Robert"
                    3 5 ltac:(vm_compute; intros [[=] _])
                        ltac:(vm_compute; intros [[=] _]))).
  - exact (proj1 (mapper_substring_fallback "Alice" "Bob" "Robert" "alice smith"
                    3 5 ltac:(vm_compute; intros [[=] _])
                        ltac:(vm_compute; intros [[=] _]))).
  - exact (proj1 (mapper_substring_fallback "Alice" "Bob" "Bobby" "Al"
                    3 5 ltac:(vm_compute; intros [[=] _])
                        ltac:(vm_compute; intros [[=] _]))).
  - exact (proj1 (mapper_substring_fallback "Eve" "Frank" "Carol" "Dave"
                    3 5 ltac:(vm_compute; intros [[=] _])
                        ltac:(vm_compute; intros [[=] _]))).
Defined.

(** ** C7: the completion marker *)

(** C7, as stated, fails: it is not the case that at the end of every run
    the marker is present if and only if every off-diagonal identifier
    cell is non-empty. The control cell holds the marker, no off-diagonal
    identifier cell is filled, and the run leaves the marker in place. *)
Lemma marker_survives_missing_identifier :
  (main ["dg.py"] (broken_site HttpFailure) stale_wb = Ok stale_out
   ∧ value_at (ws_control (out_wb stale_out)) 1 1 = PyStr SENTINEL
   ∧ ¬ off_diagonal_filled (ws_links (out_wb stale_out))
         (names_down (ws_links (out_wb stale_out)) 2 1)
         (names_right (ws_links (out_wb stale_out)) 1 2))
  ∧ ¬ (∀ (argv : list string) (rem : remote) (wb : workbook) (o : outcome),
         main argv rem wb = Ok o →
         (value_at (ws_control (out_wb o)) 1 1 = PyStr SENTINEL ↔
          off_diagonal_filled (ws_links (out_wb o))
            (names_down (ws_links (out_wb o)) 2 1)
            (names_right (ws_links (out_wb o)) 1 2))).
Proof.
  assert (Hrun : main ["dg.py"] (broken_site HttpFailure) stale_wb
                 = Ok stale_out) by (vm_compute; reflexivity).
  assert (Hmark : value_at (ws_control (out_wb stale_out)) 1 1
                  = PyStr SENTINEL) by (vm_compute; reflexivity).
  assert (Hempty : ¬ off_diagonal_filled (ws_links (out_wb stale_out))
                       (names_down (ws_links (out_wb stale_out)) 2 1)
                       (names_right (ws_links (out_wb stale_out)) 1 2)).
  { intros Hfull.
    destruct (Hfull 0%nat "Alice" "Bob") as (c & Hc & Ht).
    - vm_compute. reflexivity.
    - vm_compute. apply list_elem_of_In. right. left. reflexivity.
    - discriminate.
    - vm_compute in Hc. injection Hc as <-. vm_compute in Ht. discriminate. }
  split; [done|].
  intros H. apply Hempty. by apply (H _ _ _ _ Hrun).
Qed.

(** C7, amended. At the end of a run the control cell holds the marker if
    and only if it held it at the start of the run or every off-diagonal
    (row player, column opponent) identifier cell is non-empty: the run
    sets the marker and never clears it. *)
Theorem completion_marker_set_never_cleared (argv : list string) (rem : remote)
    (wb : workbook) (o : outcome) :
  main argv rem wb = Ok o →
  let links' := ws_links (out_wb o) in
  (value_at (ws_control (out_wb o)) 1 1 = PyStr SENTINEL ↔
   value_at (ws_control wb) 1 1 = PyStr SENTINEL
   ∨ off_diagonal_filled links' (names_down links' 2 1) (names_right links' 1 2)).
Proof.
  intros Hm. destruct (main_headers_kept _ _ _ _ Hm) as [Hr Hc].
  simpl. rewrite Hr, Hc. by apply (marker_iff_with_initial_headers argv rem).
Qed.

(** Two players, one identifier missing: the run finds it on Alice's page,
    fills the cell and sets the marker. *)
Lemma completion_marker_set_never_cleared_witness :
  main ["dg.py"] reversed_site pair_wb = Ok pair_out
  ∧ value_at (ws_control pair_wb) 1 1 = PyNone
  ∧ value_at (ws_links pair_wb) 2 3 = PyNone
  ∧ value_at (ws_links (out_wb pair_out)) 2 3 = PyStr "123"
  ∧ value_at (ws_control (out_wb pair_out)) 1 1 = PyStr SENTINEL
  ∧ off_diagonal_filled (ws_links (out_wb pair_out))
      (names_down (ws_links (out_wb pair_out)) 2 1)
      (names_right (ws_links (out_wb pair_out)) 1 2).
Proof.
  split; [vm_compute; reflexivity|]. split; [vm_compute; reflexivity|].
  split; [vm_compute; reflexivity|]. split; [vm_compute; reflexivity|].
  split; [vm_compute; reflexivity|].
  pose proof (completion_marker_set_never_cleared ["dg.py"] reversed_site
                pair_wb pair_out ltac:(vm_compute; reflexivity)) as [H _].
  destruct (H ltac:(vm_compute; reflexivity)) as [Hold|Hfull]; [|exact Hfull].
  vm_compute in Hold. discriminate Hold.
Defined.

(** ** C8: running twice *)

(** C8 fails on the code. The identifier 123 was typed into the cell
    (Bob, Alice) while the site lists Alice first. The first run marks
    (Bob, Alice) as Switched, then finds 123 on Alice's page, hands the
    Switched flag on to (Alice, Bob) and writes Alice's row with the two
    scores exchanged (5, 3 for a page that shows Alice : 3, Bob : 5). The
    second run, on the workbook the first run left and with the same site,
    writes Bob's row, which the first run had left empty. *)
Theorem second_run_changes_grid :
  main ["dg.py"] reversed_site reversed_wb = Ok first_run
  ∧ main ["dg.py"] reversed_site (out_wb first_run) = Ok second_run
  ∧ value_at (ws_matches (out_wb first_run)) 4 4 = PyInt 5
  ∧ value_at (ws_matches (out_wb first_run)) 4 5 = PyInt 3
  ∧ value_at (ws_matches (out_wb first_run)) 5 2 = PyNone
  ∧ value_at (ws_matches (out_wb second_run)) 5 2 = PyInt 5
  ∧ value_at (ws_matches (out_wb second_run)) 5 3 = PyInt 3
  ∧ out_wb second_run ≠ out_wb first_run.
Proof.
  repeat split; try (vm_compute; reflexivity).
  intros Heq.
  assert (H : value_at (ws_matches (out_wb second_run)) 5 2
              = value_at (ws_matches (out_wb first_run)) 5 2)
    by (by rewrite Heq).
  vm_compute in H. discriminate.
Qed.

(** ** C9: identifier cells *)

(** C9. For every run that ends normally, a cell of "Links" that is
    non-empty (truthy) at the start is the same cell at the end, value and
    hyperlink; so a cell that the run changed was empty before. *)
Theorem identifier_cells_append_only (argv : list string) (rem : remote)
    (wb : workbook) (o : outcome) :
  main argv rem wb = Ok o →
  ∀ r c : nat,
    (truthy (value_at (ws_links wb) r c) = true →
     cell_at (ws_links (out_wb o)) r c = cell_at (ws_links wb) r c)
    ∧ (cell_at (ws_links (out_wb o)) r c ≠ cell_at (ws_links wb) r c →
       truthy (value_at (ws_links wb) r c) = false).
Proof.
  intros (g & filled & _ & Hd & _ & ->)%main_Ok r c. simpl.
  pose proof (discovery_links_kept _ _ _ _ _ _ _ _ _ Hd r c) as Hk.
  split; [done|]. destruct (truthy _); [|done]. intros []. by apply Hk.
Qed.

(** The cell (Alice, Bob) holds 111 and Alice's page reports the match
    123456 against Bob: the cell keeps 111. *)
Lemma identifier_cells_append_only_witness :
  main ["dg.py"] other_id_site populated_wb = Ok populated_out
  ∧ truthy (value_at (ws_links populated_wb) 2 3) = true
  ∧ cell_at (ws_links (out_wb populated_out)) 2 3
    = cell_at (ws_links populated_wb) 2 3
  ∧ value_at (ws_links (out_wb populated_out)) 2 3 = PyInt 111.
Proof.
  split; [vm_compute; reflexivity|]. split; [vm_compute; reflexivity|]. split.
  - apply (identifier_cells_append_only ["dg.py"] other_id_site populated_wb
             populated_out); vm_compute; reflexivity.
  - vm_compute. reflexivity.
Defined.

(** ** C10: Phase 1 can finish a pairing *)

(** C10. When the body of the Phase 1 loop has a document for the match,
    the extractor finds a score line, the mapper returns (ps, os), both
    names are in the player column and the pairing is not finished, the
    two score cells receive exactly ps and os; if either is 11 the pairing
    is finished after this write, without any terminal write. *)
Theorem phase1_writes_scores_verbatim (rem : remote) (pim : list string)
    (mid : Z) (p o : string) (sw : bool) (s : scoring) (text : list_page)
    (l r : string) (ls rs ps os : Z) (i j : nat) :
  (document_for rem mid s).1 = Some text →
  text_empty text = false →
  extract_latest_score text pim = Some (l, r, ls, rs) →
  map_scores_for_excel p o l r ls rs sw = Some (ps, os) →
  index_of p pim = Some i →
  index_of o pim = Some j →
  finished (s_matches s) (i + 4) j = false →
  let ws' := s_matches (phase1_match rem pim (mid, (p, o, sw)) s) in
  value_at ws' (i + 4) (col_start + j * 2) = PyInt ps
  ∧ value_at ws' (i + 4) (col_start + j * 2 + 1) = PyInt os
  ∧ (ps = 11 ∨ os = 11 → finished ws' (i + 4) j = true).
Proof.
  intros Hdoc Hne Hex Hmap Hi Hj Hf. cbv zeta.
  assert (Hws : s_matches (phase1_match rem pim (mid, (p, o, sw)) s)
                = (write_score_to_excel pim (s_matches s) p o ps os sw).1).
  { unfold phase1_match.
    pose proof (document_for_matches rem mid s) as Hdm.
    destruct (document_for rem mid s) as [html s1]. simpl in Hdoc, Hdm.
    subst html. simpl. rewrite Hne, Hex, Hmap. simpl. by rewrite Hdm. }
  rewrite Hws, (write_score_writes _ _ _ _ _ _ _ i j) by done.
  assert (Hl : value_at (set_value (set_value (s_matches s) (i + 4)
                 (col_start + j * 2) (PyInt ps)) (i + 4) (col_start + j * 2 + 1)
                 (PyInt os)) (i + 4) (col_start + j * 2) = PyInt ps).
  { rewrite value_at_set_value_ne by (intros [=]; lia).
    apply value_at_set_value_eq. }
  assert (Hr : value_at (set_value (set_value (s_matches s) (i + 4)
                 (col_start + j * 2) (PyInt ps)) (i + 4) (col_start + j * 2 + 1)
                 (PyInt os)) (i + 4) (col_start + j * 2 + 1) = PyInt os)
    by apply value_at_set_value_eq.
  split; [done|]. split; [done|].
  unfold finished. rewrite Hl, Hr. intros [->| ->]; [done|].
  apply orb_true_r.
Qed.

(** The page shows Alice : 11, Bob : 7 and the pairing has no score yet:
    Phase 1 writes 11 and 7; in the whole run no match is reported as
    decided and the pairing ends finished. *)
Lemma phase1_writes_scores_verbatim_witness :
  let ws' :=
    s_matches (phase1_match eleven_site ["Alice"; "Bob"; "Carol"]
                 (123, ("Alice", "Bob", false))
                 (Scoring (league_matches []) [] [])) in
  finished (league_matches []) 4 1 = false
  ∧ value_at ws' 4 4 = PyInt 11
  ∧ value_at ws' 4 5 = PyInt 7
  ∧ finished ws' 4 1 = true
  ∧ main ["dg.py"] eleven_site eleven_wb = Ok eleven_out
  ∧ (step3 eleven_site (season_of ["dg.py"])
       (read_players roster_alice_linked).2 (read_players roster_alice_linked).1
       []).1 = []
  ∧ finished (ws_matches (out_wb eleven_out)) 4 1 = true.
Proof.
  cbv zeta.
  pose proof (phase1_writes_scores_verbatim eleven_site ["Alice"; "Bob"; "Carol"]
                123 "Alice" "Bob" false (Scoring (league_matches []) [] [])
                (score_page "Alice" "11" "Bob" "7") "Alice" "Bob" 11 7 11 7
                0%nat 1%nat
                ltac:(vm_compute; reflexivity) ltac:(reflexivity)
                ltac:(vm_compute; reflexivity) ltac:(vm_compute; reflexivity)
                ltac:(vm_compute; reflexivity) ltac:(vm_compute; reflexivity)
                ltac:(vm_compute; reflexivity)) as (H1 & H2 & H3).
  split; [vm_compute; reflexivity|]. split; [exact H1|]. split; [exact H2|].
  split; [exact (H3 (or_introl eq_refl))|].
  repeat split; vm_compute; reflexivity.
Defined.

(* ===================================================================== *)
(** * Further properties of the code *)
(* ===================================================================== *)

(** ** The header loops, entry by entry *)

Lemma header_names_fuel_lookup (key : nat → nat * nat) (fuel : nat) (ws : sheet)
    (k i : nat) (name : string) :
  (header_names_fuel fuel ws key k : list string) !! i = Some name →
  truthy (value_at ws (key (k + i)%nat).1 (key (k + i)%nat).2) = true
  ∧ name = PyStr.strip (py_str (value_at ws (key (k + i)%nat).1 (key (k + i)%nat).2)).
Proof.
  revert k i. induction fuel as [|fuel IH]; intros k i; simpl; [done|].
  destruct (truthy (value_at ws (key k).1 (key k).2)) eqn:E; [|done].
  destruct i as [|i]; simpl.
  - intros [= <-]. by rewrite Nat.add_0_r.
  - replace (k + S i)%nat with (S k + i)%nat by lia. apply IH.
Qed.

Lemma names_down_cells (ws : sheet) (r c : nat) :
  (∀ (i : nat) (name : string),
     names_down ws r c !! i = Some name →
     truthy (value_at ws (r + i)%nat c) = true
     ∧ name = PyStr.strip (py_str (value_at ws (r + i)%nat c)))
  ∧ truthy (value_at ws (r + length (names_down ws r c))%nat c) = false.
Proof.
  split.
  - intros i name H.
    apply (header_names_fuel_lookup (λ k, (k, c))) in H. exact H.
  - apply (header_names_stops (λ k, (k, c))). by intros i j [=].
Qed.

Lemma names_right_cells (ws : sheet) (r c : nat) :
  (∀ (i : nat) (name : string),
     names_right ws r c !! i = Some name →
     truthy (value_at ws r (c + i)%nat) = true
     ∧ name = PyStr.strip (py_str (value_at ws r (c + i)%nat)))
  ∧ truthy (value_at ws r (c + length (names_right ws r c))%nat) = false.
Proof.
  split.
  - intros i name H.
    apply (header_names_fuel_lookup (λ k, (r, k))) in H. exact H.
  - apply (header_names_stops (λ k, (r, k))). by intros i j [=].
Qed.

(** X1. The two header loops read until the first blank cell: every name
    of [names_down] (resp. [names_right]) is the stripped text of the
    non-empty cell at its offset below (resp. right of) the start cell, and
    the cell just after the last name read is empty, so the loop ends at
    the first gap and ignores whatever follows it. *)
Theorem header_loops_read_until_blank (ws : sheet) (r c : nat) :
  (∀ (i : nat) (name : string),
     names_down ws r c !! i = Some name →
     truthy (value_at ws (r + i)%nat c) = true
     ∧ name = PyStr.strip (py_str (value_at ws (r + i)%nat c)))
  ∧ truthy (value_at ws (r + length (names_down ws r c))%nat c) = false
  ∧ (∀ (i : nat) (name : string),
       names_right ws r c !! i = Some name →
       truthy (value_at ws r (c + i)%nat) = true
       ∧ name = PyStr.strip (py_str (value_at ws r (c + i)%nat)))
  ∧ truthy (value_at ws r (c + length (names_right ws r c))%nat) = false.
Proof.
  destruct (names_down_cells ws r c) as [H1 H2].
  destruct (names_right_cells ws r c) as [H3 H4].
  auto.
Qed.

(** A name below a gap in column A is not read. *)
Lemma header_loops_read_until_blank_witness :
  names_down (sheet_of [ (2, 1, PyStr " Alice"); (3, 1, PyStr "Bob");
                         (5, 1, PyStr "Dave") ]%nat) 2 1 !! 1%nat = Some "Bob"
  ∧ truthy (value_at (sheet_of [ (2, 1, PyStr " Alice"); (3, 1, PyStr "Bob");
                                 (5, 1, PyStr "Dave") ]%nat) 3 1) = true
  ∧ length (names_down (sheet_of [ (2, 1, PyStr " Alice"); (3, 1, PyStr "Bob");
                                   (5, 1, PyStr "Dave") ]%nat) 2 1) = 2%nat.
Proof.
  pose proof (header_loops_read_until_blank
                (sheet_of [ (2, 1, PyStr " Alice"); (3, 1, PyStr "Bob");
                            (5, 1, PyStr "Dave") ]%nat) 2 1) as (H1 & _).
  assert (E : names_down (sheet_of [ (2, 1, PyStr " Alice"); (3, 1, PyStr "Bob");
                                     (5, 1, PyStr "Dave") ]%nat) 2 1 !! 1%nat
              = Some "Bob")
    by (vm_compute; reflexivity).
  split; [exact E|]. split.
  - exact (proj1 (H1 1%nat "Bob" E)).
  - vm_compute. reflexivity.
Defined.

(** ** [col_index] on names without duplicates *)

Lemma col_index_fold_other (l : list (nat * string)) (d : list (string * nat))
    (name : string) :
  name ∉ l.*2 →
  PyDict.get name (foldl (λ d p, PyDict.set p.2 p.1 d) d l) = PyDict.get name d.
Proof.
  revert d. induction l as [|[n x] l IH]; intros d Hn; simpl; [done|].
  simpl in Hn. apply not_elem_of_cons in Hn as [Hne Hn].
  rewrite IH by done. rewrite get_set. by rewrite decide_False.
Qed.

Lemma col_index_fold_position (l : list string) (start : nat)
    (d : list (string * nat)) (j : nat) (name : string) :
  NoDup l → l !! j = Some name →
  PyDict.get name (foldl (λ d p, PyDict.set p.2 p.1 d) d (enumerate start l))
  = Some (start + j)%nat.
Proof.
  revert start d j. induction l as [|x l IH]; intros start d j Hnd Hj; [done|].
  apply NoDup_cons in Hnd as [Hx Hnd]. simpl.
  destruct j as [|j]; simpl in Hj.
  - injection Hj as ->. rewrite col_index_fold_other.
    + rewrite get_set, decide_True by done. f_equal. lia.
    + by rewrite enumerate_snd.
  - rewrite (IH (S start) _ j) by done. f_equal. lia.
Qed.

(** X2. The column dictionary of the "Links" header: when the opponent
    names along row 1 are pairwise different, the name at position [j] of
    the header is mapped to the worksheet column [2 + j], the column it
    was read from. *)
Theorem col_index_position (names : list string) (j : nat) (name : string) :
  NoDup names → names !! j = Some name →
  PyDict.get name (col_index names) = Some (2 + j)%nat.
Proof. intros. by apply col_index_fold_position. Qed.

Lemma col_index_position_witness :
  PyDict.get "Bob" (col_index ["Alice"; "Bob"; "Carol"]) = Some 3%nat.
Proof.
  apply (col_index_position ["Alice"; "Bob"; "Carol"] 1 "Bob").
  - compute_done.
  - reflexivity.
Defined.

(** ** The names written into "match_flag" *)

Section header_writes.
Variable pos : nat → nat * nat.
Hypothesis pos_inj : ∀ i j, pos i = pos j → i = j.

Lemma write_names_other (l : list string) (start : nat) (ws : sheet) (r c : nat) :
  (∀ i, (start ≤ i)%nat → pos i ≠ (r, c)) →
  cell_at (write_names pos ws (enumerate start l)) r c = cell_at ws r c.
Proof.
  revert start ws. induction l as [|x l IH]; intros start ws Hne; simpl; [done|].
  unfold write_names in *. simpl. rewrite IH.
  - rewrite cell_at_set_value, decide_False; [done|].
    specialize (Hne start ltac:(lia)). by destruct (pos start).
  - intros i Hi. apply Hne. lia.
Qed.

Lemma write_names_at (l : list string) (start : nat) (ws : sheet) (j : nat)
    (name : string) :
  l !! j = Some name →
  value_at (write_names pos ws (enumerate start l)) (pos (start + j)%nat).1
           (pos (start + j)%nat).2 = PyStr name.
Proof.
  revert start ws j. induction l as [|x l IH]; intros start ws j Hj; [done|].
  destruct j as [|j]; simpl in Hj.
  - injection Hj as ->. unfold write_names. simpl. fold (write_names pos
      (set_value ws (pos start).1 (pos start).2 (PyStr name)) (enumerate (S start) l)).
    unfold value_at. rewrite Nat.add_0_r, write_names_other.
    + rewrite cell_at_set_value, decide_True; done.
    + intros i Hi Heq. destruct (pos start) eqn:E. simpl in Heq.
      rewrite <- E in Heq. apply pos_inj in Heq. lia.
  - unfold write_names. simpl.
    replace (start + S j)%nat with (S start + j)%nat by lia.
    apply (IH (S start)). done.
Qed.

End header_writes.

Lemma flag_headers_unfold (ws : sheet) (rows cols : list string) :
  flag_headers ws rows cols
  = write_names (λ n, (n, 1%nat))
      (write_names (λ n, (1%nat, n)) ws (enumerate 2 cols)) (enumerate 2 rows).
Proof. reflexivity. Qed.

(** The cells of "match_flag" after the two header loops; the flags of a
    whole run are read off it as well. *)
Lemma flag_headers_cells (ws : sheet) (rows cols : list string) :
  (∀ r c : nat, (2 ≤ r)%nat → (2 ≤ c)%nat →
     cell_at (flag_headers ws rows cols) r c = cell_at ws r c)
  ∧ (∀ (j : nat) (name : string), cols !! j = Some name →
       value_at (flag_headers ws rows cols) 1 (2 + j) = PyStr name)
  ∧ (∀ (i : nat) (name : string), rows !! i = Some name →
       value_at (flag_headers ws rows cols) (2 + i) 1 = PyStr name)
  ∧ cell_at (flag_headers ws rows cols) 1 1 = cell_at ws 1 1.
Proof.
  rewrite flag_headers_unfold. repeat split.
  - intros r c Hr Hc.
    rewrite write_names_other by (intros i _ [=]; lia).
    by rewrite write_names_other by (intros i _ [=]; lia).
  - intros j name Hj. unfold value_at.
    rewrite write_names_other by (intros i Hi [=]; lia).
    exact (write_names_at (λ n, (1%nat, n)) ltac:(by intros ?? [=]) cols 2 ws j name Hj).
  - intros i name Hi.
    exact (write_names_at (λ n, (n, 1%nat)) ltac:(by intros ?? [=]) rows 2 _ i name Hi).
  - rewrite write_names_other by (intros i Hi [=]; lia).
    by rewrite write_names_other by (intros i Hi [=]; lia).
Qed.

(** X3. Copying the names into "match_flag" writes row 1 and column A
    only: every cell from row 2 and column 2 on is the cell it was, the
    cell A1 is untouched, and after the copy the header cell of every
    opponent (row 1, column [2 + j]) and of every row player (row [2 + i],
    column 1) holds that name. *)
Theorem flag_headers_writes_only_headers (ws : sheet) (rows cols : list string) :
  (∀ r c : nat, (2 ≤ r)%nat → (2 ≤ c)%nat →
     cell_at (flag_headers ws rows cols) r c = cell_at ws r c)
  ∧ (∀ (j : nat) (name : string), cols !! j = Some name →
       value_at (flag_headers ws rows cols) 1 (2 + j) = PyStr name)
  ∧ (∀ (i : nat) (name : string), rows !! i = Some name →
       value_at (flag_headers ws rows cols) (2 + i) 1 = PyStr name)
  ∧ cell_at (flag_headers ws rows cols) 1 1 = cell_at ws 1 1.
Proof. apply flag_headers_cells. Qed.

Lemma flag_headers_writes_only_headers_witness :
  value_at (flag_headers (sheet_of [ (2, 3, PyInt 1) ]%nat)
              ["Alice"; "Bob"] ["Alice"; "Bob"]) 1 3 = PyStr "Bob"
  ∧ cell_at (flag_headers (sheet_of [ (2, 3, PyInt 1) ]%nat)
               ["Alice"; "Bob"] ["Alice"; "Bob"]) 2 3
    = cell_at (sheet_of [ (2, 3, PyInt 1) ]%nat) 2 3.
Proof.
  destruct (flag_headers_writes_only_headers (sheet_of [ (2, 3, PyInt 1) ]%nat)
              ["Alice"; "Bob"] ["Alice"; "Bob"]) as (Hin & Hcols & _).
  split.
  - apply (Hcols 1%nat "Bob"). reflexivity.
  - apply Hin; lia.
Defined.

(** ** The player id at the end of a link *)

Lemma str_in_slash_cons (c : ascii) (r : string) :
  PyStr.str_in "/" (String c r) = bool_decide (c = "/"%char) || PyStr.str_in "/" r.
Proof.
  cbn [PyStr.str_in PyStr.startswith].
  rewrite ?andb_true_r. f_equal. apply bool_decide_ext. split; congruence.
Qed.

Lemma str_in_slash_app (a b : string) :
  PyStr.str_in "/" (a +:+ b) = PyStr.str_in "/" a || PyStr.str_in "/" b.
Proof.
  induction a as [|c a IH].
  - simpl. by destruct b.
  - change (String c a +:+ b) with (String c (a +:+ b)).
    rewrite !str_in_slash_cons, IH. by rewrite orb_assoc.
Qed.

Lemma after_last_slash_no_slash (s : string) :
  PyStr.str_in "/" (PyStr.after_last_slash s) = false.
Proof.
  induction s as [|c r IH]; [done|].
  cbn [PyStr.after_last_slash].
  destruct (PyStr.str_in "/" r) eqn:Er.
  - rewrite andb_false_r. done.
  - rewrite andb_true_r. case_bool_decide as Hc; [done|].
    rewrite str_in_slash_cons, Er. by rewrite bool_decide_eq_false_2.
Qed.

Lemma after_last_slash_app (base pid : string) :
  PyStr.str_in "/" pid = false →
  PyStr.after_last_slash (base +:+ "/" +:+ pid) = pid.
Proof.
  intros Hpid. induction base as [|c base IH].
  - change ("" +:+ "/" +:+ pid) with (String "/" pid).
    cbn [PyStr.after_last_slash]. by rewrite Hpid, bool_decide_eq_true_2.
  - change (String c base +:+ "/" +:+ pid) with (String c (base +:+ "/" +:+ pid)).
    cbn [PyStr.after_last_slash].
    assert (Hin : PyStr.str_in "/" (base +:+ "/" +:+ pid) = true).
    { rewrite str_in_slash_app.
      change ("/" +:+ pid) with (String "/" pid).
      rewrite (str_in_slash_cons "/" pid). by rewrite orb_true_r. }
    rewrite Hin, andb_false_r. exact IH.
Qed.

(** X4. The player id is the part of the hyperlink target after its last
    slash: what is taken never contains a slash, a target [base/pid] with
    no slash in [pid] gives exactly [pid], and a "Players" cell holding a
    non-empty name with such a link yields the stripped name as player and
    [pid] as the id of that name. *)
Theorem player_id_is_last_path_segment (name base pid : string) :
  PyStr.str_in "/" (PyStr.after_last_slash base) = false
  ∧ (PyStr.str_in "/" pid = false →
     PyStr.after_last_slash (base +:+ "/" +:+ pid) = pid
     ∧ (name ≠ "" →
        read_players [Cell (PyStr name) (Some (base +:+ "/" +:+ pid))]
        = ([PyStr.strip name], [(PyStr.strip name, pid)]))).
Proof.
  split; [apply after_last_slash_no_slash|].
  intros Hpid. split; [by apply after_last_slash_app|].
  intros Hname. unfold read_players. simpl.
  rewrite bool_decide_eq_false_2 by done. simpl.
  by rewrite after_last_slash_app.
Qed.

Lemma player_id_is_last_path_segment_witness :
  read_players [Cell (PyStr "Alice ")
                     (Some "http://www.dailygammon.com/bg/user/1001")]
  = (["Alice"], [("Alice", "1001")]).
Proof.
  destruct (player_id_is_last_path_segment "Alice "
              "http://www.dailygammon.com/bg/user" "1001") as [_ H].
  destruct (H ltac:(reflexivity)) as [_ H'].
  apply H'. discriminate.
Defined.

(** ** The score pattern *)

Lemma digit_val_nonneg (c : ascii) : PyStr.is_digit c = true → 0 ≤ PyStr.digit_val c.
Proof.
  unfold PyStr.is_digit, PyStr.digit_val. intros H.
  apply andb_true_iff in H as [H _]. apply Nat.leb_le in H. lia.
Qed.

Lemma digits_value_nonneg (s : string) (acc : Z) :
  0 ≤ acc → 0 ≤ PyStr.digits_value acc (leading_digits s).
Proof.
  revert acc. induction s as [|c s IH]; intros acc Hacc; simpl; [done|].
  destruct (PyStr.is_digit c) eqn:E; simpl; [|done].
  apply IH. pose proof (digit_val_nonneg c E). lia.
Qed.

Lemma colon_score_nonneg (s : string) (score : Z) :
  colon_score s = Some score → 0 ≤ score.
Proof.
  unfold colon_score. destruct (skip_spaces s) as [|c r]; [done|].
  repeat case_match; try done. intros [= <-]. by apply digits_value_nonneg.
Qed.

Lemma append_cons (a : ascii) (s t : string) :
  String a s +:+ t = String a (s +:+ t).
Proof. reflexivity. Qed.

Lemma append_snoc_assoc (pre : string) (c : ascii) (mid : string) :
  (pre +:+ String c "") +:+ mid = pre +:+ String c mid.
Proof.
  induction pre as [|a pre IH]; [done|]. by rewrite !append_cons, IH.
Qed.

Lemma str_in_char_cons (x c : ascii) (r : string) :
  PyStr.str_in (String x "") (String c r)
  = bool_decide (x = c) || PyStr.str_in (String x "") r.
Proof. cbn [PyStr.str_in PyStr.startswith]. by rewrite ?andb_true_r. Qed.

(** A prefix of [text] followed by a tail the pattern accepts. *)
Lemma name_score_from_sound (pre text name : string) (score : Z) :
  name_score_from pre text = Some (name, score) →
  ∃ mid rest,
    name = pre +:+ mid ∧ text = mid +:+ rest ∧ mid ≠ ""
    ∧ PyStr.str_in (String "010" "") mid = false
    ∧ colon_score rest = Some score.
Proof.
  revert pre. induction text as [|c r IH]; intros pre; simpl; [done|].
  case_bool_decide as Hnl; [done|].
  destruct (colon_score r) as [sc|] eqn:Ec.
  - intros [= <- <-]. exists (String c ""), r.
    split; [done|]. split; [done|]. split; [done|]. split; [|done].
    rewrite str_in_char_cons. by case_bool_decide; [subst|].
  - intros H. apply IH in H as (mid & rest & -> & -> & _ & Hn & Hs).
    exists (String c mid), rest. repeat split; try done.
    + apply append_snoc_assoc.
    + rewrite str_in_char_cons. by case_bool_decide; [subst|].
Qed.

Lemma digit_not_space (c : ascii) :
  PyStr.is_digit c = true → PyStr.is_space c = false.
Proof.
  unfold PyStr.is_digit, PyStr.is_space.
  intros [H1 H2]%andb_true_iff. apply Nat.leb_le in H1, H2.
  apply orb_false_iff. split; apply andb_false_iff; right; apply Nat.leb_gt; lia.
Qed.

Lemma skip_spaces_app (sp x : string) :
  skip_spaces sp = "" → skip_spaces (sp +:+ x) = skip_spaces x.
Proof.
  induction sp as [|c sp IH]; [done|]. rewrite append_cons. simpl.
  destruct (PyStr.is_space c); [exact IH|done].
Qed.

Lemma leading_digits_app (ds rest : string) :
  leading_digits ds = ds → leading_digits rest = "" →
  leading_digits (ds +:+ rest) = ds.
Proof.
  induction ds as [|c ds IH]; [done|]. rewrite append_cons. simpl.
  destruct (PyStr.is_digit c); [|done]. intros [= H] Hr. by rewrite IH.
Qed.

Lemma skip_spaces_digits (ds rest : string) :
  ds ≠ "" → leading_digits ds = ds → skip_spaces (ds +:+ rest) = ds +:+ rest.
Proof.
  destruct ds as [|c ds]; [done|]. intros _. rewrite append_cons. simpl.
  destruct (PyStr.is_digit c) eqn:E; [|done]. intros _.
  by rewrite (digit_not_space c E).
Qed.

Lemma colon_score_tail (sp1 sp2 ds rest : string) :
  skip_spaces sp1 = "" → skip_spaces sp2 = "" →
  ds ≠ "" → leading_digits ds = ds → leading_digits rest = "" →
  colon_score (sp1 +:+ ":" +:+ sp2 +:+ ds +:+ rest)
  = Some (PyStr.digits_value 0 ds).
Proof.
  intros H1 H2 Hne Hd Hr. unfold colon_score.
  rewrite skip_spaces_app by done.
  change (":" +:+ sp2 +:+ ds +:+ rest) with (String ":" (sp2 +:+ ds +:+ rest)).
  cbn [skip_spaces]. change (PyStr.is_space ":") with false. cbv iota.
  rewrite skip_spaces_app by done.
  rewrite skip_spaces_digits, leading_digits_app by done.
  by rewrite bool_decide_eq_false_2.
Qed.

Lemma rstrip_tail (c : ascii) (n : string) :
  PyStr.rstrip (String c n) = String c n → PyStr.rstrip n = n.
Proof.
  cbn [PyStr.rstrip]. destruct (PyStr.is_space c && _); [done|]. by intros [=].
Qed.

(** A name without a colon that does not end in whitespace: after any
    leading whitespace comes a character that is no colon. *)
Lemma colon_score_inside_name (n tail : string) :
  n ≠ "" → PyStr.rstrip n = n → PyStr.str_in ":" n = false →
  colon_score (n +:+ tail) = None.
Proof.
  unfold colon_score.
  induction n as [|a n IH]; [done|]. intros _ Hr Hc.
  rewrite str_in_char_cons in Hc. apply orb_false_iff in Hc as [Ha Hc].
  apply bool_decide_eq_false in Ha.
  rewrite append_cons. cbn [skip_spaces].
  destruct (PyStr.is_space a) eqn:Ea.
  - apply IH; [|by eapply rstrip_tail|done].
    intros ->. cbn [PyStr.rstrip] in Hr. rewrite Ea in Hr. simpl in Hr.
    discriminate.
  - by destruct a as [[] [] [] [] [] [] [] []].
Qed.

Lemma name_score_from_name (pre name tail : string) (score : Z) :
  name ≠ "" → PyStr.rstrip name = name →
  PyStr.str_in ":" name = false →
  PyStr.str_in (String "010" "") name = false →
  colon_score tail = Some score →
  name_score_from pre (name +:+ tail) = Some (pre +:+ name, score).
Proof.
  revert pre. induction name as [|c n IH]; [done|].
  intros pre _ Hr Hc Hn Ht.
  rewrite str_in_char_cons in Hc, Hn.
  apply orb_false_iff in Hc as [_ Hc]. apply orb_false_iff in Hn as [Hnl Hn].
  apply bool_decide_eq_false in Hnl.
  rewrite append_cons. cbn [name_score_from].
  rewrite bool_decide_eq_false_2 by congruence.
  destruct (decide (n = "")) as [->|Hne].
  - change ("" +:+ tail) with tail. by rewrite Ht.
  - rewrite colon_score_inside_name; [|done|by eapply rstrip_tail|done].
    rewrite IH; [|done|by eapply rstrip_tail|done|done|done].
    by rewrite append_snoc_assoc.
Qed.

(** X5. The score pattern [(.+?)\s*:\s*(\d+)] at the start of a cell
    text: a non-empty name without colon and line break that does not end
    in white space, followed by white space, a colon, white space, a
    non-empty run of digits and then no further digit, is read as that
    name with the value of the digits. *)
Theorem match_name_score_well_formed (name sp1 sp2 ds rest : string) :
  name ≠ "" → PyStr.rstrip name = name →
  PyStr.str_in ":" name = false →
  PyStr.str_in (String "010" "") name = false →
  skip_spaces sp1 = "" → skip_spaces sp2 = "" →
  ds ≠ "" → leading_digits ds = ds → leading_digits rest = "" →
  match_name_score (name +:+ sp1 +:+ ":" +:+ sp2 +:+ ds +:+ rest)
  = Some (name, PyStr.digits_value 0 ds).
Proof.
  intros. unfold match_name_score.
  rewrite (name_score_from_name "" name _ (PyStr.digits_value 0 ds)); try done.
  by apply colon_score_tail.
Qed.

Lemma match_name_score_well_formed_witness :
  match_name_score "Al ice  :12x" = Some ("Al ice", 12).
Proof.
  apply (match_name_score_well_formed "Al ice" "  " "" "12" "x");
    solve [reflexivity | discriminate].
Defined.

(** The parts of a text the score pattern accepted; shared with the facts
    on [extract_latest_score]. *)
Lemma match_name_score_parts (text name : string) (score : Z) :
  match_name_score text = Some (name, score) →
  ∃ rest,
    text = name +:+ rest ∧ name ≠ ""
    ∧ PyStr.str_in (String "010" "") name = false
    ∧ colon_score rest = Some score
    ∧ 0 ≤ score.
Proof.
  intros H. apply name_score_from_sound in H as (mid & rest & -> & -> & ? & ? & Hs).
  exists rest. repeat split; try done. by eapply colon_score_nonneg.
Qed.

(** X6. Whatever the score pattern returns was in the text: the name is
    a non-empty prefix of the cell text without line break, what follows
    it is white space, a colon, white space and digits of the returned
    value, and the score is never negative. *)
Theorem match_name_score_sound (text name : string) (score : Z) :
  match_name_score text = Some (name, score) →
  ∃ rest,
    text = name +:+ rest ∧ name ≠ ""
    ∧ PyStr.str_in (String "010" "") name = false
    ∧ colon_score rest = Some score
    ∧ 0 ≤ score.
Proof. apply match_name_score_parts. Qed.

Lemma match_name_score_sound_witness :
  match_name_score "A : B : 3" = Some ("A : B", 3)
  ∧ ∃ rest, "A : B : 3" = "A : B" +:+ rest ∧ colon_score rest = Some 3.
Proof.
  assert (E : match_name_score "A : B : 3" = Some ("A : B", 3)) by reflexivity.
  split; [exact E|].
  destruct (match_name_score_sound _ _ _ E) as (rest & H1 & _ & _ & H2 & _).
  exists rest. split; [exact H1|exact H2].
Defined.

(** ** [strip] *)

Lemma rstrip_idem (s : string) : PyStr.rstrip (PyStr.rstrip s) = PyStr.rstrip s.
Proof.
  induction s as [|c r IH]; [done|]. cbn [PyStr.rstrip].
  destruct (PyStr.is_space c && bool_decide (PyStr.rstrip r = "")) eqn:E; [done|].
  cbn [PyStr.rstrip]. by rewrite IH, E.
Qed.

Lemma lstrip_head (s : string) :
  PyStr.lstrip s = ""
  ∨ ∃ c r, PyStr.lstrip s = String c r ∧ PyStr.is_space c = false.
Proof.
  induction s as [|c r IH]; [by left|]. simpl.
  destruct (PyStr.is_space c) eqn:E; [exact IH|]. right. eauto.
Qed.

Lemma rstrip_nonspace (c : ascii) (r : string) :
  PyStr.is_space c = false →
  PyStr.rstrip (String c r) = String c (PyStr.rstrip r).
Proof. intros Hc. cbn [PyStr.rstrip]. by rewrite Hc. Qed.

Lemma strip_idem (s : string) : PyStr.strip (PyStr.strip s) = PyStr.strip s.
Proof.
  unfold PyStr.strip.
  destruct (lstrip_head s) as [->|(c & r & -> & Hc)]; [done|].
  rewrite rstrip_nonspace by done. cbn [PyStr.lstrip]. rewrite Hc.
  rewrite rstrip_nonspace by done. by rewrite rstrip_idem.
Qed.

(** ** The score extractor *)

Lemma first_some_Some {A B : Type} (f : A → option B) (l : list A) (y : B) :
  first_some f l = Some y ↔
  ∃ l1 x l2, l = (l1 ++ x :: l2)%list ∧ f x = Some y ∧ ∀ z, z ∈ l1 → f z = None.
Proof.
  induction l as [|a l IH]; simpl.
  - split; [done|]. intros (l1 & x & l2 & H & _). by destruct l1.
  - destruct (f a) as [b|] eqn:E.
    + split.
      * intros [= <-]. exists [], a, l. repeat split; try done.
        by intros z ?%elem_of_nil.
      * intros ([|a' l1] & x & l2 & Hl & Hx & Hn); simplify_eq/=; [congruence|].
        rewrite (Hn a') in E by left. done.
    + rewrite IH. split.
      * intros (l1 & x & l2 & -> & Hx & Hn). exists (a :: l1), x, l2.
        repeat split; try done. intros z [->|?]%elem_of_cons; auto.
      * intros ([|a' l1] & x & l2 & Hl & Hx & Hn); simplify_eq/=.
        exists l1, x, l2. repeat split; try done. intros z ?. apply Hn. by right.
Qed.

Lemma first_some_None {A B : Type} (f : A → option B) (l : list A) :
  first_some f l = None ↔ ∀ z, z ∈ l → f z = None.
Proof.
  induction l as [|a l IH]; simpl.
  - split; [by intros _ z ?%elem_of_nil|done].
  - destruct (f a) eqn:E.
    + split; [done|]. intros H. rewrite (H a) in E by left. done.
    + rewrite IH. split.
      * intros H z [->|?]%elem_of_cons; auto.
      * intros H z ?. apply H. by right.
Qed.

(** The row [extract_latest_score] stops at, among the rows of the page. *)
Lemma extract_latest_score_rows (html : list_page)
    (players_list : list string) :
  (∀ x, extract_latest_score html players_list = Some x ↔
        ∃ before row after,
          page_rows html = (before ++ row :: after)%list
          ∧ score_of_row players_list row = Some x
          ∧ ∀ z, z ∈ after → score_of_row players_list z = None)
  ∧ (extract_latest_score html players_list = None ↔
     ∀ z, z ∈ page_rows html → score_of_row players_list z = None).
Proof.
  unfold extract_latest_score. split.
  - intros x. rewrite first_some_Some. split.
    + intros (l1 & row & l2 & Hl & Hx & Hn).
      exists (reverse l2), row, (reverse l1). repeat split; try done.
      * rewrite <- (reverse_involutive (page_rows html)), Hl.
        rewrite reverse_app, reverse_cons, <- app_assoc. done.
      * intros z Hz. apply Hn. by apply elem_of_reverse.
    + intros (before & row & after & Hl & Hx & Hn).
      exists (reverse after), row, (reverse before). repeat split; try done.
      * rewrite Hl, reverse_app, reverse_cons, <- app_assoc. done.
      * intros z Hz. apply Hn. by apply elem_of_reverse.
  - rewrite first_some_None. split; intros H z Hz; apply H.
    + by apply elem_of_reverse.
    + by rewrite elem_of_reverse in Hz.
Qed.

(** X7. [extract_latest_score] returns the result of the last table row
    that yields a score: it returns [x] exactly when some row gives [x]
    and no later row of the page gives any score, and it returns [None]
    exactly when no row of the page gives one. *)
Theorem extract_latest_score_last_row (html : list_page)
    (players_list : list string) :
  (∀ x, extract_latest_score html players_list = Some x ↔
        ∃ before row after,
          page_rows html = (before ++ row :: after)%list
          ∧ score_of_row players_list row = Some x
          ∧ ∀ z, z ∈ after → score_of_row players_list z = None)
  ∧ (extract_latest_score html players_list = None ↔
     ∀ z, z ∈ page_rows html → score_of_row players_list z = None).
Proof. apply extract_latest_score_rows. Qed.

Lemma extract_latest_score_last_row_witness :
  extract_latest_score
    (ListPage false false
       [ Tr "Alice : 1 Bob : 0" ["1"; "Alice : 1"; "Bob : 0"];
         Tr "Alice : 3 Bob : 5" ["2"; "Alice : 3"; "Bob : 5"];
         Tr "resign" ["3"; "resign"; ""] ])
    ["Alice"; "Bob"]
  = Some ("Alice", "Bob", 3, 5).
Proof.
  apply (proj1 (extract_latest_score_last_row _ _)).
  exists [ Tr "Alice : 1 Bob : 0" ["1"; "Alice : 1"; "Bob : 0"] ],
         (Tr "Alice : 3 Bob : 5" ["2"; "Alice : 3"; "Bob : 5"]),
         [ Tr "resign" ["3"; "resign"; ""] ].
  split; [reflexivity|]. split; [reflexivity|].
  intros z ->%list_elem_of_singleton. reflexivity.
Defined.

(** The shape of a result of [extract_latest_score]; Phase 1 relies on
    the scores being non-negative. *)
Lemma extract_latest_score_stripped (html : list_page)
    (players_list : list string) (l r : string) (ls rs : Z) :
  extract_latest_score html players_list = Some (l, r, ls, rs) →
  PyStr.strip l = l ∧ PyStr.strip r = r ∧ 0 ≤ ls ∧ 0 ≤ rs.
Proof.
  intros H. apply (proj1 (extract_latest_score_rows _ _)) in H
    as (before & row & after & _ & Hrow & _).
  unfold score_of_row in Hrow.
  destruct (negb _); [done|].
  destruct (tr_tds row) as [|t0 [|lt [|rt more]]]; try done.
  destruct (match_name_score lt) as [[ln lsc]|] eqn:El; [|done].
  destruct (match_name_score rt) as [[rn rsc]|] eqn:Er; [|done].
  injection Hrow as <- <- <- <-.
  apply match_name_score_parts in El as (? & _ & _ & _ & _ & ?).
  apply match_name_score_parts in Er as (? & _ & _ & _ & _ & ?).
  by rewrite !strip_idem.
Qed.

(** X8. The names returned by [extract_latest_score] carry no white
    space at either end and both scores are non-negative. *)
Theorem extract_latest_score_clean (html : list_page)
    (players_list : list string) (l r : string) (ls rs : Z) :
  extract_latest_score html players_list = Some (l, r, ls, rs) →
  PyStr.strip l = l ∧ PyStr.strip r = r ∧ 0 ≤ ls ∧ 0 ≤ rs.
Proof. apply extract_latest_score_stripped. Qed.

Lemma extract_latest_score_clean_witness :
  extract_latest_score (score_page " Bob" "5" "Alice " "11") ["Alice"; "Bob"]
  = Some ("Bob", "Alice", 5, 11)
  ∧ PyStr.strip "Bob" = "Bob" ∧ 0 ≤ 5.
Proof.
  assert (E : extract_latest_score (score_page " Bob" "5" "Alice " "11")
                ["Alice"; "Bob"] = Some ("Bob", "Alice", 5, 11))
    by reflexivity.
  split; [exact E|].
  destruct (extract_latest_score_clean _ _ _ _ _ _ E) as (H1 & _ & H2 & _).
  split; [exact H1|exact H2].
Defined.

(** ** What a run may write into "Matches" *)

Lemma scores_written_refl (ws : sheet) : scores_written ws ws.
Proof. by left. Qed.

Lemma scores_written_trans (ws1 ws2 ws3 : sheet) :
  scores_written ws1 ws2 → scores_written ws2 ws3 → scores_written ws1 ws3.
Proof.
  intros H12 H23 r c.
  destruct (H23 r c) as [->|(Hr & Hc & n & Hn & ->)]; [apply H12|].
  right. repeat split; try done. exists n. split; [done|].
  destruct (H12 r c) as [->|(_ & _ & m & _ & ->)]; done.
Qed.

Lemma scores_written_set (ws : sheet) (r c : nat) (n : Z) :
  (4 ≤ r)%nat → (2 ≤ c)%nat → 0 ≤ n →
  scores_written ws (set_value ws r c (PyInt n)).
Proof.
  intros Hr Hc Hn r' c'. rewrite cell_at_set_value.
  destruct (decide ((r, c) = (r', c'))) as [[= <- <-]|]; [|by left].
  right. repeat split; try done. by exists n.
Qed.

Lemma map_scores_permutes (p o l r : string) (ls rs a b : Z) (sw : bool) :
  map_scores_for_excel p o l r ls rs sw = Some (a, b) →
  (a = ls ∧ b = rs) ∨ (a = rs ∧ b = ls).
Proof.
  unfold map_scores_for_excel. repeat case_match; intros [=]; auto.
Qed.

Lemma write_score_scores_written (pim : list string) (ws : sheet)
    (p o : string) (ps os : Z) (sw : bool) :
  0 ≤ ps → 0 ≤ os →
  scores_written ws (write_score_to_excel pim ws p o ps os sw).1.
Proof.
  intros Hps Hos. unfold write_score_to_excel.
  destruct (index_of p pim) as [i|]; [|apply scores_written_refl].
  destruct (index_of o pim) as [j|]; [|apply scores_written_refl].
  destruct (is_eleven _ || is_eleven _); [apply scores_written_refl|]. simpl.
  eapply scores_written_trans; apply scores_written_set;
    unfold col_start; try done; lia.
Qed.

Lemma phase1_match_scores_written (rem : remote) (pim : list string)
    (entry : Z * (string * string * bool)) (s : scoring) :
  scores_written (s_matches s) (s_matches (phase1_match rem pim entry s)).
Proof.
  destruct entry as [mid [[p o] sw]].
  destruct (phase1_match_matches rem pim mid p o sw s)
    as [->|(text & l & r & ls & rs & ps & os & _ & _ & Hx & Hm & ->)];
    [apply scores_written_refl|].
  apply extract_latest_score_stripped in Hx as (_ & _ & Hls & Hrs).
  apply map_scores_permutes in Hm as [[-> ->]|[-> ->]];
    by apply write_score_scores_written.
Qed.

Lemma phase2_match_scores_written
    (mapping : list (Z * (string * string * bool))) (pim : list string)
    (entry : Z * string) (ws : sheet) :
  scores_written ws (phase2_match mapping pim entry ws).
Proof.
  unfold phase2_match. destruct entry as [mid w].
  repeat case_match; try apply scores_written_refl.
  all: apply scores_written_set; unfold col_start; try done; lia.
Qed.

Lemma scoring_phases_scores_written (rem : remote) (season : string)
    (players : list string) (player_ids : list (string * string))
    (ws : sheet) (t : tables) :
  scores_written ws (scoring_phases rem season players player_ids ws t).1.
Proof.
  unfold scoring_phases. destruct (step3 _ _ _ _ _) as [fin lg]. simpl.
  set (s1 := phase1 rem (names_down ws 4 1) (match_id_to_excel t)
               (Scoring ws (html_cache t) lg)).
  apply (scores_written_trans _ (s_matches s1)).
  - unfold s1, phase1.
    apply (foldl_invariant (λ s, scores_written ws (s_matches s)));
      [|apply scores_written_refl].
    intros s entry Hs. eapply scores_written_trans; [exact Hs|].
    apply phase1_match_scores_written.
  - unfold phase2.
    apply (foldl_invariant (λ ws1, scores_written (s_matches s1) ws1));
      [|apply scores_written_refl].
    intros ws1 entry Hs. eapply scores_written_trans; [exact Hs|].
    apply phase2_match_scores_written.
Qed.

(** X10. A run that ends normally changes the "Matches" sheet only by
    writing non-negative integers into cells from row 4 and column 2 on
    (keeping their hyperlinks); the player column, and so the list of
    players read from it, and the "Players" sheet are what they were. *)
Theorem run_writes_only_scores (argv : list string) (rem : remote)
    (wb : workbook) (o : outcome) :
  main argv rem wb = Ok o →
  scores_written (ws_matches wb) (ws_matches (out_wb o))
  ∧ names_down (ws_matches (out_wb o)) 4 1 = names_down (ws_matches wb) 4 1
  ∧ ws_players (out_wb o) = ws_players wb.
Proof.
  intros (g & filled & _ & _ & _ & ->)%main_Ok. simpl.
  pose proof (scoring_phases_scores_written rem (season_of argv)
                (read_players (ws_players wb)).1 (read_players (ws_players wb)).2
                (ws_matches wb) (g_tables g)) as Hw.
  split; [exact Hw|]. split; [|done].
  apply header_names_ext; [by intros i j [=]|].
  intros i. simpl. unfold value_at.
  destruct (Hw i 1%nat) as [->|(_ & Hc & _)]; [done|lia].
Qed.

Lemma run_writes_only_scores_witness :
  scores_written (ws_matches reversed_wb) (ws_matches (out_wb first_run))
  ∧ names_down (ws_matches (out_wb first_run)) 4 1
    = names_down (ws_matches reversed_wb) 4 1
  ∧ ws_players (out_wb first_run) = ws_players reversed_wb.
Proof.
  apply (run_writes_only_scores ["dg.py"] reversed_site reversed_wb first_run).
  vm_compute. reflexivity.
Defined.

(** X9. [write_score_to_excel]: when it returns [False] the sheet is
    unchanged, and it returns [False] whenever one of the two names is
    not in the player column; when it returns [True] both names were
    found, the pairing held no 11, the two score cells of the pairing now
    hold the two scores (hyperlinks kept) and every other cell of the
    sheet is the cell it was. *)
Theorem write_score_to_excel_effect (pim : list string) (ws : sheet)
    (p o : string) (ps os : Z) (sw : bool) :
  let ws' := (write_score_to_excel pim ws p o ps os sw).1 in
  let ok := (write_score_to_excel pim ws p o ps os sw).2 in
  (ok = false → ws' = ws)
  ∧ (index_of p pim = None ∨ index_of o pim = None → ok = false)
  ∧ (ok = true →
     ∃ i j : nat,
       index_of p pim = Some i ∧ index_of o pim = Some j
       ∧ finished ws (i + 4) j = false
       ∧ cell_at ws' (i + 4) (col_start + j * 2)
         = Cell (PyInt ps) (hyperlink (cell_at ws (i + 4) (col_start + j * 2)))
       ∧ cell_at ws' (i + 4) (col_start + j * 2 + 1)
         = Cell (PyInt os)
                (hyperlink (cell_at ws (i + 4) (col_start + j * 2 + 1)))
       ∧ ∀ r c : nat,
           (r, c) ≠ ((i + 4)%nat, (col_start + j * 2)%nat) →
           (r, c) ≠ ((i + 4)%nat, (col_start + j * 2 + 1)%nat) →
           cell_at ws' r c = cell_at ws r c).
Proof.
  cbv zeta. unfold write_score_to_excel.
  destruct (index_of p pim) as [i|]; [|by repeat split; auto].
  destruct (index_of o pim) as [j|]; [|by repeat split; auto].
  destruct (is_eleven _ || is_eleven _) eqn:Hg; simpl.
  - repeat split; done.
  - split; [done|]. split; [by intros [|]|].
    intros _. exists i, j. unfold finished. rewrite Hg.
    repeat split; try done.
    + rewrite cell_at_set_value, decide_False by (intros [=]; lia).
      by rewrite cell_at_set_value, decide_True.
    + rewrite cell_at_set_value, decide_True by done.
      by rewrite cell_at_set_value, decide_False by (intros [=]; lia).
    + intros r c H1 H2. by rewrite !cell_at_set_value, !decide_False.
Qed.

Lemma write_score_to_excel_effect_witness :
  (write_score_to_excel ["Alice"; "Bob"; "Carol"] (league_matches [])
     "Alice" "Dave" 3 5 false).2 = false
  ∧ (write_score_to_excel ["Alice"; "Bob"; "Carol"] (league_matches [])
       "Alice" "Dave" 3 5 false).1 = league_matches [].
Proof.
  destruct (write_score_to_excel_effect ["Alice"; "Bob"; "Carol"]
              (league_matches []) "Alice" "Dave" 3 5 false) as (H1 & H2 & _).
  assert (E : (write_score_to_excel ["Alice"; "Bob"; "Carol"]
                 (league_matches []) "Alice" "Dave" 3 5 false).2 = false).
  { apply H2. right. reflexivity. }
  split; [exact E|exact (H1 E)].
Defined.

(** ** Loops that may raise: what holds for every element *)

Lemma for_each_each {A S : Type} (Q : A → S → Prop)
    (body : A → S → result S) (l : list A) (s s' : S) :
  (∀ x s1 s2, body x s1 = Ok s2 → Q x s2) →
  (∀ y x s1 s2, Q y s1 → body x s1 = Ok s2 → Q y s2) →
  for_each body l s = Ok s' →
  ∀ x, x ∈ l → Q x s'.
Proof.
  intros Hnew Hkeep. revert s. induction l as [|a l IH]; simpl; intros s.
  - intros _ x ?%elem_of_nil. done.
  - destruct (body a s) as [s1|e] eqn:E; simpl; [|intros [=]].
    intros Hl x [->|Hx]%elem_of_cons; [|by eapply IH].
    apply (for_each_invariant (Q a) body l s1 s'); [|by eapply Hnew|done].
    intros y s2 s3. apply Hkeep.
Qed.

Lemma for_each_raises {A S : Type} (e0 : exn) (body : A → S → result S)
    (l : list A) (x0 : A) (s : S) :
  (∀ x s1 e, body x s1 = Raise e → e = e0) →
  (∀ s1, body x0 s1 = Raise e0) →
  x0 ∈ l →
  for_each body l s = Raise e0.
Proof.
  intros Honly Hbad. revert s. induction l as [|a l IH]; simpl; intros s.
  - by intros ?%elem_of_nil.
  - intros Hin. destruct (body a s) as [s1|e] eqn:E; simpl.
    + apply elem_of_cons in Hin as [->|Hin]; [|by apply IH].
      rewrite Hbad in E. done.
    + by rewrite (Honly _ _ _ E).
Qed.

(** ** Step 1 *)

Lemma mem_set {K V : Type} `{EqDecision K} (k k' : K) (v : V) (d : list (K * V)) :
  PyDict.mem k (PyDict.set k' v d)
  = bool_decide (k = k') || PyDict.mem k d.
Proof.
  unfold PyDict.mem. rewrite get_set.
  destruct (decide (k = k')) as [->|Hne].
  - by rewrite bool_decide_eq_true_2.
  - by rewrite bool_decide_eq_false_2.
Qed.

Lemma known_record_normal (key : string * string) (p o : string) (mid : Z)
    (t : tables) :
  known key (record_normal p o mid t)
  = bool_decide (key = (p, o)) || known key t.
Proof. unfold known, record_normal. simpl. rewrite mem_set. by rewrite orb_assoc. Qed.

Lemma known_record_switched (key : string * string) (p o : string) (mid : Z)
    (t : tables) :
  known key (record_switched p o mid t)
  = bool_decide (key = (p, o)) || known key t.
Proof.
  unfold known, record_switched. simpl. rewrite mem_set.
  destruct (bool_decide _), (PyDict.mem key (matches t)); done.
Qed.

Lemma step1_cell_cases rem (links flag : sheet) (rows : list string)
    (colidx : list (string * nat)) (n : nat) (player opp : string)
    (t t' : tables) :
  step1_cell rem links flag rows colidx (n, player, opp) t = Ok t' →
  (t' = t ∧ (player = opp
             ∨ ∃ c, PyDict.get opp colidx = Some c
                    ∧ truthy (value_at links n c) = false))
  ∨ ∃ (mid : Z) (t1 : tables),
      matches t1 = matches t ∧ matches_by_hand t1 = matches_by_hand t
      ∧ (t' = record_normal player opp mid t1
         ∨ t' = record_switched player opp mid t1).
Proof.
  unfold step1_cell. case_bool_decide as Hd.
  { intros [= <-]. left. auto. }
  unfold column_of. destruct (PyDict.get opp colidx) as [c|] eqn:Ec; simpl;
    [|intros [=]].
  destruct (truthy (value_at links n c)) eqn:Et; simpl.
  2:{ intros [= <-]. left. split; [done|]. right. eauto. }
  destruct (cell_match_id _) as [mid|e]; simpl; [|intros [=]].
  destruct (row_of rows player) as [rf|e]; simpl; [|intros [=]].
  intros H. right. exists mid.
  repeat case_match; simplify_eq/=; eexists; (split; [|split; [|eauto]]); done.
Qed.

Lemma step1_registers_every_identifier rem (links flag : sheet)
    (rows cols : list string) (t t' : tables) :
  step1 rem links flag rows (col_index cols) cols t = Ok t' →
  ∀ (i : nat) (player opp : string) (c : nat),
    rows !! i = Some player → opp ∈ cols → player ≠ opp →
    PyDict.get opp (col_index cols) = Some c →
    truthy (value_at links (i + 2) c) = true →
    known (player, opp) t' = true.
Proof.
  intros Hs i player opp c Hi Ho Hne Hc Ht.
  set (Q := λ (it : nat * string * string) (t1 : tables),
              it.1.2 = it.2
              ∨ (∃ c, PyDict.get it.2 (col_index cols) = Some c
                      ∧ truthy (value_at links it.1.1 c) = false)
              ∨ known (it.1.2, it.2) t1 = true).
  assert (Hnew : ∀ it t1 t2,
            step1_cell rem links flag rows (col_index cols) it t1 = Ok t2 →
            Q it t2).
  { intros [[n p] o] t1 t2 H1. unfold Q. simpl.
    apply step1_cell_cases in H1 as [[_ [?|?]]|(mid & t0 & _ & _ & [->| ->])];
      auto; right; right.
    + rewrite known_record_normal. by rewrite bool_decide_eq_true_2.
    + rewrite known_record_switched. by rewrite bool_decide_eq_true_2. }
  assert (Hkeep : ∀ it' it t1 t2, Q it' t1 →
            step1_cell rem links flag rows (col_index cols) it t1 = Ok t2 →
            Q it' t2).
  { intros [[n p] o] [[n' p'] o'] t1 t2 HQ H1. unfold Q in *. simpl in *.
    destruct HQ as [?|[?|Hk]]; auto. right; right.
    apply step1_cell_cases in H1 as [[-> _]|(mid & t0 & Hm & Hh & [->| ->])];
      [done| |].
    + rewrite known_record_normal. apply orb_true_iff. right.
      unfold known in *. by rewrite Hm, Hh.
    + rewrite known_record_switched. apply orb_true_iff. right.
      unfold known in *. by rewrite Hm, Hh. }
  destruct (for_each_each Q _ _ _ _ Hnew Hkeep Hs ((i + 2)%nat, player, opp))
    as [?|[(c' & Hc' & Hf)|?]]; simpl in *; try done.
  - apply elem_of_step1_cells. eauto.
  - congruence.
Qed.

Lemma step1_cell_raises_value_error rem (links flag : sheet) (rows : list string)
    (colidx : list (string * nat)) (it : nat * string * string) (t : tables)
    (e : exn) :
  step1_cell rem links flag rows colidx it t = Raise e → e = ValueError.
Proof.
  unfold step1_cell, column_of, cell_match_id, row_of.
  destruct it as [[n p] o].
  repeat (case_match; simpl; try done); by intros [= <-].
Qed.

(** X11. A non-empty off-diagonal identifier cell of "Links" whose
    content [int()] rejects aborts the run with [ValueError] in Step 1
    (when login succeeded and the marker is not set): the conversion is
    not inside any [try]. *)
Theorem malformed_identifier_aborts_run (argv : list string) (rem : remote)
    (wb : workbook) (i : nat) (player opp : string) (c : nat) :
  login_session rem = Ok () →
  skip_fetching (ws_control wb) = false →
  names_down (ws_links wb) 2 1 !! i = Some player →
  opp ∈ names_right (ws_links wb) 1 2 →
  player ≠ opp →
  PyDict.get opp (col_index (names_right (ws_links wb) 1 2)) = Some c →
  truthy (value_at (ws_links wb) (i + 2) c) = true →
  cell_match_id (value_at (ws_links wb) (i + 2) c) = Raise ValueError →
  main argv rem wb = Raise ValueError.
Proof.
  intros Hlogin Hskip Hi Ho Hne Hc Ht Hbad. unfold main.
  destruct (read_players (ws_players wb)) as [players player_ids].
  rewrite Hlogin. simpl. unfold discovery. rewrite Hskip.
  unfold step1.
  rewrite (for_each_raises ValueError _ _ ((i + 2)%nat, player, opp)); [done| | |].
  - intros it t e. apply step1_cell_raises_value_error.
  - intros t. unfold step1_cell, column_of.
    rewrite bool_decide_eq_false_2 by done. rewrite Hc. simpl.
    rewrite Ht. simpl. by rewrite Hbad.
  - apply elem_of_step1_cells. eauto.
Qed.

Lemma malformed_identifier_aborts_run_witness :
  main ["dg.py"] live_site malformed_wb = Raise ValueError.
Proof.
  apply (malformed_identifier_aborts_run ["dg.py"] live_site malformed_wb
           0 "Alice" "Bob" 3).
  - reflexivity.
  - vm_compute. reflexivity.
  - vm_compute. reflexivity.
  - compute_done.
  - discriminate.
  - vm_compute. reflexivity.
  - vm_compute. reflexivity.
  - vm_compute. reflexivity.
Defined.

(** ** Step 2 *)

Lemma to_int_nonempty (m : string) (z : Z) : PyStr.to_int m = Some z → m ≠ "".
Proof. by intros H ->. Qed.

Lemma step2_match_effect (rows : list string) (cols : list string)
    (player : string) (m : string * string * string) (ws0 fl0 : sheet)
    (g g' : grids) :
  step2_match rows (col_index cols) player m g = Ok g' →
  (identifiers_added ws0 (g_links g) → identifiers_added ws0 (g_links g'))
  ∧ (flags_stamped fl0 (g_flag g) → flags_stamped fl0 (g_flag g'))
  ∧ (∀ mid sw, orientation mid (g_tables g) = Some sw →
               orientation mid (g_tables g') = Some sw)
  ∧ (∀ key, known key (g_tables g) = true → known key (g_tables g') = true)
  ∧ matches_by_hand (g_tables g') = matches_by_hand (g_tables g)
  ∧ html_cache (g_tables g') = html_cache (g_tables g)
  ∧ log (g_tables g') = log (g_tables g).
Proof.
  unfold step2_match. destruct m as [[opponent_name oid] match_id].
  destruct (known _ _) eqn:Ek; [by intros [= <-]|].
  destruct (PyStr.to_int match_id) as [mid_int|] eqn:Eint; [|intros [=]].
  set (sw0 := match PyDict.get mid_int (match_id_to_excel (g_tables g)) with
              | Some (_, _, sw) => sw | None => false end).
  assert (Hor : ∀ mid sw t',
            match_id_to_excel t'
            = PyDict.set mid_int (player, opponent_name, sw0)
                (match_id_to_excel (g_tables g)) →
            orientation mid (g_tables g) = Some sw →
            orientation mid t' = Some sw).
  { intros mid sw t' Ht'. unfold orientation. rewrite Ht', get_set.
    destruct (decide (mid = mid_int)) as [->|]; [|done].
    unfold sw0. destruct (PyDict.get mid_int _) as [[[? ?] ?]|]; simpl; done. }
  assert (Hkn : ∀ key t',
            matches t' = PyDict.set (player, opponent_name) mid_int
                           (matches (g_tables g)) →
            matches_by_hand t' = matches_by_hand (g_tables g) →
            known key (g_tables g) = true → known key t' = true).
  { intros key t' Hm Hh. unfold known. rewrite Hm, Hh, mem_set.
    intros [->| ->]%orb_true_iff; by rewrite ?orb_true_r. }
  destruct (index_of player rows) as [i|];
    [|intros [= <-]; simpl; repeat split; eauto].
  destruct (PyDict.get opponent_name (col_index cols)) as [c|] eqn:Ec;
    [|intros [= <-]; simpl; repeat split; eauto].
  destruct (bool_decide (c = 0%nat) || bool_decide (opponent_name = player));
    [intros [= <-]; simpl; repeat split; eauto|].
  apply col_index_ge in Ec.
  intros [= <-]. simpl. repeat split; eauto.
  - intros Hid r' c'.
    destruct (truthy (value_at (g_links g) (i + 2) c)) eqn:Et; simpl; [apply Hid|].
    rewrite cell_at_set_hyperlink.
    destruct (decide (((i + 2)%nat, c) = (r', c'))) as [[= <- <-]|];
      [|rewrite cell_at_set_value, decide_False by done; apply Hid].
    right. split; [lia|]. split; [done|].
    rewrite cell_at_set_value, decide_True by done. simpl.
    destruct (Hid (i + 2)%nat c) as [Heq|(_ & _ & _ & m & z & Hz & Heq)].
    + split; [|by eauto]. unfold value_at in *. by rewrite <- Heq.
    + unfold value_at in Et. rewrite Heq in Et. simpl in Et.
      apply to_int_nonempty in Hz. by rewrite bool_decide_eq_false_2 in Et.
  - intros Hfl r' c'. rewrite value_at_set_value.
    destruct (decide (((i + 2)%nat, c) = (r', c'))) as [[= <- <-]|]; [|apply Hfl].
    right. split; [lia|]. split; [done|]. destruct sw0; auto.
Qed.

Lemma step2_effect rem (season : string) (players : list string)
    (player_ids : list (string * string)) (rows cols : list string)
    (g g' : grids) :
  step2 rem season players player_ids rows (col_index cols) g = Ok g' →
  identifiers_added (g_links g) (g_links g')
  ∧ flags_stamped (g_flag g) (g_flag g')
  ∧ (∀ mid sw, orientation mid (g_tables g) = Some sw →
               orientation mid (g_tables g') = Some sw)
  ∧ (∀ key, known key (g_tables g) = true → known key (g_tables g') = true)
  ∧ matches_by_hand (g_tables g') = matches_by_hand (g_tables g)
  ∧ html_cache (g_tables g') = html_cache (g_tables g).
Proof.
  set (P := λ g1 : grids,
              identifiers_added (g_links g) (g_links g1)
              ∧ flags_stamped (g_flag g) (g_flag g1)
              ∧ (∀ mid sw, orientation mid (g_tables g) = Some sw →
                           orientation mid (g_tables g1) = Some sw)
              ∧ (∀ key, known key (g_tables g) = true →
                        known key (g_tables g1) = true)
              ∧ matches_by_hand (g_tables g1) = matches_by_hand (g_tables g)
              ∧ html_cache (g_tables g1) = html_cache (g_tables g)).
  assert (Hm : ∀ player m g1 g2, P g1 →
            step2_match rows (col_index cols) player m g1 = Ok g2 → P g2).
  { intros player m g1 g2 (H1 & H2 & H3 & H4 & H5 & H6) Hs.
    apply (step2_match_effect _ _ _ _ (g_links g) (g_flag g)) in Hs
      as (K1 & K2 & K3 & K4 & K5 & K6 & _).
    unfold P. rewrite K5, K6. repeat split; auto. }
  apply (for_each_invariant P).
  - intros player g1 g2 HP. unfold step2_player.
    destruct (usable_pid _) as [pid|]; [|by intros [= <-]].
    destruct (missing _ _ _) as [|? ?]; [by intros [= <-]|].
    destruct (get_player_matches _ _ _) as [pm|e]; simpl; [|intros [=]].
    apply (for_each_invariant P); [intros m ga gb; apply Hm|].
    destruct HP as (H1 & H2 & H3 & H4 & H5 & H6). by repeat split.
  - repeat split; auto; by left.
Qed.

Lemma discovery_effect rem (season : string) (players : list string)
    (player_ids : list (string * string)) (wb : workbook) (ws_flag0 : sheet)
    (rows cols : list string) (g : grids) :
  discovery rem season players player_ids wb ws_flag0 rows cols = Ok g →
  identifiers_added (ws_links wb) (g_links g)
  ∧ flags_stamped ws_flag0 (g_flag g).
Proof.
  unfold discovery. destruct (skip_fetching _).
  - intros [= <-]. simpl. split; by left.
  - destruct (step1 _ _ _ _ _ _ _) as [t|e]; simpl; [|intros [=]].
    intros (H1 & H2 & _)%step2_effect. done.
Qed.

(** X12. What a run does to "Links": every cell is the cell it was, or
    it was empty, lies in row 2 or below and column 2 or right of it, and
    now holds the text of an identifier that [int()] accepts, with the
    hyperlink to that match's list page. *)
Theorem run_adds_identifiers_with_links (argv : list string) (rem : remote)
    (wb : workbook) (o : outcome) :
  main argv rem wb = Ok o →
  identifiers_added (ws_links wb) (ws_links (out_wb o)).
Proof.
  intros (g & filled & _ & Hd & _ & ->)%main_Ok. simpl.
  by apply discovery_effect in Hd as [? _].
Qed.

Lemma run_adds_identifiers_with_links_witness :
  identifiers_added (ws_links reversed_wb) (ws_links (out_wb first_run))
  ∧ cell_at (ws_links (out_wb first_run)) 2 3
    = Cell (PyStr "123") (Some (game_url "123")).
Proof.
  split.
  - apply (run_adds_identifiers_with_links ["dg.py"] reversed_site).
    vm_compute. reflexivity.
  - vm_compute. reflexivity.
Defined.

(** X13. What a run does to "match_flag": every cell from row 2 and
    column 2 on keeps its value or holds the integer 0 or 1, and the
    header cells hold the names of the "Links" headers. *)
Theorem run_stamps_flags (argv : list string) (rem : remote)
    (wb : workbook) (o : outcome) :
  main argv rem wb = Ok o →
  (∀ r c : nat, (2 ≤ r)%nat → (2 ≤ c)%nat →
     value_at (ws_flag (out_wb o)) r c = value_at (ws_flag wb) r c
     ∨ value_at (ws_flag (out_wb o)) r c = PyInt 0
     ∨ value_at (ws_flag (out_wb o)) r c = PyInt 1)
  ∧ (∀ (j : nat) (name : string),
       names_right (ws_links wb) 1 2 !! j = Some name →
       value_at (ws_flag (out_wb o)) 1 (2 + j) = PyStr name)
  ∧ (∀ (i : nat) (name : string),
       names_down (ws_links wb) 2 1 !! i = Some name →
       value_at (ws_flag (out_wb o)) (2 + i) 1 = PyStr name).
Proof.
  intros (g & filled & _ & Hd & _ & ->)%main_Ok. simpl.
  apply discovery_effect in Hd as [_ Hfl].
  destruct (flag_headers_cells (ws_flag wb)
              (names_down (ws_links wb) 2 1) (names_right (ws_links wb) 1 2))
    as (Hin & Hcols & Hrows & _).
  repeat split.
  - intros r c Hr Hc. unfold value_at at 2. rewrite <- (Hin r c Hr Hc).
    destruct (Hfl r c) as [?|(_ & _ & [?|?])]; auto.
  - intros j name Hj. rewrite <- (Hcols j name Hj).
    destruct (Hfl 1%nat (2 + j)%nat) as [?|(? & _)]; [done|lia].
  - intros i name Hi. rewrite <- (Hrows i name Hi).
    destruct (Hfl (2 + i)%nat 1%nat) as [?|(_ & ? & _)]; [done|lia].
Qed.

Lemma run_stamps_flags_witness :
  value_at (ws_flag (out_wb first_run)) 1 3 = PyStr "Bob"
  ∧ value_at (ws_flag (out_wb first_run)) 3 1 = PyStr "Bob"
  ∧ value_at (ws_flag (out_wb first_run)) 2 3 = PyInt 1.
Proof.
  destruct (run_stamps_flags ["dg.py"] reversed_site reversed_wb first_run
              ltac:(vm_compute; reflexivity)) as (_ & Hc & Hr).
  split; [|split].
  - apply (Hc 1%nat "Bob"). vm_compute. reflexivity.
  - apply (Hr 1%nat "Bob"). vm_compute. reflexivity.
  - vm_compute. reflexivity.
Defined.

(** X14. Step 2 never changes the orientation recorded for an
    identifier: an identifier that is in [match_id_to_excel] before Step 2
    is in it afterwards with the same switched flag (the pairing stored
    with it may be replaced). *)
Theorem step2_keeps_known_orientation rem (season : string)
    (players : list string) (player_ids : list (string * string))
    (rows cols : list string) (g g' : grids) :
  step2 rem season players player_ids rows (col_index cols) g = Ok g' →
  ∀ (mid : Z) (sw : bool),
    orientation mid (g_tables g) = Some sw →
    orientation mid (g_tables g') = Some sw.
Proof. intros (_ & _ & H & _)%step2_effect. exact H. Qed.

Lemma step2_keeps_known_orientation_witness :
  orientation 123 (g_tables reversed_step1) = Some true
  ∧ orientation 123 (g_tables reversed_step2) = Some true
  ∧ PyDict.get 123 (match_id_to_excel (g_tables reversed_step1))
    = Some ("Bob", "Alice", true)
  ∧ PyDict.get 123 (match_id_to_excel (g_tables reversed_step2))
    = Some ("Alice", "Bob", true).
Proof.
  assert (E : orientation 123 (g_tables reversed_step1) = Some true)
    by (vm_compute; reflexivity).
  split; [exact E|]. split.
  - apply (step2_keeps_known_orientation reversed_site (season_of ["dg.py"])
             ["Alice"; "Bob"; "Carol"] [("Alice", "1001")]
             reversed_rows reversed_cols reversed_step1 reversed_step2
             ltac:(vm_compute; reflexivity) 123 true E).
  - split; vm_compute; reflexivity.
Defined.

Lemma step1_cell_mapping rem (links flag : sheet) (rows : list string)
    (colidx : list (string * nat)) (n : nat) (player opp : string)
    (t t' : tables) :
  step1_cell rem links flag rows colidx (n, player, opp) t = Ok t' →
  (∀ mid, PyDict.mem mid (match_id_to_excel t) = true →
          PyDict.mem mid (match_id_to_excel t') = true)
  ∧ (player ≠ opp →
     ∀ c, PyDict.get opp colidx = Some c →
          truthy (value_at links n c) = true →
          ∃ z, cell_match_id (value_at links n c) = Ok z
               ∧ PyDict.mem z (match_id_to_excel t') = true).
Proof.
  unfold step1_cell. case_bool_decide as Hd.
  { intros [= <-]. split; [done|]. by intros []. }
  unfold column_of. destruct (PyDict.get opp colidx) as [c|] eqn:Ec; simpl;
    [|intros [=]].
  destruct (truthy (value_at links n c)) eqn:Et; simpl.
  2:{ intros [= <-]. split; [done|]. intros _ c' [= <-]. by rewrite Et. }
  destruct (cell_match_id _) as [mid|e] eqn:Em; simpl; [|intros [=]].
  destruct (row_of rows player) as [rf|e]; simpl; [|intros [=]].
  intros H.
  assert (Hmap : ∃ sw, match_id_to_excel t'
                       = PyDict.set mid (player, opp, sw) (match_id_to_excel t)).
  { repeat case_match; simplify_eq/=; eauto. }
  destruct Hmap as [sw Hmap]. rewrite Hmap. split.
  - intros m Hm. by rewrite mem_set, Hm, orb_true_r.
  - intros _ c' [= <-] _. exists mid. split; [done|].
    by rewrite mem_set, bool_decide_eq_true_2.
Qed.

Lemma orientation_mem (mid : Z) (t : tables) :
  PyDict.mem mid (match_id_to_excel t) = true ↔ ∃ sw, orientation mid t = Some sw.
Proof.
  unfold orientation, PyDict.mem.
  destruct (PyDict.get mid (match_id_to_excel t)) as [[[? ?] sw]|]; simpl.
  - split; [eauto|done].
  - split; [done|by intros [? ?]].
Qed.

(** X15. After Step 1 and Step 2 (marker not set, no exception) every
    non-empty off-diagonal identifier cell of "Links" is accounted for:
    its pairing is known in one of the two dictionaries, its content
    converts to an integer and that integer is a key of
    [match_id_to_excel], so Phase 1 visits it. *)
Theorem discovery_schedules_every_identifier rem (season : string)
    (players : list string) (player_ids : list (string * string))
    (wb : workbook) (ws_flag0 : sheet) (g : grids) :
  let rows := names_down (ws_links wb) 2 1 in
  let cols := names_right (ws_links wb) 1 2 in
  skip_fetching (ws_control wb) = false →
  discovery rem season players player_ids wb ws_flag0 rows cols = Ok g →
  ∀ (i : nat) (player opp : string) (c : nat),
    rows !! i = Some player → opp ∈ cols → player ≠ opp →
    PyDict.get opp (col_index cols) = Some c →
    truthy (value_at (ws_links wb) (i + 2) c) = true →
    known (player, opp) (g_tables g) = true
    ∧ ∃ z, cell_match_id (value_at (ws_links wb) (i + 2) c) = Ok z
           ∧ PyDict.mem z (match_id_to_excel (g_tables g)) = true.
Proof.
  intros rows cols Hskip. unfold discovery. rewrite Hskip.
  destruct (step1 _ _ _ _ _ _ _) as [t|e] eqn:E1; simpl; [|intros [=]].
  intros (_ & _ & Hor & Hkn & _)%step2_effect i player opp c Hi Ho Hne Hc Ht.
  simpl in Hor, Hkn. split.
  - apply Hkn. by eapply step1_registers_every_identifier.
  - set (Q := λ (it : nat * string * string) (t1 : tables),
                it.1.2 ≠ it.2 →
                ∀ c, PyDict.get it.2 (col_index cols) = Some c →
                     truthy (value_at (ws_links wb) it.1.1 c) = true →
                     ∃ z, cell_match_id (value_at (ws_links wb) it.1.1 c) = Ok z
                          ∧ PyDict.mem z (match_id_to_excel t1) = true).
    assert (HQ : Q ((i + 2)%nat, player, opp) t).
    { apply (for_each_each Q _ _ _ _) with (3 := E1).
      - intros [[n p] o] t1 t2 H1. by apply step1_cell_mapping in H1 as [_ ?].
      - intros [[n p] o] [[n' p'] o'] t1 t2 HQ H1 Hd c' Hc' Ht'.
        destruct (HQ Hd c' Hc' Ht') as (z & Hz & Hm). exists z. split; [done|].
        by apply step1_cell_mapping in H1 as [Hmono _]; apply Hmono.
      - apply elem_of_step1_cells. eauto. }
    destruct (HQ Hne c Hc Ht) as (z & Hz & Hm). exists z. split; [done|].
    apply orientation_mem in Hm as [sw Hsw]. apply orientation_mem.
    exists sw. by apply Hor.
Qed.

Lemma discovery_schedules_every_identifier_witness :
  ∃ g, discovery live_site (season_of ["dg.py"]) ["Alice"; "Bob"; "Carol"]
         [("Alice", "1001")] unmarked_wb ∅
         (names_down (ws_links unmarked_wb) 2 1)
         (names_right (ws_links unmarked_wb) 1 2) = Ok g
       ∧ known ("Alice", "Bob") (g_tables g) = true
       ∧ PyDict.mem 123 (match_id_to_excel (g_tables g)) = true.
Proof.
  eexists. split; [vm_compute; reflexivity|].
  match goal with
  | |- known _ (g_tables ?g) = _ ∧ _ =>
      destruct (discovery_schedules_every_identifier live_site
                  (season_of ["dg.py"]) ["Alice"; "Bob"; "Carol"]
                  [("Alice", "1001")] unmarked_wb ∅ g
                  ltac:(vm_compute; reflexivity)
                  ltac:(vm_compute; reflexivity)
                  0%nat "Alice" "Bob" 3%nat
                  ltac:(vm_compute; reflexivity)
                  ltac:(compute_done)
                  ltac:(discriminate)
                  ltac:(vm_compute; reflexivity)
                  ltac:(vm_compute; reflexivity)) as (Hk & z & Hz & Hm)
  end.
  split; [exact Hk|].
  assert (z = 123) as ->; [|exact Hm].
  vm_compute in Hz. congruence.
Defined.

(** ** The requests of Phase 1 *)

Lemma page_requests_app (id : Z) (l1 l2 : list request) :
  page_requests id (l1 ++ l2) = (page_requests id l1 + page_requests id l2)%nat.
Proof. unfold page_requests. by rewrite filter_app, length_app. Qed.

Lemma page_requests_one (id mid : Z) :
  page_requests id [GetList mid] = if decide (id = mid) then 1%nat else 0%nat.
Proof.
  unfold page_requests. rewrite filter_cons, filter_nil.
  destruct (decide (GetList mid = GetList id)) as [[= ->]|Hne].
  - by rewrite decide_True.
  - rewrite decide_False; [done|]. by intros ->.
Qed.

Lemma phase1_match_log_cache (rem : remote) (pim : list string) (mid : Z)
    (info : string * string * bool) (s : scoring) :
  let s' := phase1_match rem pim (mid, info) s in
  if no_html (cached mid (s_cache s)) then
    s_log s' = (s_log s ++ [GetList mid])%list
    ∧ s_cache s' = PyDict.set mid (fetch_list_html rem mid) (s_cache s)
  else s_log s' = s_log s ∧ s_cache s' = s_cache s.
Proof.
  cbv zeta. unfold phase1_match, document_for. destruct info as [[p o] sw].
  destruct (no_html (cached mid (s_cache s))) eqn:E.
  - repeat case_match; simplify_eq/=; done.
  - rewrite E. repeat case_match; simplify_eq/=; done.
Qed.

Lemma cached_set_ne (id mid : Z) (html : option list_page)
    (cache : list (Z * option list_page)) :
  id ≠ mid → cached id (PyDict.set mid html cache) = cached id cache.
Proof. intros. unfold cached. by rewrite get_set, decide_False. Qed.

(** X16. Within Phase 1 the page of an identifier is requested once
    exactly when the identifier is in the mapping and the cache holds no
    page for it, and not at all otherwise (the keys of the mapping are
    pairwise different, as those of a dictionary are). *)
Theorem phase1_requests_each_missing_page_once (rem : remote)
    (pim : list string) (mapping : list (Z * (string * string * bool)))
    (s : scoring) (id : Z) :
  NoDup mapping.*1 →
  page_requests id (s_log (phase1 rem pim mapping s))
  = (page_requests id (s_log s)
     + if bool_decide (id ∈ mapping.*1) && no_html (cached id (s_cache s))
       then 1 else 0)%nat.
Proof.
  unfold phase1. revert s.
  induction mapping as [|[mid info] mapping IH]; intros s Hnd.
  - simpl. lia.
  - rewrite fmap_cons in *. cbn [foldl fst]. cbv beta.
    apply NoDup_cons in Hnd as [Hmid Hnd]. cbn [fst] in Hmid.
    pose proof (phase1_match_log_cache rem pim mid info s) as H. cbv zeta in H.
    set (s1 := phase1_match rem pim (mid, info) s) in *.
    rewrite IH by done.
    destruct (decide (id = mid)) as [->|Hne].
    + rewrite (bool_decide_eq_false_2 (mid ∈ mapping.*1)) by done.
      rewrite (bool_decide_eq_true_2 (mid ∈ mid :: mapping.*1)) by left.
      rewrite !andb_false_l, !andb_true_l.
      destruct (no_html (cached mid (s_cache s))).
      * destruct H as [-> _].
        rewrite page_requests_app, page_requests_one, decide_True by done. lia.
      * destruct H as [-> _]. lia.
    + assert (bool_decide (id ∈ mid :: mapping.*1) = bool_decide (id ∈ mapping.*1))
        as ->.
      { apply bool_decide_ext. rewrite elem_of_cons.
        split; [by intros [?|?]|by right]. }
      destruct (no_html (cached mid (s_cache s))).
      * destruct H as [-> ->]. rewrite page_requests_app, cached_set_ne by done.
        rewrite page_requests_one, decide_False by done. lia.
      * by destruct H as [-> ->].
Qed.

Lemma phase1_requests_each_missing_page_once_witness :
  page_requests 123
    (s_log (phase1 live_site ["Alice"; "Bob"; "Carol"]
              [ (123, ("Alice", "Bob", false));
                (456, ("Alice", "Carol", false)) ]
              (Scoring (league_matches []) [] [GetList 123])))
  = 2%nat.
Proof.
  rewrite (phase1_requests_each_missing_page_once live_site
             ["Alice"; "Bob"; "Carol"]
             [ (123, ("Alice", "Bob", false));
               (456, ("Alice", "Carol", false)) ]
             (Scoring (league_matches []) [] [GetList 123]) 123).
  - vm_compute. reflexivity.
  - compute_done.
Defined.

(** ** Step 3: when a match counts as finished *)

Lemma find_winner_line (lines : list string) (player opp winner : string) :
  find_winner lines player opp = Some winner →
  (winner = player ∨ winner = opp)
  ∧ ∃ line, line ∈ lines
            ∧ PyStr.str_in "and the match" line = true
            ∧ PyStr.str_in "Wins" line = true.
Proof.
  induction lines as [|line lines IH]; simpl; [done|].
  destruct (PyStr.str_in "and the match" line && PyStr.str_in "Wins" line) eqn:E.
  - apply andb_true_iff in E as [E1 E2]. intros [= <-]. split.
    + destruct (_ <? _); auto.
    + exists line. split; [by left|done].
  - intros (Hw & l & Hl & H1 & H2)%IH. split; [done|].
    exists l. split; [by right|done].
Qed.

Lemma step3_row_sound (rem : remote) (season player : string) (row : user_row)
    (s : list (Z * string) * list request) :
  finished_sound rem s.1 → finished_sound rem (step3_row rem season player row s).1.
Proof.
  intros Hs. unfold step3_row. destruct s as [fin lg]. simpl in Hs.
  destruct (negb _); [done|].
  destruct (ur_export row); [|done].
  destruct (ur_match row) as [m|]; [|done].
  destruct (ur_opponent row) as [[oname oid]|]; [|done].
  destruct (PyStr.to_int m) as [mid0|]; [|done].
  destruct (get_export rem mid0) as [ok lines|] eqn:Ex; [|done].
  destruct (find_winner _ _ _) as [w0|] eqn:Ew; [|done].
  case_bool_decide as Hw; [done|]. simpl.
  intros mid w. rewrite get_set. destruct (decide _) as [->|]; [|apply Hs].
  intros [= <-].
  apply find_winner_line in Ew as (_ & line & ? & ? & ?).
  split; [done|]. exists ok, lines, line. done.
Qed.

(** X17. Step 3 reports a match as decided only on evidence: every
    entry of [finished_by_id] has a non-empty winner name and the
    transcript served for that identifier (whatever its status, which is
    not checked) has a line containing both "and the match" and
    "Wins". *)
Theorem step3_finished_needs_transcript_line (rem : remote) (season : string)
    (player_ids : list (string * string)) (players : list string)
    (lg : list request) :
  finished_sound rem (step3 rem season player_ids players lg).1.
Proof.
  unfold step3.
  apply (foldl_invariant (λ s, finished_sound rem s.1)); [|by intros ??].
  intros s player Hs. unfold step3_player.
  destruct (usable_pid _) as [pid|]; [|done].
  destruct (get_user rem pid) as [ok rows|]; [|done].
  destruct (negb ok); [done|].
  apply (foldl_invariant (λ s1, finished_sound rem s1.1)); [|done].
  intros s1 row. apply step3_row_sound.
Qed.

Lemma step3_finished_needs_transcript_line_witness :
  PyDict.get 123
    (step3 live_site (season_of ["dg.py"]) [("Alice", "1001")]
       ["Alice"; "Bob"; "Carol"] []).1 = Some "Alice"
  ∧ ∃ (ok : bool) (lines : list string) (line : string),
      get_export live_site 123 = HttpResponse ok lines
      ∧ line ∈ lines
      ∧ PyStr.str_in "and the match" line = true
      ∧ PyStr.str_in "Wins" line = true.
Proof.
  assert (E : PyDict.get 123
                (step3 live_site (season_of ["dg.py"]) [("Alice", "1001")]
                   ["Alice"; "Bob"; "Carol"] []).1 = Some "Alice")
    by (vm_compute; reflexivity).
  split; [exact E|].
  exact (proj2 (step3_finished_needs_transcript_line live_site
                  (season_of ["dg.py"]) [("Alice", "1001")]
                  ["Alice"; "Bob"; "Carol"] [] 123 "Alice" E)).
Defined.

(** ** When a run ends normally *)







Lemma reversed_links_parse : identifiers_parse (ws_links reversed_wb).
Proof.
  intros r c Hr Hc. unfold reversed_wb, league_links, sheet_of.
  cbn [ws_links app foldl fst snd].
  rewrite !value_at_set_value.
  repeat (destruct (decide _) as [[= <- <-]|_];
          [first [lia | intros _; exists 123; reflexivity]|]).
  rewrite value_at_missing by apply lookup_empty. discriminate.
Qed.



(** ** Identifiers written by a run can be read by the next one *)

(** X19. If every non-empty identifier cell of "Links" converts to an
    integer before a run, the same holds after it: what Step 2 writes
    can be read back by Step 1 of the next run. *)
Theorem run_keeps_identifiers_readable (argv : list string) (rem : remote)
    (wb : workbook) (o : outcome) :
  main argv rem wb = Ok o →
  identifiers_parse (ws_links wb) →
  identifiers_parse (ws_links (out_wb o)).
Proof.
  intros Hm Hp r c Hr Hc Ht.
  apply main_Ok in Hm as (g & filled & _ & Hd & _ & ->).
  apply discovery_effect in Hd as [Hadd _]. simpl in *.
  pose proof (Hadd r c) as Hcell.
  unfold value_at in *.
  destruct Hcell as [Heq|(_ & _ & _ & m & z & Hz & Heq)]; rewrite Heq in *.
  - by apply Hp.
  - exists z. unfold cell_match_id. simpl. by rewrite Hz.
Qed.

Lemma run_keeps_identifiers_readable_witness :
  identifiers_parse (ws_links (out_wb first_run)).
Proof.
  apply (run_keeps_identifiers_readable ["dg.py"] reversed_site reversed_wb).
  - vm_compute. reflexivity.
  - exact reversed_links_parse.
Defined.

(** ** Which requests a run sends *)

Lemma for_each_invariant_in {A S : Type} (P : S → Prop)
    (body : A → S → result S) (l : list A) (s s' : S) :
  (∀ x s1 s2, x ∈ l → P s1 → body x s1 = Ok s2 → P s2) →
  P s → for_each body l s = Ok s' → P s'.
Proof.
  revert s. induction l as [|x l IH]; simpl; intros s Hstep Hs.
  - by intros [= <-].
  - destruct (body x s) as [s1|e] eqn:E; simpl; [|intros [=]].
    apply IH.
    + intros y s2 s3 Hy. apply Hstep. by right.
    + eapply Hstep; [by left|done|done].
Qed.

Lemma foldl_invariant_in {A S : Type} (P : S → Prop) (f : S → A → S)
    (l : list A) (s : S) :
  (∀ s1 x, x ∈ l → P s1 → P (f s1 x)) → P s → P (foldl f s l).
Proof.
  revert s. induction l as [|x l IH]; simpl; intros s Hstep Hs; [done|].
  apply IH.
  - intros s1 y Hy. apply Hstep. by right.
  - apply Hstep; [by left|done].
Qed.

Section requests.
Variable rem : remote.
Variable season : string.
Variable players : list string.
Variable player_ids : list (string * string).

Lemma Forall_snoc_allowed (marker : bool) (lg : list request) (q : request) :
  Forall (request_allowed rem season players player_ids marker) lg → request_allowed rem season players player_ids marker q →
  Forall (request_allowed rem season players player_ids marker) (lg ++ [q]).
Proof. intros. apply Forall_app. split; [done|]. by apply Forall_singleton. Qed.

Lemma step1_cell_log (links flag : sheet) (rows : list string)
    (colidx : list (string * nat)) (it : nat * string * string) (t t' : tables) :
  step1_cell rem links flag rows colidx it t = Ok t' →
  Forall (request_allowed rem season players player_ids false) (log t) → Forall (request_allowed rem season players player_ids false) (log t').
Proof.
  unfold step1_cell, column_of, cell_match_id, row_of.
  destruct it as [[n p] o].
  repeat (case_match; simpl; try done); intros [= <-] Hl; simpl; try done.
  all: by apply Forall_snoc_allowed.
Qed.

Lemma step2_log (rows : list string) (cols : list string) (g g' : grids) :
  step2 rem season players player_ids rows (col_index cols) g = Ok g' →
  Forall (request_allowed rem season players player_ids false) (log (g_tables g)) →
  Forall (request_allowed rem season players player_ids false) (log (g_tables g')).
Proof.
  intros Hs Hl. revert Hs.
  apply (for_each_invariant_in (λ g1, Forall (request_allowed rem season players player_ids false) (log (g_tables g1))));
    [|done].
  intros player g1 g2 Hin H1. unfold step2_player.
  destruct (usable_pid _) as [pid|] eqn:Epid; [|by intros [= <-]].
  destruct (missing _ _ _); [by intros [= <-]|].
  destruct (get_player_matches _ _ _) as [pm|e]; simpl; [|intros [=]].
  apply (for_each_invariant (λ g3, Forall (request_allowed rem season players player_ids false) (log (g_tables g3)))).
  - intros m ga gb Ha Hm.
    apply (step2_match_effect _ _ _ _ ∅ ∅) in Hm as (_ & _ & _ & _ & _ & _ & ->).
    done.
  - simpl. apply Forall_snoc_allowed; [done|]. exists player. done.
Qed.

Lemma step3_log (marker : bool) (lg : list request) :
  Forall (request_allowed rem season players player_ids marker) lg →
  Forall (request_allowed rem season players player_ids marker) (step3 rem season player_ids players lg).2.
Proof.
  intros Hl. unfold step3.
  apply (foldl_invariant_in (λ s, Forall (request_allowed rem season players player_ids marker) s.2)); [|done].
  intros s player Hin Hs. unfold step3_player.
  destruct (usable_pid _) as [pid|] eqn:Epid; [|done].
  assert (Hs1 : Forall (request_allowed rem season players player_ids marker) (s.2 ++ [GetUser pid])).
  { apply Forall_snoc_allowed; [done|]. exists player. done. }
  destruct (get_user rem pid) as [ok rows|] eqn:Eu; [|done].
  destruct ok; simpl; [|done].
  apply (foldl_invariant_in (λ s1, Forall (request_allowed rem season players player_ids marker) s1.2)); [|done].
  intros [fin lg1] row Hrow Hlg. simpl in Hlg. unfold step3_row.
  destruct (negb _) eqn:Eseason; [done|]. apply negb_false_iff in Eseason.
  destruct (ur_export row) eqn:Eexp; [|done].
  destruct (ur_match row) as [m|] eqn:Em; [|done].
  destruct (ur_opponent row) as [[oname oid]|]; [|done].
  destruct (PyStr.to_int m) as [mid|] eqn:Eint; [|done].
  assert (Forall (request_allowed rem season players player_ids marker) (lg1 ++ [GetExport mid])).
  { apply Forall_snoc_allowed; [done|].
    exists player, pid, rows, row, m. done. }
  repeat case_match; done.
Qed.

Lemma phase1_log (pim : list string)
    (mapping : list (Z * (string * string * bool))) (s : scoring) :
  Forall (request_allowed rem season players player_ids false) (s_log s) →
  Forall (request_allowed rem season players player_ids false) (s_log (phase1 rem pim mapping s)).
Proof.
  intros Hl. unfold phase1.
  apply (foldl_invariant (λ s1, Forall (request_allowed rem season players player_ids false) (s_log s1))); [|done].
  intros s1 [mid info] Hs1.
  pose proof (phase1_match_log_cache rem pim mid info s1) as H. cbv zeta in H.
  destruct (no_html _); destruct H as [-> _]; [|done].
  by apply Forall_snoc_allowed.
Qed.

End requests.

(** X20. Every request of a run that ends normally is one of: a match
    list page, and only when the marker is not set; the page of a roster
    player through the id of that player's link; the transcript of a
    match which such a page lists for the season together with an export
    link. *)
Theorem run_sends_only_expected_requests (argv : list string) (rem : remote)
    (wb : workbook) (o : outcome) :
  main argv rem wb = Ok o →
  Forall (request_allowed rem (season_of argv)
            (read_players (ws_players wb)).1 (read_players (ws_players wb)).2
            (skip_fetching (ws_control wb)))
         (out_log o).
Proof.
  intros (g & filled & _ & Hd & _ & ->)%main_Ok. simpl.
  unfold scoring_phases.
  destruct (step3 rem (season_of argv) (read_players (ws_players wb)).2
              (read_players (ws_players wb)).1 (log (g_tables g)))
    as [fin lg] eqn:E3. simpl.
  unfold discovery in Hd. destruct (skip_fetching (ws_control wb)) eqn:Eskip.
  - injection Hd as <-. simpl in *.
    change lg with (fin, lg).2. rewrite <- E3. by apply step3_log.
  - destruct (step1 _ _ _ _ _ _ _) as [t|e] eqn:E1; simpl in Hd; [|done].
    apply phase1_log. simpl. change lg with (fin, lg).2. rewrite <- E3.
    apply step3_log. eapply step2_log; [exact Hd|]. simpl.
    revert E1. unfold step1.
    apply (for_each_invariant
             (λ t1, Forall (request_allowed rem (season_of argv)
                              (read_players (ws_players wb)).1
                              (read_players (ws_players wb)).2 false) (log t1)));
      [|done].
    intros it t1 t2 H1 H2. by eapply step1_cell_log.
Qed.

Lemma run_sends_only_expected_requests_witness :
  out_log first_run = [GetList 123; GetUser "1001"; GetUser "1001"]
  ∧ Forall (request_allowed reversed_site (season_of ["dg.py"])
              ["Alice"; "Bob"; "Carol"] [("Alice", "1001")] false)
           (out_log first_run).
Proof.
  split; [vm_compute; reflexivity|].
  apply (run_sends_only_expected_requests ["dg.py"] reversed_site reversed_wb).
  vm_compute. reflexivity.
Defined.
